(** * pm_system: the role-based project tracking workflow of [app.py]

    A shallow embedding of the workflow code of [app.py] (meetings,
    requirement specs, engineer task reports, client reviews, dashboard)
    and the properties its specification states about it.

    The Python code talks to a Google spreadsheet through [gspread] and to
    the Streamlit widgets.  Both are outside the repository.
    - The spreadsheet is a finite map from worksheet titles to sheets (a
      header row and the rows below it).  Every call of [gspread] is one
      request, and every request may be refused: the world carries the
      schedule of the refusals to come ([faults]).  Cells hold the values
      [get_all_records] returns; a value written is the value read back
      (the conversion of number-like text on reading is not modelled).
    - A page is a script run from top to bottom on every interaction.  The
      blocks that act on the spreadsheet are embedded one by one, with the
      values of the widgets and the records already selected as
      parameters; the line ranges are given with each definition.  The
      role each page asks for in its first lines is given with the routing
      of [main] ([required_role]); of the code that only displays, the
      dashboard is embedded as a whole; the other tables and previews and
      the path under which a file is uploaded are left out.
    - Exceptions are values: the class and the text [str(e)] that
      [with_retry] inspects. *)

From Stdlib Require Import ZArith Lia.
From stdpp Require Import gmap strings list fin_maps pretty.

(** ** Python values held in cells and records *)

(** A cell as [get_all_records] hands it to the script: an [int], a finite
    [float] (kept as the exact fraction [num/den] together with the text
    [str()] prints for it), a [str], or [None] (what [dict.get] returns for
    an absent key). *)
Inductive value : Type :=
| VInt (z : Z)
| VFloat (num : Z) (den : positive) (text : string)
| VStr (s : string)
| VNone.

#[global] Instance value_eq_dec : EqDecision value.
Proof. solve_decision. Defined.

(** [bool(v)] *)
Definition truthy (v : value) : bool :=
  match v with
  | VInt z => negb (z =? 0)%Z
  | VFloat n _ _ => negb (n =? 0)%Z
  | VStr s => negb (bool_decide (s = ""))
  | VNone => false
  end.

(** [v == "literal"] *)
Definition eq_str (v : value) (s : string) : bool := bool_decide (v = VStr s).

(** A record of [get_all_records]: a [dict] from header names to cells. *)
Abbreviation record := (gmap string value).

(** A row handed to [ws.update]. *)
Abbreviation row := (list value).

(** ** Exceptions *)

Inductive exn_class : Type :=
| APIError
| WorksheetNotFound
| KeyError
| ValueError
| TypeError
| AttributeError
| Exception_.

#[global] Instance exn_class_eq_dec : EqDecision exn_class.
Proof. solve_decision. Defined.

(** An exception with its class and [str(e)]. *)
Record exn : Type := Raise { exn_kind : exn_class; exn_str : string }.

#[global] Instance exn_eq_dec : EqDecision exn.
Proof. solve_decision. Defined.

Inductive result (A : Type) : Type :=
| Ok (a : A)
| Err (e : exn).
Arguments Ok {A} a.
Arguments Err {A} e.

Definition result_bind {A B} (r : result A) (k : A → result B) : result B :=
  match r with
  | Ok a => k a
  | Err e => Err e
  end.

(** [[f(x) for x in xs]] where [f] may raise: the first exception wins. *)
Fixpoint result_map {A B} (f : A → result B) (xs : list A) : result (list B) :=
  match xs with
  | [] => Ok []
  | x :: xs' =>
      result_bind (f x) (λ y, result_bind (result_map f xs') (λ ys, Ok (y :: ys)))
  end.

(** [d[k]]: [KeyError] when the key is absent; [str(KeyError(k))] is the
    quoted key. *)
Definition getitem (d : record) (k : string) : result value :=
  match d !! k with
  | Some v => Ok v
  | None => Err (Raise KeyError ("'" +:+ k +:+ "'"))
  end.

(** [d.get(k, dflt)] *)
Definition dict_get (d : record) (k : string) (dflt : value) : value :=
  default dflt (d !! k).

(** ** Text helpers: blanks, [int()] and substring test *)

Definition code (c : Ascii.ascii) : Z := Z.of_N (Ascii.N_of_ascii c).

(** ASCII characters for which [str.isspace] holds. *)
Definition ascii_space (c : Ascii.ascii) : bool :=
  let n := code c in
  ((9 <=? n) && (n <=? 13) || (28 <=? n) && (n <=? 32))%Z.

(** The two-byte UTF-8 blanks U+0085 and U+00A0, after the lead byte C2. *)
Definition space2 (c2 : Ascii.ascii) : bool :=
  ((code c2 =? 133) || (code c2 =? 160))%Z.

(** The three-byte UTF-8 blanks: U+1680, U+2000..U+200A, U+2028, U+2029,
    U+202F, U+205F and U+3000. *)
Definition space3 (c1 c2 c3 : Ascii.ascii) : bool :=
  let '(a, b, c) := (code c1, code c2, code c3) in
  ((a =? 225) && (b =? 154) && (c =? 128)
   || (a =? 226) && (b =? 128)
      && ((128 <=? c) && (c <=? 138) || (c =? 168) || (c =? 169) || (c =? 175))
   || (a =? 226) && (b =? 129) && (c =? 159)
   || (a =? 227) && (b =? 128) && (c =? 128))%Z.

(** [not s.strip()] on the UTF-8 bytes of [s]: every character is a blank. *)
Fixpoint all_space (l : list Ascii.ascii) : bool :=
  match l with
  | [] => true
  | c1 :: l1 =>
      if ascii_space c1 then all_space l1
      else match l1 with
           | [] => false
           | c2 :: l2 =>
               if (code c1 =? 194)%Z then space2 c2 && all_space l2
               else match l2 with
                    | [] => false
                    | c3 :: l3 => space3 c1 c2 c3 && all_space l3
                    end
           end
  end.

Definition blank (s : string) : bool := all_space (String.list_ascii_of_string s).

(** [s.lstrip()] on the UTF-8 bytes. *)
Fixpoint lstrip (l : list Ascii.ascii) : list Ascii.ascii :=
  match l with
  | [] => []
  | c1 :: l1 =>
      if ascii_space c1 then lstrip l1
      else match l1 with
           | [] => l
           | c2 :: l2 =>
               if (code c1 =? 194)%Z && space2 c2 then lstrip l2
               else match l2 with
                    | [] => l
                    | c3 :: l3 => if space3 c1 c2 c3 then lstrip l3 else l
                    end
           end
  end.

Definition digit_of (c : Ascii.ascii) : option Z :=
  let n := code c in
  if ((48 <=? n) && (n <=? 57))%Z then Some (n - 48)%Z else None.

(** The digits of a decimal literal, single underscores allowed between
    digits, trailing blanks allowed.  Digits outside ASCII are not
    recognised. *)
Fixpoint int_digits (l : list Ascii.ascii) (acc : Z) (after_digit : bool) : option Z :=
  match l with
  | [] => if after_digit then Some acc else None
  | c :: l' =>
      match digit_of c with
      | Some d => int_digits l' (10 * acc + d)%Z true
      | None =>
          if after_digit then
            if (code c =? 95)%Z then int_digits l' acc false
            else if all_space l then Some acc else None
          else None
      end
  end.

Definition int_of_str (s : string) : option Z :=
  match lstrip (String.list_ascii_of_string s) with
  | [] => None
  | c :: l' =>
      if (code c =? 45)%Z then Z.opp <$> int_digits l' 0 false
      else if (code c =? 43)%Z then int_digits l' 0 false
      else int_digits (c :: l') 0 false
  end.

(** [int(v)]: identity on an [int], truncation toward zero on a [float],
    decimal parsing on a [str], [TypeError] on [None]. *)
Definition py_int (v : value) : result Z :=
  match v with
  | VInt z => Ok z
  | VFloat n d _ => Ok (Z.quot n (Z.pos d))
  | VStr s =>
      match int_of_str s with
      | Some z => Ok z
      | None => Err (Raise ValueError ("invalid literal for int() with base 10: " +:+ s))
      end
  | VNone => Err (Raise TypeError "int() argument must be a string, a bytes-like object or a real number, not 'NoneType'")
  end.

(** [needle in hay] *)
Fixpoint contains (needle hay : string) : bool :=
  String.prefix needle hay
  || match hay with
     | EmptyString => false
     | String _ hay' => contains needle hay'
     end.

(** [max(ids)] of a non-empty list *)
Definition py_max (z : Z) (zs : list Z) : Z := foldl Z.max z zs.

(** ** The spreadsheet backend and the script's world *)

(** A worksheet: its first row (the header names) and the rows below. *)
Record sheet : Type := Sheet { header : list string; body : list row }.

Inductive ui_kind : Type := UiInfo | UiSuccess | UiWarning | UiError.

(** The world a page run acts on.
    - [sheets]: the worksheets of the spreadsheet, by title;
    - [faults]: what the backend answers to the successive requests,
      [Some e] for a request refused with exception [e], [None] (or an
      exhausted schedule) for a request that is served;
    - [slept]: the arguments of the [time.sleep] calls so far, in
      milliseconds, oldest first;
    - [screen]: the [st.info] / [st.success] / [st.warning] / [st.error]
      messages shown so far, oldest first. *)
Record world : Type := World {
  sheets : gmap string sheet;
  faults : list (option exn);
  slept : list Z;
  screen : list (ui_kind * string)
}.

Definition set_sheets (s : gmap string sheet) (w : world) : world :=
  World s (faults w) (slept w) (screen w).
Definition set_faults (fs : list (option exn)) (w : world) : world :=
  World (sheets w) fs (slept w) (screen w).

(** Computations of the script: state passing with exceptions.  The state
    reached when an exception is raised is kept, as in Python. *)
Definition M (A : Type) : Type := world → result A * world.

Definition ret {A} (a : A) : M A := λ w, (Ok a, w).
Definition raise {A} (e : exn) : M A := λ w, (Err e, w).
Definition bind {A B} (m : M A) (k : A → M B) : M B :=
  λ w, match m w with
       | (Ok a, w') => k a w'
       | (Err e, w') => (Err e, w')
       end.
Definition lift {A} (r : result A) : M A := λ w, (r, w).

(** [try: m  except <handled>: h] *)
Definition try_except {A} (m : M A) (handled : exn → bool) (h : exn → M A) : M A :=
  λ w, match m w with
       | (Ok a, w') => (Ok a, w')
       | (Err e, w') => if handled e then h e w' else (Err e, w')
       end.

Notation "'do' x <- m ; k" := (bind m (λ x, k))
  (at level 10, x name, m at level 100, k at level 200).
Notation "m ;; k" := (bind m (λ _, k))
  (at level 100, k at level 200, right associativity).

(** [time.sleep(ms / 1000)] *)
Definition sleep (ms : Z) : M unit :=
  λ w, (Ok tt, World (sheets w) (faults w) (slept w ++ [ms]) (screen w)).

(** [st.info], [st.success], [st.warning], [st.error] *)
Definition show (k : ui_kind) (msg : string) : M unit :=
  λ w, (Ok tt, World (sheets w) (faults w) (slept w) (screen w ++ [(k, msg)])).

(** One request to the backend: refused when the schedule says so, served
    on the worksheets otherwise. *)
Definition request {A} (serve : gmap string sheet → result A * gmap string sheet) : M A :=
  λ w, match faults w with
       | Some e :: fs => (Err e, set_faults fs w)
       | None :: fs =>
           let '(r, s') := serve (sheets w) in (r, set_faults fs (set_sheets s' w))
       | [] =>
           let '(r, s') := serve (sheets w) in (r, set_sheets s' w)
       end.

Definition sheet_of (s : gmap string sheet) (title : string) : sheet :=
  default (Sheet [] []) (s !! title).

(** [sh.worksheet(title)]; the handle of a worksheet is its title. *)
Definition sh_worksheet (title : string) : M string :=
  request (λ s, match s !! title with
                | Some _ => (Ok title, s)
                | None => (Err (Raise WorksheetNotFound title), s)
                end).

(** [sh.add_worksheet(title=title, ...)] *)
Definition sh_add_worksheet (title : string) : M string :=
  request (λ s, match s !! title with
                | None => (Ok title, <[title := Sheet [] []]> s)
                | Some _ => (Err (Raise APIError ("[400]: a sheet with the name " +:+ title +:+ " already exists")), s)
                end).

(** Cells written over a range replace the cells that were there and leave
    the cells beyond them. *)
Fixpoint overlay {A} (new old : list A) : list A :=
  match new, old with
  | [], _ => old
  | x :: new', [] => x :: new'
  | x :: new', _ :: old' => x :: overlay new' old'
  end.

Fixpoint overlay_rows (new old : list row) : list row :=
  match new, old with
  | [], _ => old
  | r :: new', [] => r :: new'
  | r :: new', o :: old' => overlay r o :: overlay_rows new' old'
  end.

(** Trailing empty cells are not reported by the backend. *)
Fixpoint rstrip_empty (l : list string) : list string :=
  match l with
  | [] => []
  | x :: l' =>
      match rstrip_empty l' with
      | [] => if bool_decide (x = "") then [] else [x]
      | t => x :: t
      end
  end.

(** [ws.row_values(1)] *)
Definition ws_row_values_1 (ws : string) : M (list string) :=
  request (λ s, (Ok (rstrip_empty (header (sheet_of s ws))), s)).

(** [ws.update("A1", [headers])] *)
Definition ws_update_A1 (ws : string) (headers : list string) : M unit :=
  request (λ s, let sh := sheet_of s ws in
                (Ok tt, <[ws := Sheet (overlay headers (header sh)) (body sh)]> s)).

(** [ws.update("A2", rows)] *)
Definition ws_update_A2 (ws : string) (rows : list row) : M unit :=
  request (λ s, let sh := sheet_of s ws in
                (Ok tt, <[ws := Sheet (header sh) (overlay_rows rows (body sh))]> s)).

(** [ws.clear()] *)
Definition ws_clear (ws : string) : M unit :=
  request (λ s, (Ok tt, <[ws := Sheet [] []]> s)).

(** The rectangle of cells of a sheet: short rows are filled with empty
    text up to the widest row. *)
Definition width (sh : sheet) : nat :=
  foldr (λ r n, Nat.max (length r) n) (length (header sh)) (body sh).

Definition fill {A} (n : nat) (d : A) (l : list A) : list A :=
  l ++ replicate (n - length l) d.

(** [ws.get_all_values()] *)
Definition all_values (sh : sheet) : list row :=
  match header sh, body sh with
  | [], [] => []
  | _, _ =>
      fill (width sh) (VStr "") (VStr <$> header sh)
        :: (fill (width sh) (VStr "") <$> body sh)
  end.

Definition ws_get_all_values (ws : string) : M (list row) :=
  request (λ s, (Ok (all_values (sheet_of s ws)), s)).

(** [dict(zip(keys, cells))]: a later duplicate key replaces an earlier one. *)
Definition dict_zip (keys : list string) (cells : row) : record :=
  foldl (λ d kv, <[kv.1 := kv.2]> d) ∅ (zip keys cells).

(** [ws.get_all_records()]: one record per row below the header. *)
Definition all_records (sh : sheet) : list record :=
  match header sh, body sh with
  | [], [] => []
  | _, _ =>
      dict_zip (fill (width sh) "" (header sh))
        <$> (fill (width sh) (VStr "") <$> body sh)
  end.

Definition ws_get_all_records (ws : string) : M (list record) :=
  request (λ s, (Ok (all_records (sheet_of s ws)), s)).

(** ** The helpers of [app.py] *)

Definition MEETINGS_HEADERS : list string :=
  ["id"; "date"; "title"; "raw_requirement"].

Definition SRS_INDEX_HEADERS : list string :=
  ["id"; "meeting_id"; "title"; "desc"; "problem"; "goal"; "ui_location";
   "ui_image_name"; "version"; "change_note"; "created_at"; "status";
   "review_comment"].

Definition TASK_HEADERS : list string :=
  ["id"; "name"; "description"; "engineer"; "estimated_hours"; "start_date";
   "end_date"; "engineer_understand_status"; "done_status"; "client_status";
   "result_url"].

Definition SRS_OVERVIEW_HEADERS : list string := ["欄位名稱"; "值"].

(** The test of [with_retry] on [str(e)]. *)
Definition rate_limited (e : exn) : bool :=
  contains "429" (exn_str e) || contains "Quota exceeded" (exn_str e).

(** The delay after the failed attempt number [i] (from 0):
    [1.2 + i] seconds. *)
Definition retry_delay (i : Z) : Z := (1200 + 1000 * i)%Z.

Definition retries_exhausted : exn :=
  Raise Exception_ "Google API 連線多次失敗，請稍後再試。".

(** The loop of [with_retry] over the attempt numbers that remain. *)
Fixpoint retry_loop {A} (func : M A) (attempts : list Z) : M A :=
  match attempts with
  | [] => raise retries_exhausted
  | i :: rest =>
      λ w, match func w with
           | (Ok a, w') => (Ok a, w')
           | (Err e, w') =>
               if rate_limited e
               then (sleep (retry_delay i) ;; retry_loop func rest) w'
               else (Err e, w')
           end
  end.

(** [range(5)] *)
Definition range5 : list Z := [0; 1; 2; 3; 4]%Z.

Definition with_retry {A} (func : M A) : M A := retry_loop func range5.

Definition is_class (c : exn_class) (e : exn) : bool :=
  bool_decide (exn_kind e = c).

Definition nonempty {A} (l : list A) : bool :=
  match l with [] => false | _ => true end.

Definition ensure_worksheet (title : string) (headers : list string) : M string :=
  try_except
    (do ws <- with_retry (sh_worksheet title);
     if nonempty headers then
       do existing <- ws_row_values_1 ws;
       (if nonempty existing then ret tt
        else with_retry (ws_update_A1 ws headers)) ;;
       ret ws
     else ret ws)
    (is_class WorksheetNotFound)
    (λ _,
       do ws <- with_retry (sh_add_worksheet title);
       (if nonempty headers then with_retry (ws_update_A1 ws headers) else ret tt) ;;
       ret ws).

Definition read_all (ws : string) : M (list record) :=
  with_retry (ws_get_all_records ws).

Definition rewrite_sheet (ws : string) (headers : list string) (rows : list row) : M unit :=
  with_retry (ws_clear ws) ;;
  with_retry (ws_update_A1 ws headers) ;;
  if nonempty rows then with_retry (ws_update_A2 ws rows) else ret tt.

(** ** Identifier allocation *)

(** [max(zs)] *)
Definition py_max_list (zs : list Z) : result Z :=
  match zs with
  | [] => Err (Raise ValueError "max() arg is an empty sequence")
  | z :: zs' => Ok (py_max z zs')
  end.

(** [int(m["id"])] *)
Definition record_id (m : record) : result Z :=
  result_bind (getitem m "id") py_int.

(** [new_id = (max([int(m["id"]) for m in existing]) + 1) if existing else 1],
    the expression of lines 212, 282 and 501 (the specification's
    [allocate_id]). *)
Definition new_id (existing : list record) : result Z :=
  if nonempty existing then
    result_bind (result_map record_id existing) (λ ids,
    result_bind (py_max_list ids) (λ m, Ok (m + 1)%Z))
  else Ok 1%Z.

(** ** Dates *)

Record date : Type := Date { year : Z; month : Z; day : Z }.

#[global] Instance date_eq_dec : EqDecision date.
Proof. solve_decision. Defined.

Definition is_leap (y : Z) : bool :=
  ((y mod 4 =? 0) && (negb (y mod 100 =? 0) || (y mod 400 =? 0)))%Z.

Definition days_in_month (y m : Z) : Z :=
  (if m =? 2 then (if is_leap y then 29 else 28)
   else if (m =? 4) || (m =? 6) || (m =? 9) || (m =? 11) then 30
   else 31)%Z.

Definition valid_date (d : date) : bool :=
  ((1 <=? year d) && (year d <=? 9999) && (1 <=? month d) && (month d <=? 12)
   && (1 <=? day d) && (day d <=? days_in_month (year d) (month d)))%Z.

(** [d1 < d2] on dates *)
Definition date_ltb (d1 d2 : date) : bool :=
  ((year d1 <? year d2)
   || (year d1 =? year d2)
      && ((month d1 <? month d2)
          || (month d1 =? month d2) && (day d1 <? day d2)))%Z.

Fixpoint digits_value (l : list Ascii.ascii) (acc : Z) : option Z :=
  match l with
  | [] => Some acc
  | c :: l' =>
      match digit_of c with
      | Some d => digits_value l' (10 * acc + d)%Z
      | None => None
      end
  end.

Definition invalid_isoformat (s : string) : exn :=
  Raise ValueError ("Invalid isoformat string: '" +:+ s +:+ "'").

(** [datetime.date.fromisoformat(s)] on a [str], as Python 3.7 to 3.10
    define it: exactly [YYYY-MM-DD], then the range checks of [date].
    (From Python 3.11 on the function accepts further ISO 8601 forms.) *)
Definition fromisoformat_str (s : string) : result date :=
  match String.list_ascii_of_string s with
  | [y1; y2; y3; y4; s1; m1; m2; s2; d1; d2] =>
      match digits_value [y1; y2; y3; y4] 0, digits_value [m1; m2] 0,
            digits_value [d1; d2] 0 with
      | Some y, Some m, Some d =>
          if ((code s1 =? 45) && (code s2 =? 45))%Z then
            if valid_date (Date y m d) then Ok (Date y m d)
            else Err (Raise ValueError "day is out of range for month")
          else Err (invalid_isoformat s)
      | _, _, _ => Err (invalid_isoformat s)
      end
  | _ => Err (invalid_isoformat s)
  end.

(** [datetime.date.fromisoformat(v)]: [TypeError] unless [v] is a [str]. *)
Definition fromisoformat (v : value) : result date :=
  match v with
  | VStr s => fromisoformat_str s
  | _ => Err (Raise TypeError "fromisoformat: argument must be str")
  end.

Fixpoint zeros (n : nat) : string :=
  match n with
  | O => ""
  | S n' => "0" +:+ zeros n'
  end.

(** [f"{z:0wd}"] for a non-negative [z] *)
Definition pad0 (w : nat) (z : Z) : string :=
  let s := pretty z in zeros (w - String.length s) +:+ s.

(** [d.isoformat()] *)
Definition isoformat (d : date) : string :=
  pad0 4 (year d) +:+ "-" +:+ pad0 2 (month d) +:+ "-" +:+ pad0 2 (day d).

(** ** Text of the workflow *)

(** [str(v)], as the f-strings use it.  The text of a float is carried
    with it. *)
Definition py_str (v : value) : string :=
  match v with
  | VInt z => pretty z
  | VFloat _ _ text => text
  | VStr s => s
  | VNone => "None"
  end.

Definition newline : string := String (Ascii.ascii_of_nat 10) EmptyString.

(** [sep.join(parts)] *)
Fixpoint join (sep : string) (parts : list string) : string :=
  match parts with
  | [] => ""
  | [p] => p
  | p :: ps => p +:+ sep +:+ join sep ps
  end.

(** The two review states: ["待確認"] (pending) and ["已通過"] (approved). *)
Inductive review_status : Type := Pending | Approved.

Definition status_text (s : review_status) : string :=
  match s with
  | Pending => "待確認"
  | Approved => "已通過"
  end.

(** The radio of the engineer form: ["已理解"] (understood) and
    ["需要更多資料"] (needs more information). *)
Inductive understanding : Type := Understood | NeedsMoreInfo.

Definition understand_text (u : understanding) : string :=
  match u with
  | Understood => "已理解"
  | NeedsMoreInfo => "需要更多資料"
  end.

(** The completion marker the dashboard looks for. *)
Definition DONE_MARK : string := "已完成".

Definition IN_PROGRESS : string := "進行中".
Definition WAITING_FOR_INFO : string := "等待資料".

(** The message of a saved spec review. *)
Definition SRS_REVIEW_SAVED : string := "SRS 審核結果已更新！Dashboard 已同步。".

(** The only option of the sub-task select box when no sub-task is listed. *)
Definition NO_SUBTASK_OPTION : string := "（尚無子任務，請 PM 建立）".

Definition overview_title (srs_id : Z) : string := "SRS_OVERVIEW_" +:+ pretty srs_id.
Definition content_title (srs_id : Z) : string := "SRS_CONTENT_" +:+ pretty srs_id.
Definition tasks_title (srs_id : Z) : string := "SRS_TASKS_" +:+ pretty srs_id.
Definition pm_tasks_title (srs_id : Z) : string := "PM_TASKS_" +:+ pretty srs_id.

(** ** Requirement specs: creation (lines 277-393) *)

(** The row written for a record of [srs_index], lines 307-312 and 649-655. *)
Definition srs_row (s : record) : result row :=
  result_bind (result_map (getitem s)
                 ["id"; "meeting_id"; "title"; "desc"; "problem"; "goal";
                  "ui_location"; "ui_image_name"; "version"; "change_note";
                  "created_at"]) (λ cells,
  Ok (cells ++ [dict_get s "status" (VStr "待確認");
                dict_get s "review_comment" (VStr "")])).

(** The fields typed into the spec form, the URL of the uploaded picture
    (or [""]) and the text of the clock. *)
Record srs_form : Type := SrsForm {
  srs_title : string;
  srs_desc : string;
  srs_goal : string;
  srs_ui_loc : string;
  srs_ui_img_url : string;
  srs_version : string;
  srs_change_note : string;
  srs_created : string
}.

(** The dictionary [srs_obj] of lines 318-330. *)
Record srs_obj : Type := SrsObj {
  o_id : Z;
  o_meeting_id : Z;
  o_title : string;
  o_desc : string;
  o_problem : value;
  o_goal : string;
  o_ui_location : string;
  o_ui_image_name : string;
  o_version : string;
  o_change_note : string;
  o_created_at : string
}.

(** [f"M-{m['id']} | {m['date']} | {m['title']}"] *)
Definition meeting_line (m : record) : result string :=
  result_bind (getitem m "id") (λ i,
  result_bind (getitem m "date") (λ d,
  result_bind (getitem m "title") (λ t,
  Ok ("M-" +:+ py_str i +:+ " | " +:+ py_str d +:+ " | " +:+ py_str t)))).

Definition overview_rows (srs : srs_obj) (source : string) : list row :=
  [ [VStr "SRS ID"; VInt (o_id srs)];
    [VStr "來源會議"; VStr source];
    [VStr "功能名稱"; VStr (o_title srs)];
    [VStr "功能描述"; VStr (o_desc srs)];
    [VStr "Problem"; o_problem srs];
    [VStr "Goal"; VStr (o_goal srs)];
    [VStr "UI 位置描述"; VStr (o_ui_location srs)];
    [VStr "UI 圖片檔名"; VStr (o_ui_image_name srs)];
    [VStr "版本"; VStr (o_version srs)];
    [VStr "變更說明"; VStr (o_change_note srs)];
    [VStr "建立時間"; VStr (o_created_at srs)];
    [VStr "審核狀態"; VStr "待確認"];
    [VStr "審核意見（業主）"; VStr ""] ].

Definition content_rows (srs : srs_obj) : list row :=
  [ [VStr "SRS ID"; VInt (o_id srs)];
    [VStr "功能名稱"; VStr (o_title srs)];
    [VStr "功能描述"; VStr (o_desc srs)];
    [VStr "Problem"; o_problem srs];
    [VStr "Goal"; VStr (o_goal srs)];
    [VStr "UI 位置描述"; VStr (o_ui_location srs)];
    [VStr "UI 圖片網址"; VStr (o_ui_image_name srs)];
    [VStr "版本"; VStr (o_version srs)];
    [VStr "變更說明"; VStr (o_change_note srs)];
    [VStr "建立時間"; VStr (o_created_at srs)] ].

Definition any_exn (e : exn) : bool := true.

Definition create_srs_worksheets (srs : srs_obj) (meeting : record) : M unit :=
  let srs_id := o_id srs in
  do ws_over <- ensure_worksheet (overview_title srs_id) SRS_OVERVIEW_HEADERS;
  do source <- lift (meeting_line meeting);
  rewrite_sheet ws_over SRS_OVERVIEW_HEADERS (overview_rows srs source) ;;
  do ws_ct <- ensure_worksheet (content_title srs_id) ["欄位"; "值"];
  rewrite_sheet ws_ct ["欄位"; "值"] (content_rows srs) ;;
  do ws_tasks <- ensure_worksheet (tasks_title srs_id) TASK_HEADERS;
  rewrite_sheet ws_tasks TASK_HEADERS [] ;;
  try_except (sh_worksheet (pm_tasks_title srs_id) ;; ret tt) any_exn
    (λ _, sh_add_worksheet (pm_tasks_title srs_id) ;; ret tt).

(** The new row of [srs_index], lines 288-302. *)
Definition new_srs_row (nid mid : Z) (problem : value) (f : srs_form) : row :=
  [VInt nid; VInt mid; VStr (srs_title f); VStr (srs_desc f); problem;
   VStr (srs_goal f); VStr (srs_ui_loc f); VStr (srs_ui_img_url f);
   VStr (srs_version f); VStr (srs_change_note f); VStr (srs_created f);
   VStr "待確認"; VStr ""].

(** The body of [if ok2:] in [page_pm_meeting_srs], lines 277-334;
    [ws_srs] is the handle of [srs_index], [sel_meeting] the record of the
    meeting chosen in the select box. *)
Definition page_pm_create_srs (ws_srs : string) (sel_meeting : record)
    (f : srs_form) : M unit :=
  if blank (srs_title f) then show UiError "SRS 功能名稱為必填"
  else
    do exist <- read_all ws_srs;
    do nid <- lift (new_id exist);
    do problem <- lift (getitem sel_meeting "raw_requirement");
    do mid <- lift (record_id sel_meeting);
    do rows <- lift (result_map srs_row exist);
    rewrite_sheet ws_srs SRS_INDEX_HEADERS (rows ++ [new_srs_row nid mid problem f]) ;;
    create_srs_worksheets
      (SrsObj nid mid (srs_title f) (srs_desc f) problem (srs_goal f)
         (srs_ui_loc f) (srs_ui_img_url f) (srs_version f) (srs_change_note f)
         (srs_created f))
      sel_meeting ;;
    show UiSuccess ("SRS-" +:+ pretty nid +:+ " 建立成功！").

(** ** Meetings: creation (lines 207-223) *)

Definition meeting_row (m : record) : result row :=
  result_map (getitem m) ["id"; "date"; "title"; "raw_requirement"].

Definition page_pm_create_meeting (ws_meetings : string) (d : date)
    (title raw_req : string) : M unit :=
  if blank title then show UiError "會議主題為必填"
  else
    do existing <- read_all ws_meetings;
    do nid <- lift (new_id existing);
    do rows <- lift (result_map meeting_row existing);
    rewrite_sheet ws_meetings MEETINGS_HEADERS
      (rows ++ [[VInt nid; VStr (isoformat d); VStr title; VStr raw_req]]) ;;
    show UiSuccess ("已建立 Meeting：M-" +:+ pretty nid).

(** ** Engineer reports (lines 442-548) *)

(** The PM sub-task section, lines 442-457, and line 469: the first column
    of the rows below the header of [PM_TASKS_<id>], or [[]] when the
    frame [df_pm] is empty. *)
Definition first_column (rows : list row) : list value :=
  (λ r, default (VStr "") (head r)) <$> rows.

Definition pm_subtasks_of (pm_values : list row) : list value :=
  if (length pm_values <=? 1)%nat then []
  else
    let columns := default [] (head pm_values) in
    let data := tail pm_values in
    if nonempty columns then first_column data else [].

Definition page_engineer_pm_subtasks (srs_id : Z) : M (list value) :=
  try_except
    (do ws_pm <- sh_worksheet (pm_tasks_title srs_id);
     do pm_values <- ws_get_all_values ws_pm;
     (if (length pm_values <=? 1)%nat then show UiInfo "此 SRS 尚無 PM 拆解子任務"
      else ret tt) ;;
     ret (pm_subtasks_of pm_values))
    (is_class WorksheetNotFound)
    (λ _, show UiInfo "尚未建立 PM 子任務表" ;; ret []).

(** [st.selectbox(label, options)] where the user picked position [choice];
    the widget returns one of its options, the first one by default. *)
Definition selectbox {A} (dflt : A) (options : list A) (choice : nat) : A :=
  match options !! choice with
  | Some x => x
  | None => default dflt (head options)
  end.

(** A file of the uploader with what [upload_to_dropbox] answers for it:
    the URL, or the exception it raises. *)
Record uploaded_file : Type := UploadedFile {
  file_name : string;
  upload_outcome : result string
}.

Definition upload_to_dropbox (f : uploaded_file) : M string :=
  lift (upload_outcome f).

Fixpoint upload_all (files : list uploaded_file) : M (list string) :=
  match files with
  | [] => ret []
  | f :: files' =>
      do url <- upload_to_dropbox f;
      do urls <- upload_all files';
      ret (url :: urls)
  end.

(** The widgets of [eng_report_form]. *)
Record report_form : Type := ReportForm {
  subtask_choice : nat;
  understand_status : understanding;
  est_hours : value;
  start_date : date;
  end_date : date;
  result_files : list uploaded_file
}.

(** The options of the sub-task select box, line 474. *)
Definition subtask_options (pm_subtasks : list value) : list value :=
  if nonempty pm_subtasks then pm_subtasks else [VStr NO_SUBTASK_OPTION].

Definition subtask_name (pm_subtasks : list value) (f : report_form) : value :=
  selectbox (VStr NO_SUBTASK_OPTION) (subtask_options pm_subtasks) (subtask_choice f).

(** The derived task state, line 532. *)
Definition done_status_of (u : understanding) : string :=
  if bool_decide (understand_text u = "已理解") then IN_PROGRESS else WAITING_FOR_INFO.

(** The new row, lines 523-535. *)
Definition new_task_row (nid : Z) (name : value) (f : report_form) (result_url : string) : row :=
  [VInt nid;
   name;
   VStr "";
   VStr "Engineer";
   est_hours f;
   VStr (isoformat (start_date f));
   VStr (isoformat (end_date f));
   VStr (understand_text (understand_status f));
   VStr (done_status_of (understand_status f));
   VStr "待確認";
   VStr result_url].

(** The row written for an existing task, lines 539-544. *)
Definition task_row (t : record) : result row :=
  result_map (getitem t) TASK_HEADERS.

(** [result_url], line 518. *)
Definition result_url_of (upload_urls : list string) : string :=
  if nonempty upload_urls then join newline upload_urls else "".

(** Section 4 of [page_engineer], lines 466-548: the task table is read,
    the form is shown, and on [submitted] the report is appended. *)
Definition page_engineer_report (srs_id : Z) (pm_subtasks : list value)
    (f : report_form) (submitted : bool) : M unit :=
  do ws_engineer <- ensure_worksheet (tasks_title srs_id) TASK_HEADERS;
  do existing_tasks <- read_all ws_engineer;
  if submitted then
    do nid <- lift (new_id existing_tasks);
    do upload_urls <- upload_all (result_files f);
    let result_url := result_url_of upload_urls in
    let new_row := new_task_row nid (subtask_name pm_subtasks f) f result_url in
    do rows <- lift (result_map task_row existing_tasks);
    rewrite_sheet ws_engineer TASK_HEADERS (rows ++ [new_row]) ;;
    show UiSuccess "已成功回報！Dashboard 已同步更新。"
  else ret tt.

(** Sections 3 and 4 of [page_engineer] in sequence. *)
Definition page_engineer (srs_id : Z) (f : report_form) (submitted : bool) : M unit :=
  do pm_subtasks <- page_engineer_pm_subtasks srs_id;
  page_engineer_report srs_id pm_subtasks f submitted.

(** ** Spec review (lines 641-677) *)

(** One turn of the loop of lines 645-655. *)
Definition reviewed_srs_row (srs_id : Z) (new_status : review_status)
    (new_comment : string) (x : record) : result row :=
  result_bind (record_id x) (λ xid,
  srs_row (if bool_decide (xid = srs_id)
           then <["review_comment" := VStr new_comment]>
                  (<["status" := VStr (status_text new_status)]> x)
           else x)).

(** One turn of the loop of lines 664-671. *)
Definition mirrored_row (new_status : review_status) (new_comment : string)
    (r : record) : row :=
  let k := dict_get r "欄位名稱" VNone in
  if eq_str k "審核狀態" then [k; VStr (status_text new_status)]
  else if eq_str k "審核意見（業主）" then [k; VStr new_comment]
  else [k; dict_get r "值" VNone].

Definition update_srs_index (ws_srs : string) (srs_id : Z)
    (new_status : review_status) (new_comment : string) : M unit :=
  do xs <- read_all ws_srs;
  do updated_rows <- lift (result_map (reviewed_srs_row srs_id new_status new_comment) xs);
  rewrite_sheet ws_srs SRS_INDEX_HEADERS updated_rows.

Definition update_overview (srs_id : Z) (new_status : review_status)
    (new_comment : string) : M unit :=
  do ws_over <- sh_worksheet (overview_title srs_id);
  do ov <- read_all ws_over;
  rewrite_sheet ws_over SRS_OVERVIEW_HEADERS (mirrored_row new_status new_comment <$> ov).

(** The body of [if st.button("💾 儲存審核結果"):] in
    [page_client_srs_review]. *)
Definition page_client_srs_review_save (ws_srs : string) (srs_id : Z)
    (new_status : review_status) (new_comment : string) : M unit :=
  update_srs_index ws_srs srs_id new_status new_comment ;;
  try_except (update_overview srs_id new_status new_comment) any_exn (λ _, ret tt) ;;
  show UiSuccess SRS_REVIEW_SAVED.

(** ** Task review (lines 702-772) *)

(** [urls.split] of line 740 exists on text only. *)
Definition check_urls (urls : value) : result unit :=
  if truthy urls then
    match urls with
    | VStr _ => Ok tt
    | _ => Err (Raise AttributeError "object has no attribute 'split'")
    end
  else Ok tt.

(** One turn of the loop of lines 725-768; [choice tid] is what the client
    selected in the box keyed by [tid], [None] when the box was left at its
    default.  (Two rows with the same id would give two widgets the same
    key, which Streamlit refuses before anything is saved; the model lets
    such a page go on.) *)
Definition reviewed_task_row (choice : Z → option review_status) (t : record) : result row :=
  result_bind (record_id t) (λ tid,
  result_bind (check_urls (dict_get t "result_url" (VStr ""))) (λ _,
  let index := if eq_str (dict_get t "client_status" (VStr "待確認")) "待確認"
               then Pending else Approved in
  let client_status := default index (choice tid) in
  Ok [VInt tid;
      dict_get t "name" (VStr "");
      dict_get t "description" (VStr "");
      dict_get t "engineer" (VStr "");
      dict_get t "estimated_hours" (VStr "");
      dict_get t "start_date" (VStr "");
      dict_get t "end_date" (VStr "");
      dict_get t "engineer_understand_status" (VStr "");
      dict_get t "done_status" (VStr "");
      VStr (status_text client_status);
      dict_get t "result_url" (VStr "")])).

Definition page_client_task_review (srs_id : Z) (choice : Z → option review_status)
    (save : bool) : M unit :=
  do found <- try_except
                (do ws_tasks <- sh_worksheet (tasks_title srs_id);
                 do tasks <- read_all ws_tasks;
                 ret (Some (ws_tasks, tasks)))
                (is_class WorksheetNotFound)
                (λ _, show UiInfo "此 SRS 尚無工程師任務" ;; ret None);
  match found with
  | None => ret tt
  | Some (ws_tasks, tasks) =>
      do updated_rows <- lift (result_map (reviewed_task_row choice) tasks);
      if save then
        rewrite_sheet ws_tasks TASK_HEADERS updated_rows ;;
        show UiSuccess "任務成果審核成功，Dashboard 已同步更新！"
      else ret tt
  end.

(** ** Dashboard: the overdue flag (lines 879-889) *)

Definition OVERDUE : string := "⚠ 逾期".

(** The loop body of lines 880-889 for a given [datetime.date.fromisoformat]. *)
Definition overdue_with (parse : value → result date) (today : date) (t : record) : string :=
  let end_ := dict_get t "end_date" VNone in
  let done_status := dict_get t "done_status" (VStr "") in
  if truthy end_ && negb (eq_str done_status DONE_MARK) then
    match parse end_ with
    | Ok d => if date_ltb d today then OVERDUE else ""
    | Err _ => ""
    end
  else "".

Definition overdue (today : date) (t : record) : string :=
  overdue_with fromisoformat today t.

(** ** Vocabulary of the statements *)

(** [throttled func k w w']: started in [w], the first [k] attempts of
    [func] all failed with a rate-limit signal, the attempt number [i]
    (from 0) was followed by a sleep of [retry_delay i], and the world is
    then [w']. *)
Inductive throttled {A} (func : M A) : nat → world → world → Prop :=
| throttled_O w : throttled func 0 w w
| throttled_S k w w1 e w2 :
    throttled func k w w1 →
    func w1 = (Err e, w2) →
    rate_limited e = true →
    throttled func (S k) w (sleep (retry_delay (Z.of_nat k)) w2).2.

(** The delays of the first [k] failed attempts. *)
Definition delays (k : nat) : list Z := (λ i, retry_delay (Z.of_nat i)) <$> seq 0 k.

(** The worksheets [ensure_worksheet title headers] can leave behind,
    started from worksheets [s0]: nothing changed, the header written over
    an empty first row, or the worksheet added and still empty. *)
Definition ensured (title : string) (headers : list string)
    (s0 s : gmap string sheet) : Prop :=
  s = s0
  ∨ (rstrip_empty (header (sheet_of s0 title)) = []
     ∧ s = <[title := Sheet (overlay headers (header (sheet_of s0 title)))
                        (body (sheet_of s0 title))]> s0)
  ∨ (s0 !! title = None ∧ s = <[title := Sheet [] []]> s0).

(** A property of the worksheets that does not depend on the worksheet
    [title]. *)
Definition insensitive (P : gmap string sheet → Prop) (title : string) : Prop :=
  ∀ s sh, P s → P (<[title := sh]> s).

(** ** Vocabulary of the statements: the task tables *)

Definition is_task_title (t : string) : bool := String.prefix "SRS_TASKS_" t.

(** A task row whose [client_status] (column 9 of the eleven) is one of the
    two review states. *)
Definition client_status_ok (r : row) : Prop :=
  length r = 11%nat
  ∧ (r !! 9%nat = Some (VStr "待確認") ∨ r !! 9%nat = Some (VStr "已通過")).

(** A task table: still empty, or the task header over such rows. *)
Definition task_sheet_ok (sh : sheet) : Prop :=
  sh = Sheet [] []
  ∨ (header sh = TASK_HEADERS ∧ Forall client_status_ok (body sh)).

Definition tasks_ok (s : gmap string sheet) : Prop :=
  ∀ t sh, s !! t = Some sh → is_task_title t = true → task_sheet_ok sh.

(** One action of a user on the pages, with any input, in any world; or a
    change of what the backend will refuse next. *)
Inductive step : world → world → Prop :=
| step_create_meeting d title raw_req w :
    step w (page_pm_create_meeting "meetings" d title raw_req w).2
| step_create_srs sel_meeting f w :
    step w (page_pm_create_srs "srs_index" sel_meeting f w).2
| step_engineer srs_id f submitted w :
    step w (page_engineer srs_id f submitted w).2
| step_srs_review srs_id new_status new_comment w :
    step w (page_client_srs_review_save "srs_index" srs_id new_status new_comment w).2
| step_task_review srs_id choice save w :
    step w (page_client_task_review srs_id choice save w).2
| step_backend fs w :
    step w (set_faults fs w).

(** The cell of a task row under the column [k]. *)
Definition task_field (r : row) (k : string) : option value :=
  dict_zip TASK_HEADERS r !! k.


(** ** Vocabulary of the statements: the spec review in the words of the
    specification *)



(** A computation that shows nothing on the screen. *)
Definition quiet {A} (m : M A) : Prop := ∀ w, screen (m w).2 = screen w.

(** ** Example data *)

Definition id_only (z : Z) : record := {["id" := VInt z]}.

Definition too_many_requests : exn :=
  Raise APIError "APIError: [429]: Quota exceeded for quota metric 'Read requests'".

(** ** Vocabulary of the statements: triples on the worksheets *)

(** [triple P m Q E]: run in a world whose worksheets satisfy [P], with any
    schedule of refused requests, [m] either returns [a] and leaves
    worksheets satisfying [Q a], or raises and leaves worksheets satisfying
    [E]. *)
Definition triple {A} (P : gmap string sheet → Prop) (m : M A)
    (Q : A → gmap string sheet → Prop) (E : gmap string sheet → Prop) : Prop :=
  ∀ w, P (sheets w) →
    match m w with
    | (Ok a, w') => Q a (sheets w')
    | (Err _, w') => E (sheets w')
    end.

(** The worksheets a complete or partial [rewrite_sheet ws headers rows]
    can leave behind, started from worksheets [s0]. *)
Definition rewritten (ws : string) (headers : list string) (rows : list row)
    (s0 s : gmap string sheet) : Prop :=
  s = <[ws := Sheet headers rows]> s0.

Definition half_rewritten (ws : string) (headers : list string)
    (s0 s : gmap string sheet) : Prop :=
  s = s0 ∨ s = <[ws := Sheet [] []]> s0 ∨ s = <[ws := Sheet headers []]> s0.

(** A reviewed task with an uploaded result, and a report form. *)
Definition task_1 : row :=
  [VInt 1; VStr "設計登入頁"; VStr ""; VStr "Engineer"; VFloat 3 2 "1.5";
   VStr "2024-01-01"; VStr "2024-01-05"; VStr "已理解"; VStr "進行中";
   VStr "已通過"; VStr "https://www.dropbox.com/s/a/1_1_login.png?raw=1"].

Definition sheets_1 : gmap string sheet :=
  {[ "SRS_TASKS_1" := Sheet TASK_HEADERS [task_1] ]}.

Definition form_1 : report_form :=
  ReportForm 0 NeedsMoreInfo (VFloat 4 1 "4.0") (Date 2024 2 1) (Date 2024 2 9) [].

(** A spec whose PM sub-task sheet has a header and no row, and whose task
    table is empty. *)
Definition sheets_2 : gmap string sheet :=
  {[ "PM_TASKS_1" := Sheet ["子任務"; "說明"] [];
     "SRS_TASKS_1" := Sheet TASK_HEADERS [] ]}.

(** A spec with two listed PM sub-tasks. *)
Definition sheets_3 : gmap string sheet :=
  {[ "PM_TASKS_1" := Sheet ["子任務"; "說明"]
                       [[VStr "設計登入頁"; VStr "含錯誤提示"]; [VStr "串接 API"]];
     "SRS_TASKS_1" := Sheet TASK_HEADERS [] ]}.

(** The meeting and the spec of the scenario of the specification, a
    second spec that was reviewed before, and the Overview of the first. *)
Definition meeting_1 : record :=
  dict_zip MEETINGS_HEADERS
    [VInt 1; VStr "2024-01-01"; VStr "Kickoff"; VStr "Need a report export feature"].

Definition srs_form_1 : srs_form :=
  SrsForm "Export CSV" "匯出報表" "one-click export" "報表頁" "" "v0.1" ""
    "2024-01-02 10:00:00".

Definition srs_1 : row :=
  [VInt 1; VInt 1; VStr "Export CSV"; VStr "匯出報表";
   VStr "Need a report export feature"; VStr "one-click export"; VStr "報表頁";
   VStr ""; VStr "v0.1"; VStr ""; VStr "2024-01-02 10:00:00"; VStr "待確認"; VStr ""].

Definition srs_2 : row :=
  [VInt 2; VInt 1; VStr "Import CSV"; VStr "匯入報表"; VStr "Need a report export feature";
   VStr "bulk import"; VStr "設定頁"; VStr ""; VStr "v0.2"; VStr "第二版";
   VStr "2024-01-03 09:30:00"; VStr "已通過"; VStr "沒問題"].

Definition sheets_4 : gmap string sheet :=
  {[ "srs_index" := Sheet SRS_INDEX_HEADERS [srs_1; srs_2];
     "SRS_OVERVIEW_1" :=
       Sheet SRS_OVERVIEW_HEADERS
         (overview_rows
            (SrsObj 1 1 "Export CSV" "匯出報表" (VStr "Need a report export feature")
               "one-click export" "報表頁" "" "v0.1" "" "2024-01-02 10:00:00")
            "M-1 | 2024-01-01 | Kickoff") ]}.

(** A spreadsheet with the meeting of the scenario and an empty index. *)
Definition sheets_5 : gmap string sheet :=
  {[ "meetings" := Sheet MEETINGS_HEADERS
                     [[VInt 1; VStr "2024-01-01"; VStr "Kickoff";
                       VStr "Need a report export feature"]];
     "srs_index" := Sheet SRS_INDEX_HEADERS [] ]}.

(** The worksheets after [create_srs_worksheets]. *)
Definition provisioned (srs : srs_obj) (source : string) (s : gmap string sheet) :
    gmap string sheet :=
  let s3 := <[tasks_title (o_id srs) := Sheet TASK_HEADERS []]>
              (<[content_title (o_id srs) := Sheet ["欄位"; "值"] (content_rows srs)]>
                 (<[overview_title (o_id srs) :=
                      Sheet SRS_OVERVIEW_HEADERS (overview_rows srs source)]> s)) in
  match s !! pm_tasks_title (o_id srs) with
  | Some _ => s3
  | None => <[pm_tasks_title (o_id srs) := Sheet [] []]> s3
  end.

(** An index whose last spec has the id 428. *)
Definition srs_428 : row :=
  [VInt 428; VInt 1; VStr "Import CSV"; VStr "匯入報表"; VStr "Need a report export feature";
   VStr "bulk import"; VStr "設定頁"; VStr ""; VStr "v0.2"; VStr "";
   VStr "2024-05-03 09:30:00"; VStr "待確認"; VStr ""].

Definition sheets_6 : gmap string sheet :=
  {[ "srs_index" := Sheet SRS_INDEX_HEADERS [srs_428] ]}.

(** ** Vocabulary of the statements: a reviewed task table, row by row *)

(** [int(t["id"])] on the row of the table. *)
Definition row_id (r : row) : result Z := py_int (default (VStr "") (head r)).

(** The row the task review writes back for the row [r] of the table: the
    id as an integer, the review state chosen in its box (by default
    pending when the state read is "待確認", approved otherwise), and every
    other cell as read. *)
Definition review_row (choice : Z → option review_status) (r : row) : row :=
  match row_id r with
  | Ok tid =>
      let index := if eq_str (default (VStr "") (r !! 9%nat)) "待確認"
                   then Pending else Approved in
      <[0%nat := VInt tid]>
        (<[9%nat := VStr (status_text (default index (choice tid)))]> r)
  | Err _ => r
  end.


(** ** Dashboard: counts of the overview table (lines 797-817) *)

(** [pm_task_count], lines 800-806; the bare [except] catches everything. *)
Definition pm_task_count_of (pm_values : list row) : nat :=
  if (1 <? length pm_values)%nat then (length pm_values - 1)%nat else 0%nat.

Definition dashboard_pm_task_count (srs_id : Z) : M nat :=
  try_except
    (do ws_pm <- sh_worksheet (pm_tasks_title srs_id);
     do pm_values <- ws_get_all_values ws_pm;
     ret (pm_task_count_of pm_values))
    any_exn
    (λ _, ret 0%nat).

(** [eng_tasks], lines 808-813. *)
Definition dashboard_eng_tasks (srs_id : Z) : M (list record) :=
  try_except
    (do ws_tasks <- sh_worksheet (tasks_title srs_id);
     read_all ws_tasks)
    any_exn
    (λ _, ret []).

(** [len([t for t in eng_tasks if t.get("done_status") == "已完成"])] *)
Definition done_count (eng_tasks : list record) : nat :=
  length (List.filter (λ t, eq_str (dict_get t "done_status" VNone) DONE_MARK) eng_tasks).

(** [f"{done}/{total}" if total else "0/0"] *)
Definition progress_rate (eng_tasks : list record) : string :=
  let total := length eng_tasks in
  let done := done_count eng_tasks in
  if (total =? 0)%nat then "0/0" else pretty done +:+ "/" +:+ pretty total.

(** ** Vocabulary of the statements: an invariant of the task tables *)

(** A task table: still empty, or the task header over rows that all
    satisfy [R]. *)
Definition task_sheet_inv (R : row → Prop) (sh : sheet) : Prop :=
  sh = Sheet [] []
  ∨ (header sh = TASK_HEADERS ∧ Forall R (body sh)).

Definition tasks_inv (R : row → Prop) (s : gmap string sheet) : Prop :=
  ∀ t sh, s !! t = Some sh → is_task_title t = true → task_sheet_inv R sh.

(** A task row of eleven cells whose [done_status] (column 8) is not the
    completion mark. *)
Definition not_done (r : row) : Prop :=
  length r = 11%nat ∧ r !! 8%nat ≠ Some (VStr DONE_MARK).

(** ** Dropbox: the shared link of an uploaded file (lines 86-109) *)

(** [s.replace(old, new)] for a non-empty [old]: the occurrences of [old]
    are replaced from left to right without overlap; [skip] counts the
    characters of a replaced occurrence that are still to be passed. *)
Fixpoint replace_go (old new : string) (skip : nat) (s : string) : string :=
  match s with
  | EmptyString => EmptyString
  | String c s' =>
      match skip with
      | S k => replace_go old new k s'
      | O =>
          if String.prefix old s
          then new +:+ replace_go old new (String.length old - 1) s'
          else String c (replace_go old new 0 s')
      end
  end.

Definition replace (old new s : string) : string := replace_go old new 0 s.

(** Lines 105-108: the link is turned into a raw link. *)
Definition raw_url (url : string) : string :=
  let url := replace "?dl=1" "?raw=1" (replace "?dl=0" "?raw=1" url) in
  if contains "raw=1" url then url else url +:+ "?raw=1".

Module Dropbox.

(** What the Dropbox client answers for one file: to the upload, to the
    creation of a shared link (the URL of the link) and to the listing of
    the existing links (their URLs). *)
Record answers : Type := Answers {
  files_upload : result unit;
  sharing_create_shared_link_with_settings : result string;
  sharing_list_shared_links : result (list string)
}.

Definition NO_LINK : exn := Raise Exception_ "Dropbox 無法建立下載連結".

Definition upload_to_dropbox (a : answers) : M string :=
  try_except (lift (files_upload a)) any_exn
    (λ e, show UiError ("Dropbox 上傳錯誤: " +:+ exn_str e) ;; raise e) ;;
  do url <- try_except
              (do u <- lift (sharing_create_shared_link_with_settings a); ret (Some u))
              any_exn
              (λ _, do existing <- lift (sharing_list_shared_links a);
                    ret (head existing));
  match url with
  | Some u => if bool_decide (u = "") then raise NO_LINK else ret (raw_url u)
  | None => raise NO_LINK
  end.

End Dropbox.

(** ** Choosing a spec (lines 414-416, 596-601 and 698-700) *)

(** [d[k] = v] on a [dict] with text keys, kept in insertion order: the
    value of a key already present is replaced where the key stands, a new
    key goes to the end. *)
Fixpoint dict_set {V} (k : string) (v : V) (d : list (string * V)) : list (string * V) :=
  match d with
  | [] => [(k, v)]
  | (k', v') :: d' =>
      if bool_decide (k' = k) then (k, v) :: d' else (k', v') :: dict_set k v d'
  end.

(** [d[k]] *)
Fixpoint dict_item {V} (d : list (string * V)) (k : string) : result V :=
  match d with
  | [] => Err (Raise KeyError ("'" +:+ k +:+ "'"))
  | (k', v) :: d' => if bool_decide (k' = k) then Ok v else dict_item d' k
  end.

(** [f"SRS-{s['id']} | {s['title']}"], the label of the engineer page and
    of the task review. *)
Definition srs_label (s : record) : result string :=
  result_bind (getitem s "id") (λ i,
  result_bind (getitem s "title") (λ t,
  Ok ("SRS-" +:+ py_str i +:+ " | " +:+ py_str t))).

(** [f"SRS-{s['id']} | {s['title']} | 狀態：{s.get('status','待確認')}"],
    the label of the spec review. *)
Definition srs_review_label (s : record) : result string :=
  result_bind (getitem s "id") (λ i,
  result_bind (getitem s "title") (λ t,
  Ok ("SRS-" +:+ py_str i +:+ " | " +:+ py_str t +:+ " | 狀態："
      +:+ py_str (dict_get s "status" (VStr "待確認"))))).

(** [options = {label(s): int(s["id"]) for s in srs_list}] *)
Definition srs_options (label : record → result string) (srs_list : list record) :
    result (list (string * Z)) :=
  foldl (λ acc s,
           result_bind acc (λ d,
           result_bind (label s) (λ k,
           result_bind (record_id s) (λ v, Ok (dict_set k v d)))))
        (Ok []) srs_list.

(** [label = st.selectbox(..., list(options.keys())); srs_id = options[label]]
    where the user picked position [choice]. *)
Definition select_srs (label : record → result string) (srs_list : list record)
    (choice : nat) : result Z :=
  result_bind (srs_options label srs_list) (λ options,
  dict_item options (selectbox "" (options.*1) choice)).

(** ** Routing (lines 913-970) and the role gates of the pages *)

Inductive page : Type :=
| LoginPage
| Dashboard
| PmMeetingSrs
| EngineerPage
| ClientSrsReview
| ClientTaskReview.

(** The options of the module select box for a role, lines 935-951; the
    last list is the [else] branch. *)
Definition page_names (role : string) : list string :=
  if bool_decide (role = "pm") then ["Dashboard"; "會議與 SRS 設定"]
  else if bool_decide (role = "engineer") then ["Dashboard"; "工程師任務工作台"]
  else ["Dashboard"; "SRS 審核（業主）"; "任務成果審核（業主）"].

(** The chain of lines 956-969; no branch is taken for another name. *)
Definition route (page_name : string) : option page :=
  if bool_decide (page_name = "Dashboard") then Some Dashboard
  else if bool_decide (page_name = "會議與 SRS 設定") then Some PmMeetingSrs
  else if bool_decide (page_name = "工程師任務工作台") then Some EngineerPage
  else if bool_decide (page_name = "SRS 審核（業主）") then Some ClientSrsReview
  else if bool_decide (page_name = "任務成果審核（業主）") then Some ClientTaskReview
  else None.

(** [main]: [role] is [st.session_state.role], [logout] tells whether the
    logout button was pressed (the run then starts again without a role)
    and [choice] is the position picked in the module select box. *)
Definition main (role : option string) (logout : bool) (choice : nat) : option page :=
  match role with
  | Some r =>
      if bool_decide (r = "") then Some LoginPage
      else if logout then Some LoginPage
      else route (selectbox "" (page_names r) choice)
  | None => Some LoginPage
  end.

(** The role a page asks for in its first lines (185, 399, 582, 683); the
    dashboard and the login page ask for none. *)
Definition required_role (p : page) : option string :=
  match p with
  | PmMeetingSrs => Some "pm"
  | EngineerPage => Some "engineer"
  | ClientSrsReview | ClientTaskReview => Some "client"
  | Dashboard | LoginPage => None
  end.

(** The roles the login page sets, lines 988-1001. *)
Definition login_roles : list string := ["pm"; "engineer"; "client"].

(** ** Dashboard: the page (lines 777-907) *)

(** A [for] loop over a list, with the results of the turns. *)
Fixpoint for_each {A B} (f : A → M B) (l : list A) : M (list B) :=
  match l with
  | [] => ret []
  | x :: l' =>
      do y <- f x;
      do ys <- for_each f l';
      ret (y :: ys)
  end.

(** [meeting_map = {int(m["id"]): m for m in meetings}] *)
Definition meeting_map (meetings : list record) : result (gmap Z record) :=
  foldl (λ acc m,
           result_bind acc (λ d,
           result_bind (record_id m) (λ i, Ok (<[i := m]> d))))
        (Ok ∅) meetings.

(** Lines 819-821: [m = meeting_map.get(mid)], then the text of the
    meeting [if m else ""]; an empty [dict] is falsy. *)
Definition meeting_str_of (mm : gmap Z record) (mid : Z) : result string :=
  match mm !! mid with
  | Some m => if bool_decide (m = ∅) then Ok "" else meeting_line m
  | None => Ok ""
  end.

(** One turn of the loop of lines 797-832: the row of the overview table,
    in the order of its columns. *)
Definition dashboard_overview_row (mm : gmap Z record) (s : record) : M row :=
  do srs_id <- lift (record_id s);
  do pm_task_count <- dashboard_pm_task_count srs_id;
  do eng_tasks <- dashboard_eng_tasks srs_id;
  do mid <- lift (py_int (dict_get s "meeting_id" VNone));
  do meeting_str <- lift (meeting_str_of mm mid);
  do title <- lift (getitem s "title");
  do version <- lift (getitem s "version");
  ret [VInt srs_id; title; version; VStr meeting_str;
       VInt (Z.of_nat pm_task_count); VStr (progress_rate eng_tasks);
       dict_get s "status" (VStr "待確認"); dict_get s "review_comment" (VStr "")].

(** One turn of the loop of lines 843-859.  (Showing the frame of the
    sub-tasks is taken not to raise.) *)
Definition dashboard_pm_section (s : record) : M unit :=
  do srs_id <- lift (record_id s);
  do title <- lift (getitem s "title");
  try_except
    (do ws_pm <- sh_worksheet (pm_tasks_title srs_id);
     do values <- ws_get_all_values ws_pm;
     if (length values <=? 1)%nat then show UiInfo "尚無 PM 子任務" else ret tt)
    any_exn
    (λ _, show UiInfo "尚無 PM 子任務表").

(** The row of the task list for the task [t] of the spec [srs_id],
    lines 879-902. *)
Definition dashboard_eng_row (today : date) (srs_id : Z) (t : record) : row :=
  [VInt srs_id;
   dict_get t "name" (VStr "");
   dict_get t "engineer" (VStr "");
   dict_get t "engineer_understand_status" (VStr "");
   dict_get t "estimated_hours" (VStr "");
   dict_get t "start_date" (VStr "");
   dict_get t "end_date" VNone;
   dict_get t "done_status" (VStr "");
   dict_get t "client_status" (VStr "");
   VStr (overdue today t)].

(** One turn of the loop of lines 870-902; a spec whose task table cannot
    be read is passed over. *)
Definition dashboard_eng_rows (today : date) (s : record) : M (list row) :=
  do srs_id <- lift (record_id s);
  do found <- try_except
                (do ws_tasks <- sh_worksheet (tasks_title srs_id);
                 do tasks <- read_all ws_tasks;
                 ret (Some tasks))
                any_exn
                (λ _, ret None);
  match found with
  | Some tasks => ret (dashboard_eng_row today srs_id <$> tasks)
  | None => ret []
  end.

(** [page_dashboard] on the day [today]: the rows of the overview table
    and of the task list. *)
Definition page_dashboard (today : date) : M (list row * list row) :=
  do ws_srs <- ensure_worksheet "srs_index" SRS_INDEX_HEADERS;
  do ws_meetings <- ensure_worksheet "meetings" MEETINGS_HEADERS;
  do srs_list <- read_all ws_srs;
  do meetings <- read_all ws_meetings;
  do mm <- lift (meeting_map meetings);
  do srs_overall_rows <- for_each (dashboard_overview_row mm) srs_list;
  for_each dashboard_pm_section srs_list ;;
  do eng <- for_each (dashboard_eng_rows today) srs_list;
  let all_eng_rows := concat eng in
  (if nonempty all_eng_rows then ret tt
   else show UiInfo "目前尚無工程師回報任務。") ;;
  ret (srs_overall_rows, all_eng_rows).

(** ** Vocabulary of the statements: worksheets that differ in first rows only *)

(** [s] has the worksheets of [s0] with the same rows below the first row;
    only the worksheets of [titles] may be new or have another first row. *)
Definition same_rows (titles : list string) (s0 s : gmap string sheet) : Prop :=
  (∀ t, t ∉ titles → s !! t = s0 !! t)
  ∧ ∀ t, body (sheet_of s t) = body (sheet_of s0 t).

(** A spreadsheet with one meeting, two specs, the reviewed task of the first
    spec and its two PM sub-tasks. *)
Definition sheets_7 : gmap string sheet :=
  {[ "meetings" := Sheet MEETINGS_HEADERS
                     [[VInt 1; VStr "2024-01-01"; VStr "Kickoff";
                       VStr "Need a report export feature"]];
     "srs_index" := Sheet SRS_INDEX_HEADERS [srs_1; srs_2];
     "SRS_TASKS_1" := Sheet TASK_HEADERS [task_1];
     "PM_TASKS_1" := Sheet ["子任務"; "說明"]
                       [[VStr "設計登入頁"; VStr "含錯誤提示"]; [VStr "串接 API"]] ]}.

(** ** Spec review: the defaults of the form (lines 604 and 632-637) *)



(** ** Vocabulary of the statements: everything a page run can do *)

(** One thing a run of a page does to the world: one of the page actions of
    [step]; a call of [ensure_worksheet] for the index or the meetings
    table, with which the pages begin; the dashboard; or anything that
    leaves the worksheets as they are (a read, a refused request, a sleep,
    a message). *)
Inductive action : world → world → Prop :=
| action_step w w' : step w w' → action w w'
| action_ensure title headers w :
    title ∈ ["srs_index"; "meetings"] →
    action w (ensure_worksheet title headers w).2
| action_dashboard today w : action w (page_dashboard today w).2
| action_read w w' : sheets w' = sheets w → action w w'.

(** * Properties *)

(** ** Lists of results *)

Lemma result_map_Ok {A B} (f : A → result B) (xs : list A) (ys : list B) :
  result_map f xs = Ok ys ↔ Forall2 (λ x y, f x = Ok y) xs ys.
Proof.
  revert ys. induction xs as [|x xs IH]; intros ys; simpl.
  - split.
    + intros [= <-]. constructor.
    + intros H. inversion H. reflexivity.
  - destruct (f x) as [y|e] eqn:Hx; simpl.
    + destruct (result_map f xs) as [ys'|e] eqn:Hxs; simpl.
      * split.
        -- intros [= <-]. constructor; [done|]. by apply IH.
        -- intros H. inversion H as [|? y0 ? ys0 Hy Hys]; subst.
           rewrite Hx in Hy. injection Hy as <-.
           apply IH in Hys. by injection Hys as <-.
      * split; [done|].
        intros H. inversion H as [|? y0 ? ys0 Hy Hys]; subst.
        apply IH in Hys. done.
    + split; [done|].
      intros H. inversion H as [|? y0 ? ys0 Hy Hys]; subst. congruence.
Qed.

Lemma result_map_length {A B} (f : A → result B) (xs : list A) (ys : list B) :
  result_map f xs = Ok ys → length ys = length xs.
Proof. intros H%result_map_Ok. symmetry. by eapply Forall2_length. Qed.

Lemma result_map_fmap {A B} (f : A → result B) (g : A → B) (xs : list A) :
  (∀ x, x ∈ xs → f x = Ok (g x)) → result_map f xs = Ok (g <$> xs).
Proof.
  intros H. apply result_map_Ok. apply Forall2_fmap_r, Forall_Forall2_diag.
  by apply Forall_forall.
Qed.

(** ** Identifier allocation *)

Lemma py_max_ge (z : Z) (zs : list Z) :
  (z ≤ py_max z zs)%Z ∧ ∀ x, x ∈ zs → (x ≤ py_max z zs)%Z.
Proof.
  unfold py_max. revert z. induction zs as [|y zs IH]; intros z; simpl.
  - split; [lia|]. intros x Hx. by apply elem_of_nil in Hx.
  - destruct (IH (Z.max z y)) as [H1 H2]. split; [lia|].
    intros x [->|Hx]%elem_of_cons; [lia|]. by apply H2.
Qed.

Lemma py_max_elem (z : Z) (zs : list Z) : py_max z zs ∈ z :: zs.
Proof.
  unfold py_max. revert z. induction zs as [|y zs IH]; intros z; simpl.
  - apply list_elem_of_here.
  - specialize (IH (Z.max z y)).
    apply elem_of_cons in IH as [IH|IH].
    + rewrite IH. destruct (Z.max_spec z y) as [[_ ->]|[_ ->]].
      * apply list_elem_of_further, list_elem_of_here.
      * apply list_elem_of_here.
    + by do 2 apply list_elem_of_further.
Qed.

(** C1. Id allocation.  On an empty table the allocated id is 1.  On a
    table whose stored ids all convert to integers ([ids] is the list of
    the converted ids) the allocated id is [m + 1] for the greatest
    existing id [m]; it is the same for any two tables with the same ids,
    and it is none of the existing ids. *)
Theorem new_id_allocates (existing : list record) (ids : list Z) :
  result_map record_id existing = Ok ids →
  (existing = [] → new_id existing = Ok 1%Z)
  ∧ (existing ≠ [] →
     ∃ m, new_id existing = Ok (m + 1)%Z ∧ m ∈ ids ∧ ∀ z, z ∈ ids → (z ≤ m)%Z)
  ∧ (∀ existing', result_map record_id existing' = Ok ids →
       new_id existing' = new_id existing)
  ∧ (∀ n, new_id existing = Ok n → n ∉ ids).
Proof.
  intros Hids.
  assert (Hgen : ∀ ex, result_map record_id ex = Ok ids →
            new_id ex = match ids with
                        | [] => Ok 1%Z
                        | z :: zs => Ok (py_max z zs + 1)%Z
                        end).
  { intros ex Hex. unfold new_id. rewrite Hex. simpl.
    pose proof (result_map_length _ _ _ Hex) as Hlen.
    destruct ex, ids; simpl in *; try discriminate; reflexivity. }
  pose proof (result_map_length _ _ _ Hids) as Hlen.
  split; [|split; [|split]].
  - intros ->. reflexivity.
  - intros Hne. rewrite (Hgen _ Hids).
    destruct ids as [|z zs].
    { destruct existing; [done|discriminate]. }
    exists (py_max z zs). split; [done|]. split; [apply py_max_elem|].
    destruct (py_max_ge z zs) as [H1 H2].
    intros x [->|Hx]%elem_of_cons; [done|by apply H2].
  - intros ex Hex. by rewrite (Hgen _ Hex), (Hgen _ Hids).
  - intros n Hn Hin. rewrite (Hgen _ Hids) in Hn.
    destruct ids as [|z zs]; [by apply elem_of_nil in Hin|].
    injection Hn as <-.
    destruct (py_max_ge z zs) as [H1 H2].
    apply elem_of_cons in Hin as [Hin|Hin]; [lia|].
    specialize (H2 _ Hin). lia.
Qed.

Lemma new_id_allocates_witness :
  result_map record_id [id_only 3; id_only 7; id_only 2] = Ok [3; 7; 2]%Z
  ∧ new_id [id_only 3; id_only 7; id_only 2] = Ok 8%Z
  ∧ (8 ∉ [3; 7; 2])%Z.
Proof.
  assert (H : result_map record_id [id_only 3; id_only 7; id_only 2] = Ok [3; 7; 2]%Z)
    by reflexivity.
  destruct (new_id_allocates _ _ H) as (_ & H2 & _ & H4).
  destruct (H2 ltac:(discriminate)) as (m & Hm & _).
  split; [exact H|]. split; [reflexivity|].
  apply H4. reflexivity.
Defined.

(** ** The retry wrapper *)

Lemma retry_loop_cons {A} (func : M A) (i : Z) (rest : list Z) (w : world) :
  retry_loop func (i :: rest) w =
  match func w with
  | (Ok a, w') => (Ok a, w')
  | (Err e, w') =>
      if rate_limited e
      then retry_loop func rest (sleep (retry_delay i) w').2
      else (Err e, w')
  end.
Proof. simpl. destruct (func w) as [[a|e] w']; [done|]. by destruct (rate_limited e). Qed.

(** The loop over the attempt numbers [n, n+1, ..., n+len-1], entered after
    [n] throttled attempts. *)
Lemma retry_loop_outcome {A} (func : M A) (w0 : world) (len n : nat) (w : world) :
  throttled func n w0 w →
  ∃ k w1, (n ≤ k ≤ n + len)%nat ∧ throttled func k w0 w1 ∧
    ((k = (n + len)%nat
      ∧ retry_loop func (Z.of_nat <$> seq n len) w = (Err retries_exhausted, w1))
     ∨ ((k < n + len)%nat ∧ ∃ a w2, func w1 = (Ok a, w2)
        ∧ retry_loop func (Z.of_nat <$> seq n len) w = (Ok a, w2))
     ∨ ((k < n + len)%nat ∧ ∃ e w2, func w1 = (Err e, w2) ∧ rate_limited e = false
        ∧ retry_loop func (Z.of_nat <$> seq n len) w = (Err e, w2))).
Proof.
  revert n w. induction len as [|len IH]; intros n w Hthr.
  - exists n, w. split; [lia|]. split; [done|]. left. split; [lia|]. reflexivity.
  - rewrite <- cons_seq, fmap_cons, retry_loop_cons.
    destruct (func w) as [[a|e] w'] eqn:Hf.
    + exists n, w. split; [lia|]. split; [done|]. right; left.
      split; [lia|]. by exists a, w'.
    + destruct (rate_limited e) eqn:Hrl.
      * destruct (IH (S n) (sleep (retry_delay (Z.of_nat n)) w').2) as (k & w1 & Hk & Hthr' & Hcases).
        { by eapply throttled_S. }
        exists k, w1. split; [lia|]. split; [done|].
        destruct Hcases as [[-> Hr]|[[Hlt Hr]|[Hlt Hr]]].
        -- left. split; [lia|done].
        -- right; left. split; [lia|done].
        -- right; right. split; [lia|done].
      * exists n, w. split; [lia|]. split; [done|]. right; right.
        split; [lia|]. by exists e, w'.
Qed.

(** A request changes neither the sleeps nor the screen. *)
Lemma request_slept {A} (serve : gmap string sheet → result A * gmap string sheet) (w : world) :
  slept (request serve w).2 = slept w ∧ screen (request serve w).2 = screen w.
Proof.
  unfold request. destruct (faults w) as [|[e|] fs]; simpl.
  - by destruct (serve (sheets w)).
  - done.
  - by destruct (serve (sheets w)).
Qed.

Lemma throttled_request_slept {A} (serve : gmap string sheet → result A * gmap string sheet)
    (k : nat) (w w' : world) :
  throttled (request serve) k w w' → slept w' = slept w ++ delays k.
Proof.
  induction 1 as [w|k w w1 e w2 Hthr IH Hf Hrl].
  - unfold delays. simpl. by rewrite app_nil_r.
  - simpl. pose proof (request_slept serve w1) as [Hs _]. rewrite Hf in Hs. simpl in Hs.
    rewrite Hs, IH. unfold delays. rewrite seq_S, fmap_app, app_assoc. reflexivity.
Qed.

(** C8, as amended.  A Record Store request issued through [with_retry] is
    attempted at most five times.  After [k] attempts refused with a
    rate-limit signal ([str(e)] contains "429" or "Quota exceeded") the
    script has slept [1.2 + i] seconds after the attempt number [i]
    ([delays k], an arithmetic progression of step one second); then
    either [k = 5] and the generic failure "backend unavailable, retry
    later" is raised, or the next attempt succeeds and its result is
    returned, or the next attempt fails without a rate-limit signal and
    that failure is raised at once, in the world the attempt left. *)
Theorem with_retry_policy {A} (serve : gmap string sheet → result A * gmap string sheet)
    (w : world) :
  ∃ k w1, (k ≤ 5)%nat
    ∧ throttled (request serve) k w w1
    ∧ slept w1 = slept w ++ delays k
    ∧ (∀ i, (S i < k)%nat →
         delays k !! S i = Some (1000 + default 0 (delays k !! i))%Z)
    ∧ ((k = 5%nat
        ∧ with_retry (request serve) w = (Err retries_exhausted, w1))
       ∨ ((k < 5)%nat ∧ ∃ a w2, request serve w1 = (Ok a, w2)
          ∧ with_retry (request serve) w = (Ok a, w2))
       ∨ ((k < 5)%nat ∧ ∃ e w2, request serve w1 = (Err e, w2)
          ∧ rate_limited e = false
          ∧ with_retry (request serve) w = (Err e, w2))).
Proof.
  destruct (retry_loop_outcome (request serve) w 5 0 w (throttled_O _ w))
    as (k & w1 & Hk & Hthr & Hcases).
  exists k, w1. split; [lia|]. split; [done|].
  split; [by apply (throttled_request_slept serve)|].
  split.
  - intros i Hi. unfold delays.
    rewrite !list_lookup_fmap.
    rewrite (lookup_seq_lt 0 k (S i)) by lia.
    rewrite (lookup_seq_lt 0 k i) by lia.
    simpl. unfold retry_delay. f_equal. lia.
  - exact Hcases.
Qed.

(** ** Rules for triples *)

Lemma triple_conseq {A} (P P' : gmap string sheet → Prop) (m : M A)
    (Q Q' : A → gmap string sheet → Prop) (E E' : gmap string sheet → Prop) :
  triple P m Q E →
  (∀ s, P' s → P s) → (∀ a s, Q a s → Q' a s) → (∀ s, E s → E' s) →
  triple P' m Q' E'.
Proof.
  intros H HP HQ HE w Hw. specialize (H w (HP _ Hw)).
  destruct (m w) as [[a|e] w']; auto.
Qed.

Lemma triple_ret {A} (P : gmap string sheet → Prop) (a : A) Q E :
  (∀ s, P s → Q a s) → triple P (ret a) Q E.
Proof. intros H w Hw. simpl. auto. Qed.

Lemma triple_lift {A} (P : gmap string sheet → Prop) (r : result A) Q E :
  (∀ s, P s → match r with Ok a => Q a s | Err _ => E s end) → triple P (lift r) Q E.
Proof. intros H w Hw. unfold lift. specialize (H _ Hw). by destruct r. Qed.

Lemma triple_show (P : gmap string sheet → Prop) (k : ui_kind) (msg : string) Q E :
  (∀ s, P s → Q tt s) → triple P (show k msg) Q E.
Proof. intros H w Hw. simpl. auto. Qed.

Lemma triple_bind {A B} (P : gmap string sheet → Prop) (m : M A) (k : A → M B)
    (R : A → gmap string sheet → Prop) Q E :
  triple P m R E → (∀ a, triple (R a) (k a) Q E) → triple P (bind m k) Q E.
Proof.
  intros Hm Hk w Hw. unfold bind. specialize (Hm w Hw).
  destruct (m w) as [[a|e] w']; [|done]. by apply Hk.
Qed.

Lemma triple_try_except {A} (P : gmap string sheet → Prop) (m : M A)
    (handled : exn → bool) (h : exn → M A) Q (E' E : gmap string sheet → Prop) :
  triple P m Q E' →
  (∀ e, handled e = true → triple E' (h e) Q E) →
  (∀ s, E' s → E s) →
  triple P (try_except m handled h) Q E.
Proof.
  intros Hm Hh HE w Hw. unfold try_except. specialize (Hm w Hw).
  destruct (m w) as [[a|e] w']; [done|].
  destruct (handled e) eqn:He; [by apply Hh|by apply HE].
Qed.

Lemma triple_request {A} (P : gmap string sheet → Prop)
    (serve : gmap string sheet → result A * gmap string sheet) Q E :
  (∀ s, P s → match serve s with
               | (Ok a, s') => Q a s'
               | (Err _, s') => E s'
               end) →
  (∀ s, P s → E s) →
  triple P (request serve) Q E.
Proof.
  intros Hs HE w Hw. unfold request.
  destruct (faults w) as [|[e|] fs]; simpl.
  - specialize (Hs _ Hw). by destruct (serve (sheets w)) as [[a|e] s'].
  - by apply HE.
  - specialize (Hs _ Hw). by destruct (serve (sheets w)) as [[a|e] s'].
Qed.

Lemma triple_retry_loop {A} (P : gmap string sheet → Prop) (func : M A) Q
    (attempts : list Z) :
  triple P func Q P → triple P (retry_loop func attempts) Q P.
Proof.
  intros Hf. induction attempts as [|i rest IH]; intros w Hw.
  - simpl. done.
  - rewrite retry_loop_cons. specialize (Hf w Hw).
    destruct (func w) as [[a|e] w']; [done|].
    destruct (rate_limited e); [|done].
    by apply IH.
Qed.

Lemma triple_with_retry {A} (P : gmap string sheet → Prop) (func : M A) Q :
  triple P func Q P → triple P (with_retry func) Q P.
Proof. apply triple_retry_loop. Qed.

(** A retried request that the backend serves without raising. *)
Lemma triple_retried {A} (P : gmap string sheet → Prop)
    (serve : gmap string sheet → result A * gmap string sheet) Q :
  (∀ s, P s → match serve s with
               | (Ok a, s') => Q a s'
               | (Err _, s') => P s'
               end) →
  triple P (with_retry (request serve)) Q P.
Proof. intros H. apply triple_with_retry, triple_request; auto. Qed.

(** ** The helpers on the worksheets *)

Lemma overlay_nil_r {A} (l : list A) : overlay l [] = l.
Proof. by destruct l. Qed.

Lemma overlay_rows_nil_r (rows : list row) : overlay_rows rows [] = rows.
Proof. by destruct rows. Qed.

Lemma sheet_of_insert (s : gmap string sheet) (ws : string) (sh : sheet) :
  sheet_of (<[ws := sh]> s) ws = sh.
Proof. unfold sheet_of. by rewrite lookup_insert_eq. Qed.

Lemma read_all_triple (P : gmap string sheet → Prop) (ws : string) :
  triple P (read_all ws) (λ recs s, P s ∧ recs = all_records (sheet_of s ws)) P.
Proof. apply triple_retried. intros s Hs. simpl. auto. Qed.

Lemma rewrite_sheet_triple (s0 : gmap string sheet) (ws : string)
    (headers : list string) (rows : list row) :
  triple (eq s0) (rewrite_sheet ws headers rows)
    (λ _, rewritten ws headers rows s0) (half_rewritten ws headers s0).
Proof.
  unfold rewrite_sheet.
  eapply triple_bind with (R := λ _ s, s = <[ws := Sheet [] []]> s0).
  { eapply triple_conseq.
    - apply (triple_retried (eq s0) _ (λ _ s, s = <[ws := Sheet [] []]> s0)).
      intros s <-. reflexivity.
    - done.
    - done.
    - intros s <-. by left. }
  intros _.
  eapply triple_bind with (R := λ _ s, s = <[ws := Sheet headers []]> s0).
  { eapply triple_conseq.
    - apply (triple_retried (eq (<[ws := Sheet [] []]> s0)) _
               (λ _ s, s = <[ws := Sheet headers []]> s0)).
      intros s <-. simpl. rewrite sheet_of_insert. simpl.
      by rewrite overlay_nil_r, insert_insert_eq.
    - intros s ->. done.
    - done.
    - intros s <-. right; by left. }
  intros _.
  destruct rows as [|r rows]; simpl.
  - apply triple_ret. intros s ->. reflexivity.
  - eapply triple_conseq.
    + apply (triple_retried (eq (<[ws := Sheet headers []]> s0)) _
               (λ _ s, s = <[ws := Sheet headers (r :: rows)]> s0)).
      intros s <-. simpl. rewrite sheet_of_insert. simpl.
      by rewrite insert_insert_eq.
    + intros s ->. done.
    + done.
    + intros s <-. right; by right.
Qed.

(** ** Reading back what was written *)

Lemma fill_full {A} (n : nat) (d : A) (l : list A) : length l = n → fill n d l = l.
Proof. intros <-. unfold fill. rewrite Nat.sub_diag. simpl. by rewrite app_nil_r. Qed.

Lemma width_uniform (headers : list string) (rows : list row) :
  Forall (λ r, length r = length headers) rows →
  width (Sheet headers rows) = length headers.
Proof.
  unfold width. simpl. induction 1 as [|r rows Hr _ IH]; simpl; [done|].
  rewrite IH, Hr. lia.
Qed.

(** The records of a sheet whose rows are as wide as its header. *)
Lemma all_records_uniform (headers : list string) (rows : list row) :
  Forall (λ r, length r = length headers) rows →
  all_records (Sheet headers rows) = dict_zip headers <$> rows.
Proof.
  intros Hrows. unfold all_records. simpl.
  assert (Hgen : dict_zip (fill (width (Sheet headers rows)) "" headers)
                   <$> (fill (width (Sheet headers rows)) (VStr "") <$> rows)
                 = dict_zip headers <$> rows).
  { rewrite (width_uniform _ _ Hrows), fill_full by done.
    rewrite <- list_fmap_compose. apply Forall_fmap_ext.
    eapply Forall_impl; [exact Hrows|]. intros r Hr. simpl. by rewrite fill_full. }
  destruct headers as [|h headers]; [|exact Hgen].
  destruct rows as [|r rows]; [done|exact Hgen].
Qed.

Lemma task_row_dict_zip (r : row) :
  length r = 11%nat → task_row (dict_zip TASK_HEADERS r) = Ok r.
Proof.
  intros H. do 11 (destruct r as [|? r]; [discriminate|]).
  destruct r; [reflexivity|discriminate].
Qed.

Lemma srs_row_dict_zip (r : row) :
  length r = 13%nat → srs_row (dict_zip SRS_INDEX_HEADERS r) = Ok r.
Proof.
  intros H. do 13 (destruct r as [|? r]; [discriminate|]).
  destruct r; [reflexivity|discriminate].
Qed.


Lemma result_map_roundtrip {A B} (f : A → result B) (g : B → A) (ys : list B) :
  Forall (λ y, f (g y) = Ok y) ys → result_map f (g <$> ys) = Ok ys.
Proof.
  intros H. apply result_map_Ok. apply Forall2_fmap_l, Forall_Forall2_diag.
  eapply Forall_impl; [exact H|]. done.
Qed.

(** ** Runs in which no request is refused *)

Lemma request_run {A} (serve : gmap string sheet → result A * gmap string sheet)
    (s : gmap string sheet) (sl : list Z) (sc : list (ui_kind * string)) :
  request serve (World s [] sl sc) = ((serve s).1, World (serve s).2 [] sl sc).
Proof. unfold request. simpl. by destruct (serve s). Qed.

Ltac run_request :=
  unfold ws_clear, ws_update_A1, ws_update_A2, ws_get_all_records,
    ws_get_all_values, sh_worksheet, sh_add_worksheet, ws_row_values_1;
  rewrite request_run; simpl.

Lemma with_retry_Ok {A} (func : M A) (w w' : world) (a : A) :
  func w = (Ok a, w') → with_retry func w = (Ok a, w').
Proof. intros H. unfold with_retry, range5. by rewrite retry_loop_cons, H. Qed.

Lemma with_retry_Err {A} (func : M A) (w w' : world) (e : exn) :
  func w = (Err e, w') → rate_limited e = false → with_retry func w = (Err e, w').
Proof. intros H He. unfold with_retry, range5. by rewrite retry_loop_cons, H, He. Qed.

Lemma read_all_run (ws : string) (s : gmap string sheet) (sl : list Z)
    (sc : list (ui_kind * string)) :
  read_all ws (World s [] sl sc) = (Ok (all_records (sheet_of s ws)), World s [] sl sc).
Proof. unfold read_all. apply with_retry_Ok. by run_request. Qed.

Lemma rewrite_sheet_run (ws : string) (headers : list string) (rows : list row)
    (s : gmap string sheet) (sl : list Z) (sc : list (ui_kind * string)) :
  rewrite_sheet ws headers rows (World s [] sl sc) =
  (Ok tt, World (<[ws := Sheet headers rows]> s) [] sl sc).
Proof.
  unfold rewrite_sheet, bind.
  erewrite with_retry_Ok; [|by run_request].
  erewrite with_retry_Ok; [|by run_request].
  rewrite sheet_of_insert. simpl. rewrite overlay_nil_r, insert_insert_eq.
  destruct rows as [|r rows]; simpl; [done|].
  erewrite with_retry_Ok; [|by run_request].
  rewrite sheet_of_insert. simpl. by rewrite insert_insert_eq.
Qed.

(** [ensure_worksheet] on a worksheet that exists and has a header. *)
Lemma ensure_worksheet_run (title : string) (headers : list string) (sh : sheet)
    (s : gmap string sheet) (sl : list Z) (sc : list (ui_kind * string)) :
  s !! title = Some sh →
  nonempty (rstrip_empty (header sh)) = true →
  ensure_worksheet title headers (World s [] sl sc) = (Ok title, World s [] sl sc).
Proof.
  intros Hs Hh. unfold ensure_worksheet, try_except, bind.
  erewrite with_retry_Ok; [|by run_request; rewrite Hs].
  destruct (nonempty headers); [|done].
  run_request. unfold sheet_of. rewrite Hs. simpl. by rewrite Hh.
Qed.


(** ** What a completed helper call has done, whatever was refused on the way *)

Lemma ensure_worksheet_title (title : string) (headers : list string) :
  triple (λ _, True) (ensure_worksheet title headers) (λ ws _, ws = title) (λ _, True).
Proof.
  unfold ensure_worksheet.
  eapply triple_try_except with (E' := λ _, True); [| |done].
  - eapply triple_bind with (R := λ ws _, ws = title).
    + apply triple_retried. intros s _. simpl. by destruct (s !! title).
    + intros ws. destruct (nonempty headers).
      * eapply triple_bind with (R := λ _ _, ws = title).
        -- apply triple_request; [|done]. intros s ->. simpl. done.
        -- intros existing.
           eapply triple_bind with (R := λ _ _, ws = title).
           ++ destruct (nonempty existing).
              ** apply triple_ret. done.
              ** eapply triple_conseq.
                 --- apply (triple_retried (λ _, ws = title) _ (λ _ _, ws = title)).
                     intros s ->. simpl. done.
                 --- done.
                 --- done.
                 --- done.
           ++ intros _. apply triple_ret. done.
      * apply triple_ret. done.
  - intros e _.
    eapply triple_bind with (R := λ ws _, ws = title).
    + apply triple_retried. intros s _. simpl. by destruct (s !! title).
    + intros ws.
      eapply triple_bind with (R := λ _ _, ws = title).
      * destruct (nonempty headers).
        -- eapply triple_conseq.
           ++ apply (triple_retried (λ _, ws = title) _ (λ _ _, ws = title)).
              intros s ->. simpl. done.
           ++ done.
           ++ done.
           ++ done.
        -- apply triple_ret. done.
      * intros _. apply triple_ret. done.
Qed.

Lemma ensure_worksheet_Ok (title : string) (headers : list string) (w w' : world)
    (ws : string) :
  ensure_worksheet title headers w = (Ok ws, w') → ws = title.
Proof.
  intros H. pose proof (ensure_worksheet_title title headers w I) as Ht.
  by rewrite H in Ht.
Qed.

Lemma read_all_Ok (ws : string) (w w' : world) (recs : list record) :
  read_all ws w = (Ok recs, w') →
  sheets w' = sheets w ∧ recs = all_records (sheet_of (sheets w) ws).
Proof.
  intros H. pose proof (read_all_triple (eq (sheets w)) ws w eq_refl) as Ht.
  rewrite H in Ht. destruct Ht as [<- ->]. done.
Qed.

Lemma rewrite_sheet_Ok (ws : string) (headers : list string) (rows : list row)
    (w w' : world) :
  rewrite_sheet ws headers rows w = (Ok tt, w') →
  sheets w' = <[ws := Sheet headers rows]> (sheets w).
Proof.
  intros H. pose proof (rewrite_sheet_triple (sheets w) ws headers rows w eq_refl) as Ht.
  by rewrite H in Ht.
Qed.

Lemma upload_all_world (files : list uploaded_file) (w : world) :
  (upload_all files w).2 = w.
Proof.
  revert w. induction files as [|f files IH]; intros w; [done|].
  simpl. unfold bind, upload_to_dropbox, lift.
  destruct (upload_outcome f); [|done].
  specialize (IH w). destruct (upload_all files w) as [[urls|e] w']; simpl in *; by subst.
Qed.

(** ** Engineer reports *)


(** A completed report, whatever requests were refused on the way, has
    rewritten the task table with the rows of the records read, followed by
    the new row. *)
Lemma page_engineer_report_Ok (srs_id : Z) (pm_subtasks : list value)
    (f : report_form) (w w' : world) :
  page_engineer_report srs_id pm_subtasks f true w = (Ok tt, w') →
  ∃ w1 nid urls rows,
    ensure_worksheet (tasks_title srs_id) TASK_HEADERS w = (Ok (tasks_title srs_id), w1)
    ∧ new_id (all_records (sheet_of (sheets w1) (tasks_title srs_id))) = Ok nid
    ∧ result_map task_row (all_records (sheet_of (sheets w1) (tasks_title srs_id))) = Ok rows
    ∧ sheets w' =
        <[tasks_title srs_id :=
            Sheet TASK_HEADERS
              (rows ++ [new_task_row nid (subtask_name pm_subtasks f) f (result_url_of urls)])]>
          (sheets w1).
Proof.
  unfold page_engineer_report, bind. intros H.
  destruct (ensure_worksheet _ _ w) as [[ws|e] w1] eqn:H1; [|done].
  pose proof (ensure_worksheet_Ok _ _ _ _ _ H1) as ->.
  destruct (read_all _ w1) as [[ex|e] w2] eqn:H2; [|done].
  apply read_all_Ok in H2 as [Hs2 ->].
  unfold lift in H.
  destruct (new_id _) as [nid|e] eqn:H3; [|done].
  pose proof (upload_all_world (result_files f) w2) as Hup.
  destruct (upload_all _ w2) as [[urls|e] w3] eqn:H4; [|done].
  simpl in Hup. subst w3.
  destruct (result_map task_row _) as [rows|e] eqn:H5; [|done].
  destruct (rewrite_sheet _ _ _ w2) as [[[]|e] w4] eqn:H6; [|done].
  apply rewrite_sheet_Ok in H6.
  injection H as <-. simpl.
  exists w1, nid, urls, rows. rewrite H6, Hs2. done.
Qed.

Lemma task_rows_roundtrip (body : list row) :
  Forall (λ r, length r = 11%nat) body →
  all_records (Sheet TASK_HEADERS body) = dict_zip TASK_HEADERS <$> body
  ∧ result_map task_row (dict_zip TASK_HEADERS <$> body) = Ok body.
Proof.
  intros Hb. split.
  - by apply all_records_uniform.
  - apply result_map_roundtrip. eapply Forall_impl; [exact Hb|].
    intros r Hr. by apply task_row_dict_zip.
Qed.






(** When sub-tasks are listed, the name of the report is one of them. *)
Lemma subtask_name_listed (pm_subtasks : list value) (f : report_form) :
  pm_subtasks ≠ [] → subtask_name pm_subtasks f ∈ pm_subtasks.
Proof.
  intros Hne. unfold subtask_name, subtask_options, selectbox.
  destruct pm_subtasks as [|p ps]; [done|]. simpl.
  destruct ((p :: ps) !! subtask_choice f) as [x|] eqn:Hx.
  - by eapply list_elem_of_lookup_2.
  - apply list_elem_of_here.
Qed.

Example page_engineer_listed_subtasks :
  page_engineer_pm_subtasks 1 (World sheets_3 [] [] [])
  = (Ok [VStr "設計登入頁"; VStr "串接 API"], World sheets_3 [] [] []).
Proof. vm_compute. reflexivity. Qed.

(** C2, on the code.  For a spec whose PM sub-task sheet lists no sub-task
    the page shows the notice "no PM sub-task yet", offers the placeholder
    text as the only option of the select box, and a submitted report is
    not blocked: a task row whose name is the placeholder text is written
    and success is reported. *)
Theorem engineer_report_without_subtasks :
  page_engineer_pm_subtasks 1 (World sheets_2 [] [] [])
  = (Ok [], World sheets_2 [] [] [(UiInfo, "此 SRS 尚無 PM 拆解子任務")])
  ∧ page_engineer 1 form_1 true (World sheets_2 [] [] [])
    = (Ok tt,
       World
         (<["SRS_TASKS_1" :=
              Sheet TASK_HEADERS
                [[VInt 1; VStr "（尚無子任務，請 PM 建立）"; VStr ""; VStr "Engineer";
                  VFloat 4 1 "4.0"; VStr "2024-02-01"; VStr "2024-02-09";
                  VStr "需要更多資料"; VStr "等待資料"; VStr "待確認"; VStr ""]]]>
            sheets_2)
         [] []
         [(UiInfo, "此 SRS 尚無 PM 拆解子任務");
          (UiSuccess, "已成功回報！Dashboard 已同步更新。")]).
Proof. split; vm_compute; reflexivity. Qed.

(** ** The retry wrapper is not on every request *)

(** C8, as stated, fails: not every request to the spreadsheet goes
    through [with_retry].  The worksheet lookup of the PM sub-task section
    (line 445) and the header probe of [ensure_worksheet] (line 134) are
    made outside it.  Refused with a rate-limit signal, neither is tried
    again, although the next attempt would have been served: the failure is
    raised at once, with no sleep. *)
Lemma unwrapped_requests_not_retried :
  rate_limited too_many_requests = true
  ∧ page_engineer_pm_subtasks 1 (World sheets_3 [Some too_many_requests] [] [])
    = (Err too_many_requests, World sheets_3 [] [] [])
  ∧ ensure_worksheet "SRS_TASKS_1" TASK_HEADERS
      (World sheets_1 [None; Some too_many_requests] [] [])
    = (Err too_many_requests, World sheets_1 [] [] []).
Proof. repeat split; vm_compute; reflexivity. Qed.

(** The same request behind [with_retry]: [read_all] sleeps 1.2 s and
    2.2 s after two refusals and then returns the records. *)
Example read_all_retried :
  read_all "SRS_TASKS_1"
    (World sheets_1 [Some too_many_requests; Some too_many_requests] [] [])
  = (Ok [dict_zip TASK_HEADERS task_1], World sheets_1 [] [1200; 2200]%Z []).
Proof. reflexivity. Qed.

Example read_all_exhausted :
  read_all "SRS_TASKS_1" (World sheets_1 (replicate 6 (Some too_many_requests)) [] [])
  = (Err retries_exhausted,
     World sheets_1 [Some too_many_requests] [1200; 2200; 3200; 4200; 5200]%Z []).
Proof. vm_compute. reflexivity. Qed.

Example read_all_other_failure :
  read_all "SRS_TASKS_1"
    (World sheets_1 [Some too_many_requests; Some (Raise APIError "[403]: forbidden"); None] [] [])
  = (Err (Raise APIError "[403]: forbidden"), World sheets_1 [None] [1200]%Z []).
Proof. vm_compute. reflexivity. Qed.

(** ** Dashboard: overdue tasks *)

Lemma days_in_month_le (y m : Z) : (days_in_month y m ≤ 31)%Z.
Proof.
  unfold days_in_month.
  repeat match goal with |- context [if ?b then _ else _] => destruct b end; lia.
Qed.

(** [date_ltb] is the order of the calendar: on valid dates it agrees with
    the order of the numbers [yyyymmdd]. *)
Lemma date_ltb_calendar (d1 d2 : date) :
  valid_date d1 = true → valid_date d2 = true →
  date_ltb d1 d2 = true ↔
  (year d1 * 10000 + month d1 * 100 + day d1
   < year d2 * 10000 + month d2 * 100 + day d2)%Z.
Proof.
  unfold valid_date, date_ltb.
  pose proof (days_in_month_le (year d1) (month d1)).
  pose proof (days_in_month_le (year d2) (month d2)).
  rewrite !andb_true_iff, !orb_true_iff, !andb_true_iff, !orb_true_iff,
    !andb_true_iff, !Z.leb_le, !Z.ltb_lt, !Z.eqb_eq.
  lia.
Qed.

Lemma fromisoformat_str_nonempty (s : string) (d : date) :
  fromisoformat_str s = Ok d → s ≠ "".
Proof. intros H ->. discriminate. Qed.

Lemma fromisoformat_truthy (v : value) (d : date) :
  fromisoformat v = Ok d → truthy v = true.
Proof.
  destruct v as [| |s|]; try discriminate. simpl.
  intros H%fromisoformat_str_nonempty. by rewrite bool_decide_eq_false_2.
Qed.

(** The flag for any date parser that, like every version of
    [date.fromisoformat], accepts no falsy value (not [None], [0] or [""]). *)
Lemma overdue_with_iff (parse : value → result date) (today : date) (t : record) :
  (∀ v d, parse v = Ok d → truthy v = true) →
  (overdue_with parse today t = OVERDUE ↔
   ∃ d, parse (dict_get t "end_date" VNone) = Ok d
        ∧ dict_get t "done_status" (VStr "") ≠ VStr DONE_MARK
        ∧ date_ltb d today = true)
  ∧ (overdue_with parse today t = OVERDUE ∨ overdue_with parse today t = "")
  ∧ (∀ e, parse (dict_get t "end_date" VNone) = Err e → overdue_with parse today t = "").
Proof.
  intros Hparse. unfold overdue_with, eq_str.
  destruct (parse (dict_get t "end_date" VNone)) as [d|e] eqn:Hp.
  - rewrite (Hparse _ _ Hp). simpl.
    destruct (bool_decide (dict_get t "done_status" (VStr "") = VStr DONE_MARK)) eqn:Hdone;
      simpl.
    + apply bool_decide_eq_true in Hdone.
      split; [|split; [by right|done]].
      split; [done|]. by intros (d' & _ & Hne & _).
    + apply bool_decide_eq_false in Hdone.
      destruct (date_ltb d today) eqn:Hlt.
      * split; [|split; [by left|done]].
        split; [|done]. intros _. by exists d.
      * split; [|split; [by right|done]].
        split; [done|]. intros (d' & [= <-] & _ & Hlt'). congruence.
  - assert (Hno : ¬ ∃ d, Err e = Ok d
                       ∧ dict_get t "done_status" (VStr "") ≠ VStr DONE_MARK
                       ∧ date_ltb d today = true)
      by (by intros (d & ? & _)).
    destruct (truthy _ && negb _);
      (split; [|split; [by right|done]]); (split; [done|by intros ?%Hno]).
Qed.

(** C7. The overdue flag of a task is set exactly when its [end_date] is a
    text that parses as a date, its [done_status] is not the completion
    marker, and the date is strictly before today; in every other case,
    a missing or unparseable [end_date] included, the flag is empty and no
    error is raised. *)
Theorem overdue_iff (today : date) (t : record) :
  (overdue today t = OVERDUE ↔
   ∃ s d, t !! "end_date" = Some (VStr s)
          ∧ fromisoformat_str s = Ok d
          ∧ dict_get t "done_status" (VStr "") ≠ VStr DONE_MARK
          ∧ date_ltb d today = true)
  ∧ (overdue today t = OVERDUE ∨ overdue today t = "")
  ∧ (∀ e, fromisoformat (dict_get t "end_date" VNone) = Err e → overdue today t = "")
  ∧ (t !! "end_date" = None → overdue today t = "").
Proof.
  destruct (overdue_with_iff fromisoformat today t fromisoformat_truthy)
    as (Hiff & Hcases & Herr).
  split; [|split; [exact Hcases|split; [exact Herr|]]].
  - unfold overdue. rewrite Hiff. unfold dict_get at 1 3. split.
    + intros (d & Hp & Hne & Hlt).
      destruct (t !! "end_date") as [[| |s|]|]; try discriminate.
      by exists s, d.
    + intros (s & d & -> & Hp & Hne & Hlt). by exists d.
  - intros Hnone. apply (Herr (Raise TypeError "fromisoformat: argument must be str")).
    unfold dict_get. by rewrite Hnone.
Qed.

(** The examples of the specification. *)
Example overdue_2020 (today : date) :
  date_ltb (Date 2020 1 1) today = true →
  overdue today {[ "end_date" := VStr "2020-01-01"; "done_status" := VStr "進行中" ]} = OVERDUE.
Proof.
  intros H. apply (overdue_with_iff fromisoformat _ _ fromisoformat_truthy).
  exists (Date 2020 1 1).
  split; [reflexivity|]. split; [|exact H].
  intros Heq. vm_compute in Heq. discriminate.
Qed.

Example overdue_empty_end_date (today : date) (done_status : value) :
  overdue today {[ "end_date" := VStr ""; "done_status" := done_status ]} = "".
Proof. reflexivity. Qed.

(** ** [ensure_worksheet] and [rewrite_sheet] on any worksheets *)

Lemma ensure_worksheet_triple (title : string) (headers : list string)
    (s0 : gmap string sheet) :
  triple (eq s0) (ensure_worksheet title headers)
    (λ ws s, ws = title ∧ ensured title headers s0 s) (ensured title headers s0).
Proof.
  unfold ensure_worksheet.
  destruct (s0 !! title) as [sh|] eqn:Hs.
  - (* the worksheet exists *)
    assert (Hsh : sheet_of s0 title = sh) by (unfold sheet_of; by rewrite Hs).
    eapply triple_try_except with (E' := ensured title headers s0); [| |done].
    + eapply triple_bind with (R := λ ws s, ws = title ∧ s = s0).
      * eapply triple_conseq.
        -- apply (triple_retried (eq s0) _ (λ ws s, ws = title ∧ s = s0)).
           intros s <-. simpl. by rewrite Hs.
        -- done.
        -- done.
        -- intros s <-. by left.
      * intros ws. destruct (nonempty headers).
        -- eapply triple_bind
             with (R := λ existing s, ws = title ∧ s = s0
                                      ∧ existing = rstrip_empty (header sh)).
           ++ apply triple_request; [|intros s [_ ->]; by left].
              intros s [-> ->]. simpl. by rewrite Hsh.
           ++ intros existing.
              eapply triple_bind with (R := λ _ s, ws = title ∧ ensured title headers s0 s).
              ** destruct (nonempty existing) eqn:Hex.
                 --- apply triple_ret. intros s (-> & -> & _). split; [done|by left].
                 --- eapply triple_conseq.
                     +++ apply (triple_retried
                                  (λ s, ws = title ∧ s = s0
                                        ∧ existing = rstrip_empty (header sh)) _
                                  (λ _ s, ws = title ∧ ensured title headers s0 s)).
                         intros s (-> & -> & ->). simpl. split; [done|].
                         right; left. rewrite Hsh. split; [|done].
                         by destruct (rstrip_empty (header sh)).
                     +++ done.
                     +++ done.
                     +++ intros s (_ & -> & _). by left.
              ** intros _. apply triple_ret. done.
        -- apply triple_ret. intros s [-> ->]. split; [done|by left].
    + intros e _.
      eapply triple_bind with (R := λ _ _, False).
      * eapply triple_conseq.
        -- apply (triple_retried (ensured title headers s0) _ (λ _ _, False)).
           intros s Hens. simpl.
           assert (is_Some (s !! title)) as [sh' ->]; [|done].
           destruct Hens as [->|[[_ ->]|[Hn _]]].
           ++ by rewrite Hs.
           ++ by rewrite lookup_insert_eq.
           ++ congruence.
        -- done.
        -- done.
        -- done.
      * intros ws w [].
  - (* the worksheet does not exist *)
    assert (Hsh : sheet_of s0 title = Sheet [] []) by (unfold sheet_of; by rewrite Hs).
    eapply triple_try_except with (E' := eq s0).
    + eapply triple_bind with (R := λ _ _, False).
      * apply triple_retried. intros s <-. simpl. by rewrite Hs.
      * intros ws w [].
    + intros e _.
      eapply triple_bind with (R := λ ws s, ws = title ∧ s = <[title := Sheet [] []]> s0).
      * eapply triple_conseq.
        -- apply (triple_retried (eq s0) _ (λ ws s, ws = title ∧ s = <[title := Sheet [] []]> s0)).
           intros s <-. simpl. by rewrite Hs.
        -- done.
        -- done.
        -- intros s <-. by left.
      * intros ws.
        eapply triple_bind with (R := λ _ s, ws = title ∧ ensured title headers s0 s).
        -- destruct (nonempty headers).
           ++ eapply triple_conseq.
              ** apply (triple_retried
                          (λ s, ws = title ∧ s = <[title := Sheet [] []]> s0) _
                          (λ _ s, ws = title ∧ ensured title headers s0 s)).
                 intros s [-> ->]. simpl. split; [done|].
                 right; left. rewrite Hsh. simpl. split; [done|].
                 by rewrite sheet_of_insert, insert_insert_eq.
              ** done.
              ** done.
              ** intros s [_ ->]. right; right. done.
           ++ apply triple_ret. intros s [-> ->]. split; [done|]. right; right. done.
        -- intros _. apply triple_ret. done.
    + intros s <-. by left.
Qed.

Lemma triple_exact {A} (P : gmap string sheet → Prop) (m : M A) Q E :
  (∀ s0, P s0 → triple (eq s0) m Q E) → triple P m Q E.
Proof. intros H w Hw. by apply (H (sheets w) Hw w). Qed.

Lemma ensure_worksheet_insensitive (P : gmap string sheet → Prop) (title : string)
    (headers : list string) :
  insensitive P title →
  triple P (ensure_worksheet title headers) (λ ws s, ws = title ∧ P s) P.
Proof.
  intros HP. apply triple_exact. intros s0 Hs0.
  assert (Hens : ∀ s, ensured title headers s0 s → P s).
  { intros s [->|[[_ ->]|[_ ->]]]; [done|by apply HP..]. }
  eapply triple_conseq; [apply ensure_worksheet_triple|done| |done].
  intros ws s [-> H]. auto.
Qed.

Lemma rewrite_sheet_insensitive (P : gmap string sheet → Prop) (ws : string)
    (headers : list string) (rows : list row) :
  insensitive P ws →
  triple P (rewrite_sheet ws headers rows) (λ _, P) P.
Proof.
  intros HP. apply triple_exact. intros s0 Hs0.
  eapply triple_conseq; [apply rewrite_sheet_triple|done| | ].
  - intros _ s ->. by apply HP.
  - intros s [->|[->| ->]]; [done|by apply HP..].
Qed.

Lemma sh_worksheet_triple (P : gmap string sheet → Prop) (title : string) :
  triple P (sh_worksheet title) (λ ws s, ws = title ∧ P s) P.
Proof.
  apply triple_request; [|done]. intros s Hs. by destruct (s !! title).
Qed.

Lemma sh_add_worksheet_insensitive (P : gmap string sheet → Prop) (title : string) :
  insensitive P title →
  triple P (sh_add_worksheet title) (λ _, P) P.
Proof.
  intros HP. apply triple_request; [|done]. intros s Hs.
  destruct (s !! title); [done|]. by apply HP.
Qed.

Lemma ws_get_all_values_triple (P : gmap string sheet → Prop) (ws : string) :
  triple P (ws_get_all_values ws) (λ _, P) P.
Proof. apply triple_request; [|done]. intros s Hs. done. Qed.

Lemma upload_all_triple (P : gmap string sheet → Prop) (files : list uploaded_file) :
  triple P (upload_all files) (λ _, P) P.
Proof.
  intros w Hw. pose proof (upload_all_world files w) as H.
  destruct (upload_all files w) as [[urls|e] w']; simpl in H; by subst.
Qed.

(** ** The task tables hold only the two review states *)

Lemma tasks_ok_insert (s : gmap string sheet) (t : string) (sh : sheet) :
  tasks_ok s → (is_task_title t = true → task_sheet_ok sh) → tasks_ok (<[t := sh]> s).
Proof.
  intros Hs Hsh t' sh' Hl Ht'.
  destruct (decide (t = t')) as [->|Hne].
  - rewrite lookup_insert_eq in Hl. injection Hl as <-. auto.
  - rewrite lookup_insert_ne in Hl by done. eauto.
Qed.

Lemma tasks_ok_insensitive (t : string) :
  is_task_title t = false → insensitive tasks_ok t.
Proof. intros Ht s sh Hs. apply tasks_ok_insert; [done|]. congruence. Qed.

Lemma tasks_ok_sheet_of (s : gmap string sheet) (t : string) :
  tasks_ok s → is_task_title t = true → task_sheet_ok (sheet_of s t).
Proof.
  intros Hs Ht. unfold sheet_of. destruct (s !! t) as [sh|] eqn:Hl; simpl.
  - eauto.
  - by left.
Qed.

Lemma prefix_append (p s : string) : String.prefix p (p +:+ s) = true.
Proof.
  induction p as [|a p IH].
  - by destruct s.
  - change (String a p +:+ s) with (String a (p +:+ s)). simpl.
    destruct (Ascii.ascii_dec a a); [done|congruence].
Qed.

Lemma is_task_title_tasks (srs_id : Z) : is_task_title (tasks_title srs_id) = true.
Proof. apply prefix_append. Qed.

Lemma not_task_title_overview (srs_id : Z) : is_task_title (overview_title srs_id) = false.
Proof. reflexivity. Qed.

Lemma not_task_title_content (srs_id : Z) : is_task_title (content_title srs_id) = false.
Proof. reflexivity. Qed.

Lemma not_task_title_pm (srs_id : Z) : is_task_title (pm_tasks_title srs_id) = false.
Proof. reflexivity. Qed.

Lemma ensure_tasks_ok (srs_id : Z) :
  triple tasks_ok (ensure_worksheet (tasks_title srs_id) TASK_HEADERS)
    (λ ws s, ws = tasks_title srs_id ∧ tasks_ok s) tasks_ok.
Proof.
  apply triple_exact. intros s0 Hs0.
  assert (Hens : ∀ s, ensured (tasks_title srs_id) TASK_HEADERS s0 s → tasks_ok s).
  { intros s [->|[[Hempty ->]|[_ ->]]]; [done| |].
    - apply tasks_ok_insert; [done|]. intros _.
      destruct (tasks_ok_sheet_of s0 (tasks_title srs_id) Hs0 (is_task_title_tasks _)) as [->|[Hh _]].
      + by right.
      + rewrite Hh in Hempty. discriminate.
    - apply tasks_ok_insert; [done|]. intros _. by left. }
  eapply triple_conseq; [apply ensure_worksheet_triple|done| |done].
  intros ws s [-> H]. auto.
Qed.

Lemma rewrite_tasks_ok (ws : string) (rows : list row) :
  Forall client_status_ok rows →
  triple tasks_ok (rewrite_sheet ws TASK_HEADERS rows) (λ _, tasks_ok) tasks_ok.
Proof.
  intros Hrows. apply triple_exact. intros s0 Hs0.
  eapply triple_conseq; [apply rewrite_sheet_triple|done| | ].
  - intros _ s ->. apply tasks_ok_insert; [done|]. intros _. by right.
  - intros s [->|[->| ->]]; [done| |].
    + apply tasks_ok_insert; [done|]. intros _. by left.
    + apply tasks_ok_insert; [done|]. intros _. by right.
Qed.

Lemma triple_lift_keep {A} (P : gmap string sheet → Prop) (r : result A) :
  triple P (lift r) (λ _, P) P.
Proof. apply triple_lift. intros s Hs. by destruct r. Qed.

Lemma read_all_keep (P : gmap string sheet → Prop) (ws : string) :
  triple P (read_all ws) (λ _, P) P.
Proof.
  eapply triple_conseq; [apply read_all_triple|done| |done]. by intros recs s [? _].
Qed.

Lemma create_srs_worksheets_preserves (P : gmap string sheet → Prop) (srs : srs_obj)
    (meeting : record) :
  insensitive P (overview_title (o_id srs)) →
  insensitive P (content_title (o_id srs)) →
  insensitive P (pm_tasks_title (o_id srs)) →
  triple P (ensure_worksheet (tasks_title (o_id srs)) TASK_HEADERS)
    (λ ws s, ws = tasks_title (o_id srs) ∧ P s) P →
  triple P (rewrite_sheet (tasks_title (o_id srs)) TASK_HEADERS []) (λ _, P) P →
  triple P (create_srs_worksheets srs meeting) (λ _, P) P.
Proof.
  intros Hov Hct Hpm Hens Hrw. unfold create_srs_worksheets.
  eapply triple_bind; [by apply ensure_worksheet_insensitive|].
  intros ws. simpl.
  eapply triple_bind with (R := λ _ s, ws = overview_title (o_id srs) ∧ P s).
  { apply triple_lift. intros s [-> Hs]. by destruct (meeting_line meeting). }
  intros source.
  eapply triple_bind with (R := λ _, P).
  { intros w [-> Hw]. by apply rewrite_sheet_insensitive. }
  intros ?.
  eapply triple_bind; [by apply ensure_worksheet_insensitive|].
  intros ws_ct. simpl.
  eapply triple_bind with (R := λ _, P).
  { intros w [-> Hw]. by apply rewrite_sheet_insensitive. }
  intros ?.
  eapply triple_bind; [exact Hens|].
  intros ws_tasks. simpl.
  eapply triple_bind with (R := λ _, P).
  { intros w [-> Hw]. by apply Hrw. }
  intros ?.
  eapply triple_try_except with (E' := P); [| |done].
  - eapply triple_bind with (R := λ _, P).
    + eapply triple_conseq; [apply sh_worksheet_triple|done| |done]. by intros ? ? [_ ?].
    + intros _. by apply triple_ret.
  - intros e _. eapply triple_bind with (R := λ _, P).
    + by apply sh_add_worksheet_insensitive.
    + intros _. by apply triple_ret.
Qed.

Lemma create_srs_worksheets_tasks_ok (srs : srs_obj) (meeting : record) :
  triple tasks_ok (create_srs_worksheets srs meeting) (λ _, tasks_ok) tasks_ok.
Proof.
  apply create_srs_worksheets_preserves.
  - apply tasks_ok_insensitive, not_task_title_overview.
  - apply tasks_ok_insensitive, not_task_title_content.
  - apply tasks_ok_insensitive, not_task_title_pm.
  - apply ensure_tasks_ok.
  - apply rewrite_tasks_ok. constructor.
Qed.

Lemma page_pm_create_meeting_preserves (P : gmap string sheet → Prop) (ws : string)
    (d : date) (title raw_req : string) :
  insensitive P ws →
  triple P (page_pm_create_meeting ws d title raw_req) (λ _, P) P.
Proof.
  intros HP. unfold page_pm_create_meeting.
  destruct (blank title); [by apply triple_show|].
  eapply triple_bind; [apply read_all_keep|]. intros existing. simpl.
  eapply triple_bind; [apply triple_lift_keep|]. intros nid. simpl.
  eapply triple_bind; [apply triple_lift_keep|]. intros rows. simpl.
  eapply triple_bind; [by apply rewrite_sheet_insensitive|]. intros ?.
  by apply triple_show.
Qed.

Lemma page_pm_create_srs_tasks_ok (sel_meeting : record) (f : srs_form) :
  triple tasks_ok (page_pm_create_srs "srs_index" sel_meeting f) (λ _, tasks_ok) tasks_ok.
Proof.
  unfold page_pm_create_srs.
  destruct (blank (srs_title f)); [by apply triple_show|].
  eapply triple_bind; [apply read_all_keep|]. intros exist. simpl.
  eapply triple_bind; [apply triple_lift_keep|]. intros nid. simpl.
  eapply triple_bind; [apply triple_lift_keep|]. intros problem. simpl.
  eapply triple_bind; [apply triple_lift_keep|]. intros mid. simpl.
  eapply triple_bind; [apply triple_lift_keep|]. intros rows. simpl.
  eapply triple_bind; [by apply rewrite_sheet_insensitive, tasks_ok_insensitive|].
  intros ?.
  eapply triple_bind; [apply create_srs_worksheets_tasks_ok|]. intros ?.
  by apply triple_show.
Qed.

Lemma page_client_srs_review_save_tasks_ok (srs_id : Z) (new_status : review_status)
    (new_comment : string) :
  triple tasks_ok (page_client_srs_review_save "srs_index" srs_id new_status new_comment)
    (λ _, tasks_ok) tasks_ok.
Proof.
  unfold page_client_srs_review_save, update_srs_index, update_overview.
  eapply triple_bind with (R := λ _, tasks_ok).
  { eapply triple_bind; [apply read_all_keep|]. intros xs. simpl.
    eapply triple_bind; [apply triple_lift_keep|]. intros rows. simpl.
    by apply rewrite_sheet_insensitive, tasks_ok_insensitive. }
  intros ?.
  eapply triple_bind with (R := λ _, tasks_ok).
  { eapply triple_try_except with (E' := tasks_ok); [| |done].
    - eapply triple_bind; [apply sh_worksheet_triple|]. intros ws. simpl.
      eapply triple_bind with (R := λ _ s, ws = overview_title srs_id ∧ tasks_ok s).
      { eapply triple_conseq;
          [apply (read_all_triple (λ s, ws = overview_title srs_id ∧ tasks_ok s))
          |done| |].
        - by intros recs s [? _].
        - by intros s [_ ?]. }
      intros ov. intros w [-> Hw].
      apply (rewrite_sheet_insensitive tasks_ok); [|done].
      apply tasks_ok_insensitive, not_task_title_overview.
    - intros e _. by apply triple_ret. }
  intros ?. by apply triple_show.
Qed.

Lemma task_rows_ok (sh : sheet) (rows : list row) :
  task_sheet_ok sh →
  result_map task_row (all_records sh) = Ok rows →
  Forall client_status_ok rows.
Proof.
  intros [->|[Hh Hb]] Hr.
  - simpl in Hr. injection Hr as <-. constructor.
  - destruct sh as [h b]. simpl in *. subst h.
    assert (Hlen : Forall (λ r, length r = 11%nat) b).
    { eapply Forall_impl; [exact Hb|]. by intros r [? _]. }
    destruct (task_rows_roundtrip b Hlen) as [Hrec Hrows].
    rewrite Hrec, Hrows in Hr. by injection Hr as <-.
Qed.

Lemma new_task_row_ok (nid : Z) (name : value) (f : report_form) (result_url : string) :
  client_status_ok (new_task_row nid name f result_url).
Proof. split; [reflexivity|]. by left. Qed.

Lemma reviewed_task_row_ok (choice : Z → option review_status) (t : record) (r : row) :
  reviewed_task_row choice t = Ok r → client_status_ok r.
Proof.
  unfold reviewed_task_row. destruct (record_id t) as [tid|e]; simpl; [|done].
  destruct (check_urls _); simpl; [|done].
  intros [= <-]. split; [reflexivity|]. simpl.
  destruct (default _ (choice tid)); [by left|by right].
Qed.

Lemma page_engineer_report_tasks_ok (srs_id : Z) (pm_subtasks : list value)
    (f : report_form) (submitted : bool) :
  triple tasks_ok (page_engineer_report srs_id pm_subtasks f submitted)
    (λ _, tasks_ok) tasks_ok.
Proof.
  unfold page_engineer_report.
  eapply triple_bind; [apply ensure_tasks_ok|]. intros ws. simpl.
  eapply triple_bind
    with (R := λ existing s, ws = tasks_title srs_id ∧ tasks_ok s
                             ∧ ∀ rows, result_map task_row existing = Ok rows →
                                       Forall client_status_ok rows).
  { eapply triple_conseq;
      [apply (read_all_triple (λ s, ws = tasks_title srs_id ∧ tasks_ok s))|done| |].
    - intros recs s [[-> Hs] ->]. split; [done|]. split; [done|].
      intros rows. apply task_rows_ok.
      apply tasks_ok_sheet_of; [done|apply is_task_title_tasks].
    - by intros s [_ ?]. }
  intros existing.
  destruct submitted; [|apply triple_ret; by intros s (_ & ? & _)].
  eapply triple_bind
    with (R := λ _ s, ws = tasks_title srs_id ∧ tasks_ok s
                      ∧ ∀ rows, result_map task_row existing = Ok rows →
                                Forall client_status_ok rows).
  { apply triple_lift. intros s Hs. destruct (new_id existing); [exact Hs|].
    exact (proj1 (proj2 Hs)). }
  intros nid.
  eapply triple_bind
    with (R := λ _ s, ws = tasks_title srs_id ∧ tasks_ok s
                      ∧ ∀ rows, result_map task_row existing = Ok rows →
                                Forall client_status_ok rows).
  { eapply triple_conseq;
      [apply (upload_all_triple
                (λ s, ws = tasks_title srs_id ∧ tasks_ok s
                      ∧ ∀ rows, result_map task_row existing = Ok rows →
                                Forall client_status_ok rows))
      |done|done|].
    by intros s (_ & ? & _). }
  intros urls. simpl.
  eapply triple_bind
    with (R := λ rows s, ws = tasks_title srs_id ∧ tasks_ok s
                         ∧ Forall client_status_ok rows).
  { apply triple_lift. intros s (-> & Hs & Hrows).
    destruct (result_map task_row existing) as [rows|e]; [|done]. auto. }
  intros rows.
  eapply triple_bind with (R := λ _, tasks_ok).
  { intros w (-> & Hw & Hrows). apply (rewrite_tasks_ok _ _); [|done].
    apply Forall_app. split; [done|]. constructor; [apply new_task_row_ok|constructor]. }
  intros ?. by apply triple_show.
Qed.

Lemma page_engineer_pm_subtasks_keep (P : gmap string sheet → Prop) (srs_id : Z) :
  triple P (page_engineer_pm_subtasks srs_id) (λ _, P) P.
Proof.
  unfold page_engineer_pm_subtasks.
  eapply triple_try_except with (E' := P); [| |done].
  - eapply triple_bind with (R := λ _, P).
    { eapply triple_conseq; [apply sh_worksheet_triple|done| |done]. by intros ? ? [_ ?]. }
    intros ws_pm.
    eapply triple_bind; [apply ws_get_all_values_triple|]. intros pm_values. simpl.
    eapply triple_bind with (R := λ _, P).
    { destruct (length pm_values <=? 1)%nat; [by apply triple_show|by apply triple_ret]. }
    intros ?. by apply triple_ret.
  - intros e _. eapply triple_bind with (R := λ _, P); [by apply triple_show|].
    intros ?. by apply triple_ret.
Qed.

Lemma page_engineer_tasks_ok (srs_id : Z) (f : report_form) (submitted : bool) :
  triple tasks_ok (page_engineer srs_id f submitted) (λ _, tasks_ok) tasks_ok.
Proof.
  unfold page_engineer.
  eapply triple_bind; [apply page_engineer_pm_subtasks_keep|].
  intros pm. apply page_engineer_report_tasks_ok.
Qed.

Lemma page_client_task_review_tasks_ok (srs_id : Z) (choice : Z → option review_status)
    (save : bool) :
  triple tasks_ok (page_client_task_review srs_id choice save) (λ _, tasks_ok) tasks_ok.
Proof.
  unfold page_client_task_review.
  eapply triple_bind with (R := λ _, tasks_ok).
  { eapply triple_try_except with (E' := tasks_ok); [| |done].
    - eapply triple_bind with (R := λ _, tasks_ok).
      { eapply triple_conseq; [apply sh_worksheet_triple|done| |done]. by intros ? ? [_ ?]. }
      intros ws_tasks.
      eapply triple_bind; [apply read_all_keep|]. intros tasks. simpl.
      by apply triple_ret.
    - intros e _. eapply triple_bind with (R := λ _, tasks_ok); [by apply triple_show|].
      intros ?. by apply triple_ret. }
  intros [[ws_tasks tasks]|]; [|by apply triple_ret].
  eapply triple_bind with (R := λ rows s, tasks_ok s ∧ Forall client_status_ok rows).
  { apply triple_lift. intros s Hs.
    destruct (result_map _ tasks) as [rows|e] eqn:Hr; [|done].
    split; [done|]. apply result_map_Ok in Hr.
    eapply Forall2_Forall_r; [exact Hr|]. apply Forall_forall.
    intros t _ r. apply reviewed_task_row_ok. }
  intros rows. destruct save; [|apply triple_ret; by intros s [? _]].
  eapply triple_bind with (R := λ _, tasks_ok).
  { intros w [Hw Hrows]. by apply (rewrite_tasks_ok _ _). }
  intros ?. by apply triple_show.
Qed.

Lemma step_tasks_ok (w w' : world) :
  step w w' → tasks_ok (sheets w) → tasks_ok (sheets w').
Proof.
  intros Hstep Hw. destruct Hstep.
  - pose proof (page_pm_create_meeting_preserves tasks_ok "meetings" d title raw_req
                  (tasks_ok_insensitive "meetings" eq_refl) w Hw) as H.
    by destruct (page_pm_create_meeting _ _ _ _ w) as [[?|?] ?].
  - pose proof (page_pm_create_srs_tasks_ok sel_meeting f w Hw) as H.
    by destruct (page_pm_create_srs _ _ _ w) as [[?|?] ?].
  - pose proof (page_engineer_tasks_ok srs_id f submitted w Hw) as H.
    by destruct (page_engineer _ _ _ w) as [[?|?] ?].
  - pose proof (page_client_srs_review_save_tasks_ok srs_id new_status new_comment w Hw) as H.
    by destruct (page_client_srs_review_save _ _ _ _ w) as [[?|?] ?].
  - pose proof (page_client_task_review_tasks_ok srs_id choice save w Hw) as H.
    by destruct (page_client_task_review _ _ _ w) as [[?|?] ?].
  - done.
Qed.

Lemma task_sheet_ok_records (sh : sheet) (t : record) :
  task_sheet_ok sh → t ∈ all_records sh →
  t !! "client_status" = Some (VStr "待確認") ∨ t !! "client_status" = Some (VStr "已通過").
Proof.
  intros [->|[Hh Hb]] Ht.
  - simpl in Ht. by apply elem_of_nil in Ht.
  - destruct sh as [h b]. simpl in *. subst h.
    rewrite all_records_uniform in Ht.
    2:{ eapply Forall_impl; [exact Hb|]. by intros r [? _]. }
    apply list_elem_of_fmap in Ht as (r & -> & Hr).
    rewrite Forall_forall in Hb. destruct (Hb r Hr) as [Hlen Hcs].
    do 11 (destruct r as [|? r]; [discriminate|]). destruct r; [|discriminate].
    exact Hcs.
Qed.

Lemma tasks_ok_empty : tasks_ok ∅.
Proof. intros t sh Hl. by rewrite lookup_empty in Hl. Qed.

Lemma rtc_step_tasks_ok (w w' : world) :
  rtc step w w' → tasks_ok (sheets w) → tasks_ok (sheets w').
Proof. induction 1 as [|w1 w2 w3 Hs _ IH]; [done|]. intros H. eapply IH, step_tasks_ok; eauto. Qed.

(** C10. Every completed engineer report has appended a row whose
    [client_status] is "待確認" (pending); the batch task review writes
    "待確認" or "已通過" (approved) in every row; and, from worksheets whose
    task tables hold only these two values (an empty spreadsheet, for
    one), after any sequence of page actions with any inputs and any
    refused requests, every record of every task table has one of the two
    values as its [client_status]. *)
Theorem client_status_two_values :
  (∀ srs_id pm_subtasks f w w',
     page_engineer_report srs_id pm_subtasks f true w = (Ok tt, w') →
     ∃ rows new_row,
       sheets w' !! tasks_title srs_id = Some (Sheet TASK_HEADERS (rows ++ [new_row]))
       ∧ task_field new_row "client_status" = Some (VStr "待確認"))
  ∧ (∀ choice t r,
       reviewed_task_row choice t = Ok r →
       task_field r "client_status" = Some (VStr "待確認")
       ∨ task_field r "client_status" = Some (VStr "已通過"))
  ∧ (∀ w w',
       tasks_ok (sheets w) → rtc step w w' →
       ∀ title t,
         is_task_title title = true →
         t ∈ all_records (sheet_of (sheets w') title) →
         t !! "client_status" = Some (VStr "待確認")
         ∨ t !! "client_status" = Some (VStr "已通過")).
Proof.
  split; [|split].
  - intros srs_id pm f w w' H.
    apply page_engineer_report_Ok in H as (w1 & nid & urls & rows & _ & _ & _ & Hw').
    eexists rows, _. rewrite Hw', lookup_insert_eq. done.
  - intros choice t r. unfold reviewed_task_row.
    destruct (record_id t) as [tid|e]; simpl; [|done].
    destruct (check_urls _); simpl; [|done].
    intros [= <-]. destruct (default _ (choice tid)); [by left|by right].
  - intros w w' Hw Hsteps title t Htitle Ht.
    eapply task_sheet_ok_records; [|exact Ht].
    apply tasks_ok_sheet_of; [|done]. by eapply rtc_step_tasks_ok.
Qed.

Lemma client_status_two_values_witness :
  let w := World ∅ [None; Some too_many_requests] [] [] in
  let w1 := (page_engineer 1 form_1 true w).2 in
  let w2 := (page_client_task_review 1 (λ _, Some Approved) true w1).2 in
  all_records (sheet_of (sheets w2) "SRS_TASKS_1")
  = [dict_zip TASK_HEADERS
       [VInt 1; VStr "（尚無子任務，請 PM 建立）"; VStr ""; VStr "Engineer";
        VFloat 4 1 "4.0"; VStr "2024-02-01"; VStr "2024-02-09"; VStr "需要更多資料";
        VStr "等待資料"; VStr "已通過"; VStr ""]]
  ∧ ∀ t, t ∈ all_records (sheet_of (sheets w2) "SRS_TASKS_1") →
         t !! "client_status" = Some (VStr "待確認")
         ∨ t !! "client_status" = Some (VStr "已通過").
Proof.
  intros w w1 w2. split; [reflexivity|].
  destruct client_status_two_values as (_ & _ & H).
  intros t. apply (H w w2).
  - apply tasks_ok_empty.
  - eapply rtc_l; [apply (step_engineer 1 form_1 true)|].
    eapply rtc_l; [apply (step_task_review 1 (λ _, Some Approved) true)|].
    apply rtc_refl.
  - reflexivity.
Defined.

(** ** Task review *)






(** ** Spec review *)


Lemma quiet_lift {A} (r : result A) : quiet (lift r).
Proof. done. Qed.














(** The Overview is missing, or its lookup is refused: the save still
    reports success and the index alone carries the review. *)
Example srs_review_overview_missing :
  page_client_srs_review_save "srs_index" 2 Pending "請補充" (World sheets_4 [] [] [])
  = (Ok tt,
     World
       (<["srs_index" :=
            Sheet SRS_INDEX_HEADERS
              [srs_1; take 11 srs_2 ++ [VStr "待確認"; VStr "請補充"]]]> sheets_4)
       [] [] [(UiSuccess, SRS_REVIEW_SAVED)]).
Proof. vm_compute. reflexivity. Qed.

(** ** Requirement spec creation *)



Lemma srs_rows_roundtrip (body : list row) :
  Forall (λ r, length r = 13%nat) body →
  all_records (Sheet SRS_INDEX_HEADERS body) = dict_zip SRS_INDEX_HEADERS <$> body
  ∧ result_map srs_row (dict_zip SRS_INDEX_HEADERS <$> body) = Ok body.
Proof.
  intros Hb. split.
  - by apply all_records_uniform.
  - apply result_map_roundtrip. eapply Forall_impl; [exact Hb|].
    intros r Hr. by apply srs_row_dict_zip.
Qed.



(** The scenario of the specification: the spec row and the four child
    worksheets, named from the new id. *)
Example create_srs_scenario :
  let r := page_pm_create_srs "srs_index" meeting_1 srs_form_1 (World sheets_5 [] [] []) in
  r.1 = Ok tt
  ∧ sheets r.2 !! "srs_index" = Some (Sheet SRS_INDEX_HEADERS [srs_1])
  ∧ sheets r.2 !! "SRS_OVERVIEW_1" = sheets_4 !! "SRS_OVERVIEW_1"
  ∧ sheets r.2 !! "SRS_TASKS_1" = Some (Sheet TASK_HEADERS [])
  ∧ sheets r.2 !! "PM_TASKS_1" = Some (Sheet [] [])
  ∧ is_Some (sheets r.2 !! "SRS_CONTENT_1")
  ∧ screen r.2 = [(UiSuccess, "SRS-1 建立成功！")].
Proof. vm_compute. repeat split; eauto. Qed.

(** ** A further behaviour of the retry wrapper *)

(** The rate-limit test reads [str(e)]: the lookup of a missing worksheet
    whose title contains "429" is retried five times and ends in the
    generic failure, so the worksheet is not created. *)
Example ensure_worksheet_title_429 :
  ensure_worksheet "SRS_OVERVIEW_429" SRS_OVERVIEW_HEADERS (World ∅ [] [] [])
  = (Err retries_exhausted, World ∅ [] [1200; 2200; 3200; 4200; 5200]%Z []).
Proof. vm_compute. reflexivity. Qed.

(** ** Instances of the retry policy and of the overdue flag *)

Lemma with_retry_policy_witness :
  let w := World sheets_1 [Some too_many_requests; Some too_many_requests] [] [] in
  ∃ k w1, (k ≤ 5)%nat
    ∧ throttled (ws_get_all_records "SRS_TASKS_1") k w w1
    ∧ slept w1 = slept w ++ delays k.
Proof.
  intros w.
  destruct (with_retry_policy
              (λ s, (Ok (all_records (sheet_of s "SRS_TASKS_1")), s)) w)
    as (k & w1 & Hk & Hthr & Hsl & _ & _).
  exists k, w1. split; [exact Hk|]. split; [exact Hthr|exact Hsl].
Defined.

Lemma overdue_iff_witness :
  overdue (Date 2024 3 1)
    {[ "end_date" := VStr "2020-01-01"; "done_status" := VStr "進行中" ]} = OVERDUE
  ∧ overdue (Date 2024 3 1)
      {[ "end_date" := VStr "2020-01-01"; "done_status" := VStr "已完成" ]} = ""
  ∧ overdue (Date 2020 1 1)
      {[ "end_date" := VStr "2020-01-01"; "done_status" := VStr "進行中" ]} = "".
Proof.
  split; [|split; reflexivity].
  apply (proj1 (overdue_iff (Date 2024 3 1)
                  {[ "end_date" := VStr "2020-01-01"; "done_status" := VStr "進行中" ]})).
  exists "2020-01-01", (Date 2020 1 1).
  split; [reflexivity|]. split; [reflexivity|]. split; [|reflexivity].
  intros Heq. vm_compute in Heq. discriminate.
Defined.

(** * Further properties of the helpers *)

(** ** The cost of a wrapped request *)

Lemma request_faults {A} (serve : gmap string sheet → result A * gmap string sheet)
    (w : world) :
  faults (request serve w).2 = tail (faults w).
Proof.
  unfold request. destruct (faults w) as [|[e|] fs] eqn:Hf; simpl.
  - destruct (serve (sheets w)). simpl. by rewrite Hf.
  - done.
  - by destruct (serve (sheets w)).
Qed.

Lemma throttled_request_faults {A}
    (serve : gmap string sheet → result A * gmap string sheet) (k : nat) (w w' : world) :
  throttled (request serve) k w w' → faults w' = drop k (faults w).
Proof.
  induction 1 as [w|k w w1 e w2 Hthr IH Hf Hrl]; [done|].
  simpl. pose proof (request_faults serve w1) as Hfa. rewrite Hf in Hfa. simpl in Hfa.
  rewrite Hfa, IH. replace (S k) with (k + 1)%nat by lia.
  rewrite <- drop_drop. by destruct (drop k (faults w)).
Qed.

Lemma delays_sum (k : nat) :
  (k ≤ 5)%nat → (foldr Z.add 0 (delays k) ≤ 16000)%Z.
Proof.
  intros Hk. do 6 (destruct k as [|k]; [vm_compute; discriminate|]). lia.
Qed.

(** X1. A request behind [with_retry] is sent at least once and at most five
    times, the script sleeps only between these attempts, sixteen seconds in
    all at most, and nothing is shown on the screen. *)
Theorem with_retry_cost {A} (serve : gmap string sheet → result A * gmap string sheet)
    (w : world) :
  let w' := (with_retry (request serve) w).2 in
  ∃ n k, (1 ≤ n ≤ 5)%nat ∧ (k ≤ n)%nat
    ∧ faults w' = drop n (faults w)
    ∧ slept w' = slept w ++ delays k
    ∧ (foldr Z.add 0 (delays k) ≤ 16000)%Z
    ∧ screen w' = screen w.
Proof.
  intros w'. subst w'.
  destruct (retry_loop_outcome (request serve) w 5 0 w (throttled_O _ w))
    as (k & w1 & Hk & Hthr & Hcases).
  pose proof (throttled_request_slept serve _ _ _ Hthr) as Hsl.
  pose proof (throttled_request_faults serve _ _ _ Hthr) as Hfa.
  assert (Hsc : screen w1 = screen w).
  { clear -Hthr. induction Hthr as [w|k w w1 e w2 _ IH Hf _]; [done|].
    simpl. pose proof (request_slept serve w1) as [_ Hs]. rewrite Hf in Hs.
    simpl in Hs. by rewrite Hs. }
  change (retry_loop (request serve) (Z.of_nat <$> seq 0 5)) with (with_retry (request serve))
    in Hcases.
  destruct Hcases as [[-> Hr]|[(Hlt & a & w2 & Hf & Hr)|(Hlt & e & w2 & Hf & _ & Hr)]].
  - exists 5%nat, 5%nat. rewrite Hr. cbn [snd].
    split_and!; [lia|lia|lia|done|done| |done]. by apply delays_sum.
  - exists (S k), k. rewrite Hr. cbn [snd].
    pose proof (request_slept serve w1) as [Hs1 Hs2].
    pose proof (request_faults serve w1) as Hf1. rewrite Hf in Hs1, Hs2, Hf1.
    cbn [snd] in Hs1, Hs2, Hf1.
    rewrite Hs1, Hs2, Hf1, Hfa.
    split_and!; [lia|lia|lia| |done| |done].
    + replace (S k) with (k + 1)%nat by lia. rewrite <- drop_drop.
      by destruct (drop k (faults w)).
    + apply delays_sum. lia.
  - exists (S k), k. rewrite Hr. cbn [snd].
    pose proof (request_slept serve w1) as [Hs1 Hs2].
    pose proof (request_faults serve w1) as Hf1. rewrite Hf in Hs1, Hs2, Hf1.
    cbn [snd] in Hs1, Hs2, Hf1.
    rewrite Hs1, Hs2, Hf1, Hfa.
    split_and!; [lia|lia|lia| |done| |done].
    + replace (S k) with (k + 1)%nat by lia. rewrite <- drop_drop.
      by destruct (drop k (faults w)).
    + apply delays_sum. lia.
Qed.

(** ** [ensure_worksheet] *)

Lemma ensured_keeps (title : string) (headers : list string) (s0 s : gmap string sheet) :
  ensured title headers s0 s →
  (∀ t, t ≠ title → s !! t = s0 !! t)
  ∧ body (sheet_of s title) = body (sheet_of s0 title)
  ∧ (nonempty (rstrip_empty (header (sheet_of s0 title))) = true → s = s0).
Proof.
  intros [->|[[Hempty ->]|[Hnone ->]]].
  - done.
  - split_and!.
    + intros t Ht. by rewrite lookup_insert_ne.
    + by rewrite sheet_of_insert.
    + by rewrite Hempty.
  - split_and!.
    + intros t Ht. by rewrite lookup_insert_ne.
    + rewrite sheet_of_insert. unfold sheet_of. by rewrite Hnone.
    + unfold sheet_of. by rewrite Hnone.
Qed.

(** X2. Whatever is refused and whether it completes or raises,
    [ensure_worksheet] leaves every other worksheet as it was, never changes
    the rows below the header of its own worksheet, and does not touch a
    worksheet whose first row is not empty. *)
Theorem ensure_worksheet_keeps_rows (title : string) (headers : list string) (w : world) :
  let w' := (ensure_worksheet title headers w).2 in
  (∀ t, t ≠ title → sheets w' !! t = sheets w !! t)
  ∧ body (sheet_of (sheets w') title) = body (sheet_of (sheets w) title)
  ∧ (nonempty (rstrip_empty (header (sheet_of (sheets w) title))) = true →
     sheets w' = sheets w).
Proof.
  intros w'. subst w'.
  pose proof (ensure_worksheet_triple title headers (sheets w) w eq_refl) as H.
  destruct (ensure_worksheet title headers w) as [[ws|e] w1]; simpl.
  - destruct H as [_ H]. by apply ensured_keeps in H.
  - by apply ensured_keeps in H.
Qed.

Lemma retry_loop_all_throttled {A} (func : M A) (e : exn) (attempts : list Z)
    (s : gmap string sheet) (sl : list Z) (sc : list (ui_kind * string)) :
  (∀ sl', func (World s [] sl' sc) = (Err e, World s [] sl' sc)) →
  rate_limited e = true →
  retry_loop func attempts (World s [] sl sc)
  = (Err retries_exhausted, World s [] (sl ++ (retry_delay <$> attempts)) sc).
Proof.
  intros Hf He. revert sl. induction attempts as [|i rest IH]; intros sl.
  - simpl. by rewrite app_nil_r.
  - rewrite retry_loop_cons, Hf, He. simpl. rewrite IH.
    by rewrite <- app_assoc.
Qed.

(** X3. The rate-limit test of [with_retry] reads the text of the exception,
    and the text of [WorksheetNotFound] is the title.  So for a worksheet
    that is missing and whose title contains "429" (or "Quota exceeded"),
    [ensure_worksheet] does not create it even when every request is
    served: the lookup is repeated five times, with the five sleeps, and
    the generic failure is raised. *)
Theorem ensure_worksheet_title_rate_limited (title : string) (headers : list string)
    (s : gmap string sheet) (sl : list Z) (sc : list (ui_kind * string)) :
  s !! title = None →
  rate_limited (Raise WorksheetNotFound title) = true →
  ensure_worksheet title headers (World s [] sl sc)
  = (Err retries_exhausted, World s [] (sl ++ [1200; 2200; 3200; 4200; 5200]%Z) sc).
Proof.
  intros Hs Hrl. unfold ensure_worksheet, try_except, bind, with_retry.
  rewrite (retry_loop_all_throttled _ (Raise WorksheetNotFound title)); [done| |done].
  intros sl'. unfold sh_worksheet. rewrite request_run. simpl. by rewrite Hs.
Qed.

Lemma ensure_worksheet_title_rate_limited_witness :
  ensure_worksheet "SRS_TASKS_1429" TASK_HEADERS (World sheets_1 [] [] [])
  = (Err retries_exhausted, World sheets_1 [] ([] ++ [1200; 2200; 3200; 4200; 5200]%Z) []).
Proof.
  apply ensure_worksheet_title_rate_limited; vm_compute; reflexivity.
Defined.

Lemma rstrip_empty_overlay (headers old : list string) :
  nonempty (rstrip_empty headers) = true →
  nonempty (rstrip_empty (overlay headers old)) = true.
Proof.
  revert old. induction headers as [|h headers IH]; intros old; [done|].
  simpl. intros H.
  destruct old as [|o old].
  - exact H.
  - simpl. destruct (rstrip_empty headers) as [|x t] eqn:Hr.
    + destruct (rstrip_empty (overlay headers old)); [|done].
      by destruct (bool_decide (h = "")).
    + specialize (IH old eq_refl). by destruct (rstrip_empty (overlay headers old)).
Qed.

(** X4. When no request is refused, the title carries no rate-limit text
    and the headers are not all empty, [ensure_worksheet] completes, the
    worksheet then exists with a first row that is not empty, and a second
    call changes nothing. *)
Theorem ensure_worksheet_idempotent (title : string) (headers : list string)
    (s : gmap string sheet) (sl : list Z) (sc : list (ui_kind * string)) :
  rate_limited (Raise WorksheetNotFound title) = false →
  nonempty (rstrip_empty headers) = true →
  ∃ s' sh,
    ensure_worksheet title headers (World s [] sl sc) = (Ok title, World s' [] sl sc)
    ∧ s' !! title = Some sh
    ∧ nonempty (rstrip_empty (header sh)) = true
    ∧ body sh = body (sheet_of s title)
    ∧ ensure_worksheet title headers (World s' [] sl sc) = (Ok title, World s' [] sl sc).
Proof.
  intros Hrl Hh.
  assert (Hne : nonempty headers = true) by (by destruct headers).
  destruct (s !! title) as [sh|] eqn:Hs.
  - destruct (nonempty (rstrip_empty (header sh))) eqn:Hex.
    + exists s, sh. pose proof (ensure_worksheet_run title headers sh s sl sc Hs Hex) as Hrun.
      unfold sheet_of. rewrite Hs. done.
    + exists (<[title := Sheet (overlay headers (header sh)) (body sh)]> s),
        (Sheet (overlay headers (header sh)) (body sh)).
      split_and!.
      * unfold ensure_worksheet, try_except, bind.
        erewrite with_retry_Ok; [|by run_request; rewrite Hs].
        rewrite Hne. run_request. unfold sheet_of at 1. rewrite Hs. simpl. rewrite Hex.
        erewrite with_retry_Ok; [|by run_request]. unfold sheet_of. by rewrite Hs.
      * by rewrite lookup_insert_eq.
      * by apply rstrip_empty_overlay.
      * unfold sheet_of. by rewrite Hs.
      * eapply ensure_worksheet_run; [by rewrite lookup_insert_eq|].
        by apply rstrip_empty_overlay.
  - exists (<[title := Sheet headers []]> s), (Sheet headers []).
    split_and!.
    * unfold ensure_worksheet, try_except, bind.
      erewrite with_retry_Err; [| by run_request; rewrite Hs |done].
      simpl.
      erewrite with_retry_Ok; [|by run_request; rewrite Hs].
      rewrite Hne.
      erewrite with_retry_Ok; [|by run_request].
      rewrite sheet_of_insert. simpl. by rewrite overlay_nil_r, insert_insert_eq.
    * by rewrite lookup_insert_eq.
    * done.
    * unfold sheet_of. by rewrite Hs.
    * eapply ensure_worksheet_run; [by rewrite lookup_insert_eq|done].
Qed.

Lemma ensure_worksheet_idempotent_witness :
  ∃ s' sh,
    ensure_worksheet "meetings" MEETINGS_HEADERS (World sheets_1 [] [] [])
    = (Ok "meetings", World s' [] [] [])
    ∧ s' !! "meetings" = Some sh
    ∧ nonempty (rstrip_empty (header sh)) = true
    ∧ body sh = body (sheet_of sheets_1 "meetings")
    ∧ ensure_worksheet "meetings" MEETINGS_HEADERS (World s' [] [] [])
      = (Ok "meetings", World s' [] [] []).
Proof.
  apply (ensure_worksheet_idempotent "meetings" MEETINGS_HEADERS sheets_1 [] []);
    reflexivity.
Defined.

(** ** [rewrite_sheet] *)

Lemma with_retry_refused {A} (serve : gmap string sheet → result A * gmap string sheet)
    (e : exn) (s : gmap string sheet) (fs : list (option exn)) (sl : list Z)
    (sc : list (ui_kind * string)) :
  rate_limited e = true →
  with_retry (request serve) (World s (replicate 5 (Some e) ++ fs) sl sc)
  = (Err retries_exhausted,
     World s fs (sl ++ [1200; 2200; 3200; 4200; 5200]%Z) sc).
Proof.
  intros He. unfold with_retry, range5. cbn [replicate app].
  assert (Hreq : ∀ fs' sl',
            request serve (World s (Some e :: fs') sl' sc) = (Err e, World s fs' sl' sc))
    by done.
  do 5 (rewrite retry_loop_cons, Hreq, He; cbn [sleep snd fst sheets faults slept screen]).
  cbn. by rewrite <- !app_assoc.
Qed.

(** X5. [rewrite_sheet] replaces the worksheet only when it completes.  When
    it raises, the worksheet is as it was, or cleared, or cleared with the
    new header and no row; every other worksheet is as it was in all cases.
    And there is a way to lose the table: if the clear is served and the
    header write is then refused five times with a rate-limit signal, the
    call raises the generic failure and leaves the worksheet empty. *)
Theorem rewrite_sheet_not_atomic (ws : string) (headers : list string) (rows : list row) :
  (∀ w,
     match rewrite_sheet ws headers rows w with
     | (Ok _, w') => sheets w' = <[ws := Sheet headers rows]> (sheets w)
     | (Err _, w') =>
         sheets w' = sheets w
         ∨ sheets w' = <[ws := Sheet [] []]> (sheets w)
         ∨ sheets w' = <[ws := Sheet headers []]> (sheets w)
     end)
  ∧ (∀ s sl sc,
       rewrite_sheet ws headers rows
         (World s (None :: replicate 5 (Some too_many_requests)) sl sc)
       = (Err retries_exhausted,
          World (<[ws := Sheet [] []]> s) [] (sl ++ [1200; 2200; 3200; 4200; 5200]%Z) sc)).
Proof.
  split.
  - intros w. pose proof (rewrite_sheet_triple (sheets w) ws headers rows w eq_refl) as H.
    destruct (rewrite_sheet ws headers rows w) as [[[]|e] w']; exact H.
  - intros s sl sc. unfold rewrite_sheet, bind.
    assert (H1 : with_retry (ws_clear ws)
                   (World s (None :: replicate 5 (Some too_many_requests)) sl sc)
                 = (Ok tt, World (<[ws := Sheet [] []]> s)
                             (replicate 5 (Some too_many_requests) ++ []) sl sc))
      by (apply with_retry_Ok; reflexivity).
    rewrite H1. unfold ws_update_A1. by rewrite with_retry_refused.
Qed.

(** ** Writing a table and reading it back *)






(** A header name used twice breaks the round trip: the later column
    replaces the earlier one in every record. *)
Example duplicate_header_loses_a_column :
  all_records (Sheet ["name"; "name"] [[VStr "first"; VStr "second"]])
  = [{[ "name" := VStr "second" ]}].
Proof. reflexivity. Qed.

(** ** Identifier allocation: when it raises *)

Lemma result_map_Err {A B} (f : A → result B) (xs : list A) (e : exn) :
  result_map f xs = Err e → ∃ x, x ∈ xs ∧ f x = Err e.
Proof.
  induction xs as [|x xs IH]; [done|]. simpl.
  destruct (f x) as [y|e'] eqn:Hx; simpl.
  - destruct (result_map f xs) as [ys|e'']; simpl; [done|].
    intros [= ->]. destruct (IH eq_refl) as (x' & Hin & Hx').
    exists x'. split; [by apply list_elem_of_further|done].
  - intros [= ->]. exists x. split; [apply list_elem_of_here|done].
Qed.

Lemma result_map_Err_intro {A B} (f : A → result B) (xs : list A) (x : A) (e : exn) :
  x ∈ xs → f x = Err e → ∃ e', result_map f xs = Err e'.
Proof.
  intros Hin Hx. destruct (result_map f xs) as [ys|e'] eqn:Hr; [|by eexists].
  apply result_map_Ok in Hr.
  apply list_elem_of_lookup in Hin as [i Hi].
  destruct (Forall2_lookup_l _ _ _ _ _ Hr Hi) as (y & _ & Hy). congruence.
Qed.

(** X7. Identifier allocation raises exactly when some record of the table
    has no [id] or an [id] that [int()] rejects (an empty cell, for one);
    the exception is that of such a record, a [KeyError] or the error of
    [int()].  Otherwise an id is allocated. *)
Theorem new_id_raises (existing : list record) :
  ((∃ e, new_id existing = Err e) ↔ ∃ m e, m ∈ existing ∧ record_id m = Err e)
  ∧ (∀ e, new_id existing = Err e →
       ∃ m, m ∈ existing ∧ record_id m = Err e
            ∧ (m !! "id" = None ∧ exn_kind e = KeyError
               ∨ ∃ v, m !! "id" = Some v ∧ py_int v = Err e))
  ∧ ((∀ m, m ∈ existing → ∃ z, record_id m = Ok z) → ∃ n, new_id existing = Ok n).
Proof.
  assert (Hfwd : ∀ e, new_id existing = Err e → ∃ m, m ∈ existing ∧ record_id m = Err e).
  { intros e. unfold new_id. destruct (nonempty existing) eqn:Hne; [|done].
    destruct (result_map record_id existing) as [ids|e'] eqn:Hr; simpl.
    - pose proof (result_map_length _ _ _ Hr) as Hlen.
      destruct ids as [|z zs]; simpl; [|done].
      destruct existing; done.
    - intros [= ->]. by apply result_map_Err. }
  split_and!.
  - split.
    + intros [e He]. destruct (Hfwd e He) as (m & Hin & Hm). by exists m, e.
    + intros (m & e & Hin & Hm). unfold new_id.
      destruct existing as [|m0 ms] eqn:Hex; [by apply elem_of_nil in Hin|].
      rewrite <- Hex in *. assert (nonempty existing = true) as -> by (by rewrite Hex).
      destruct (result_map_Err_intro record_id existing m e Hin Hm) as [e' ->].
      by exists e'.
  - intros e He. destruct (Hfwd e He) as (m & Hin & Hm).
    exists m. split; [done|]. split; [done|].
    unfold record_id, getitem in Hm. destruct (m !! "id") as [v|]; simpl in Hm.
    + right. by exists v.
    + left. injection Hm as <-. done.
  - intros Hall. destruct (new_id existing) as [n|e] eqn:Hn; [by exists n|].
    destruct (Hfwd e eq_refl) as (m & Hin & Hm). destruct (Hall m Hin) as [z Hz]. congruence.
Qed.

(** A table with a blank row: nothing can be created in it any more. *)
Example new_id_blank_row :
  ∃ msg,
    new_id (all_records (Sheet MEETINGS_HEADERS
              [[VInt 1; VStr "2024-01-01"; VStr "Kickoff"; VStr ""];
               [VStr ""; VStr ""; VStr ""; VStr ""]]))
    = Err (Raise ValueError msg).
Proof. eexists. reflexivity. Qed.

(** ** Creating meetings *)




Lemma lookup_sheet_of (s : gmap string sheet) (ws : string) (sh : sheet) :
  s !! ws = Some sh → sheet_of s ws = sh.
Proof. unfold sheet_of. by intros ->. Qed.






(** ** Provisioning the worksheets of a spec *)

(** With every request served and a title that does not read as a rate
    limit, [ensure_worksheet] completes, whatever the headers, and changes
    at most the worksheet of that title. *)
Lemma ensure_worksheet_complete (title : string) (headers : list string)
    (s : gmap string sheet) (sl : list Z) (sc : list (ui_kind * string)) :
  rate_limited (Raise WorksheetNotFound title) = false →
  ∃ s', ensure_worksheet title headers (World s [] sl sc) = (Ok title, World s' [] sl sc)
        ∧ (∀ sh, <[title := sh]> s' = <[title := sh]> s)
        ∧ is_Some (s' !! title).
Proof.
  intros Hrl. unfold ensure_worksheet, try_except, bind.
  destruct (s !! title) as [sh|] eqn:Hs.
  - erewrite with_retry_Ok; [|by run_request; rewrite Hs].
    destruct (nonempty headers) eqn:Hne.
    + run_request. destruct (nonempty (rstrip_empty (header (sheet_of s title)))) eqn:Hex.
      * exists s. by rewrite Hs.
      * erewrite with_retry_Ok; [|by run_request].
        eexists. split; [done|]. split.
        -- intros sh'. simpl. by rewrite insert_insert_eq.
        -- simpl. rewrite lookup_insert_eq. by eexists.
    + exists s. by rewrite Hs.
  - erewrite with_retry_Err; [| by run_request; rewrite Hs |done].
    simpl.
    erewrite with_retry_Ok; [|by run_request; rewrite Hs].
    destruct (nonempty headers) eqn:Hne.
    + erewrite with_retry_Ok; [|by run_request].
      eexists. split; [done|]. split.
      * intros sh'. simpl. by rewrite !insert_insert_eq.
      * simpl. rewrite lookup_insert_eq. by eexists.
    + eexists. split; [done|]. split.
      * intros sh'. simpl. by rewrite insert_insert_eq.
      * simpl. rewrite lookup_insert_eq. by eexists.
Qed.

Lemma ensure_then_rewrite (title : string) (headers headers' : list string)
    (rows : list row) (s : gmap string sheet) (sl : list Z) (sc : list (ui_kind * string)) :
  rate_limited (Raise WorksheetNotFound title) = false →
  (do ws <- ensure_worksheet title headers; rewrite_sheet ws headers' rows) (World s [] sl sc)
  = (Ok tt, World (<[title := Sheet headers' rows]> s) [] sl sc).
Proof.
  intros Hrl.
  destruct (ensure_worksheet_complete title headers s sl sc Hrl) as (s' & Hrun & Hs' & _).
  unfold bind. by rewrite Hrun, rewrite_sheet_run, Hs'.
Qed.

Lemma titles_distinct (i : Z) :
  overview_title i ≠ content_title i ∧ overview_title i ≠ tasks_title i
  ∧ content_title i ≠ tasks_title i ∧ pm_tasks_title i ≠ overview_title i
  ∧ pm_tasks_title i ≠ content_title i ∧ pm_tasks_title i ≠ tasks_title i.
Proof. by split_and!. Qed.

Lemma create_srs_worksheets_run (srs : srs_obj) (meeting : record) (source : string)
    (s : gmap string sheet) (sl : list Z) (sc : list (ui_kind * string)) :
  meeting_line meeting = Ok source →
  (∀ t, t ∈ [overview_title (o_id srs); content_title (o_id srs); tasks_title (o_id srs)] →
        rate_limited (Raise WorksheetNotFound t) = false) →
  create_srs_worksheets srs meeting (World s [] sl sc)
  = (Ok tt, World (provisioned srs source s) [] sl sc).
Proof.
  intros Hm Hrl. unfold create_srs_worksheets.
  destruct (titles_distinct (o_id srs)) as (_ & _ & _ & Hpo & Hpc & Hpt).
  destruct (ensure_worksheet_complete (overview_title (o_id srs)) SRS_OVERVIEW_HEADERS s sl sc)
    as (s1 & Hrun1 & Hs1 & _); [apply Hrl; set_solver|].
  unfold bind at 1. rewrite Hrun1.
  unfold bind at 1, lift at 1. rewrite Hm.
  unfold bind at 1. rewrite rewrite_sheet_run, Hs1.
  match goal with |- context [World ?s0 [] sl sc] =>
    destruct (ensure_worksheet_complete (content_title (o_id srs)) ["欄位"; "值"] s0 sl sc)
      as (s2 & Hrun2 & Hs2 & _); [apply Hrl; set_solver|] end.
  unfold bind at 1. rewrite Hrun2.
  unfold bind at 1. rewrite rewrite_sheet_run, Hs2.
  match goal with |- context [World ?s0 [] sl sc] =>
    destruct (ensure_worksheet_complete (tasks_title (o_id srs)) TASK_HEADERS s0 sl sc)
      as (s3 & Hrun3 & Hs3 & _); [apply Hrl; set_solver|] end.
  unfold bind at 1. rewrite Hrun3.
  unfold bind at 1. rewrite rewrite_sheet_run, Hs3.
  unfold try_except, bind, sh_worksheet, sh_add_worksheet. rewrite request_run. cbv beta.
  rewrite !lookup_insert_ne by done. unfold provisioned.
  destruct (s !! pm_tasks_title (o_id srs)) as [sh|] eqn:Hpm; cbn [fst snd].
  - done.
  - unfold any_exn. rewrite request_run. cbv beta.
    rewrite !lookup_insert_ne by done. rewrite Hpm. done.
Qed.

(** X10. Provisioning a spec.  With the meeting's id, date and title
    present, titles that do not read as a rate limit and no request
    refused, [create_srs_worksheets] completes and leaves: the Overview and
    the Content sheet with their lines, the task table with its header and
    NO row whatever it held before, an existing PM sub-task sheet exactly as
    it was (a missing one is created empty), and every other worksheet
    untouched. *)
Theorem create_srs_worksheets_result (srs : srs_obj) (meeting : record) (source : string)
    (s : gmap string sheet) (sl : list Z) (sc : list (ui_kind * string)) :
  meeting_line meeting = Ok source →
  (∀ t, t ∈ [overview_title (o_id srs); content_title (o_id srs); tasks_title (o_id srs)] →
        rate_limited (Raise WorksheetNotFound t) = false) →
  ∃ s',
    create_srs_worksheets srs meeting (World s [] sl sc) = (Ok tt, World s' [] sl sc)
    ∧ s' !! overview_title (o_id srs)
      = Some (Sheet SRS_OVERVIEW_HEADERS (overview_rows srs source))
    ∧ s' !! content_title (o_id srs) = Some (Sheet ["欄位"; "值"] (content_rows srs))
    ∧ s' !! tasks_title (o_id srs) = Some (Sheet TASK_HEADERS [])
    ∧ s' !! pm_tasks_title (o_id srs)
      = Some (default (Sheet [] []) (s !! pm_tasks_title (o_id srs)))
    ∧ (∀ t, t ∉ [overview_title (o_id srs); content_title (o_id srs);
                 tasks_title (o_id srs); pm_tasks_title (o_id srs)] →
            s' !! t = s !! t).
Proof.
  intros Hm Hrl. exists (provisioned srs source s).
  split; [by apply create_srs_worksheets_run|].
  destruct (titles_distinct (o_id srs)) as (Hoc & Hot & Hct & Hpo & Hpc & Hpt).
  unfold provisioned.
  destruct (s !! pm_tasks_title (o_id srs)) as [sh|] eqn:Hpm; simpl.
  - split_and!.
    + by rewrite !lookup_insert_ne, lookup_insert_eq by done.
    + by rewrite lookup_insert_ne, lookup_insert_eq by done.
    + by rewrite lookup_insert_eq.
    + by rewrite !lookup_insert_ne by done.
    + intros t Ht. rewrite !lookup_insert_ne; [done|set_solver..].
  - split_and!.
    + by rewrite !lookup_insert_ne, lookup_insert_eq by done.
    + by rewrite !lookup_insert_ne, lookup_insert_eq by done.
    + by rewrite lookup_insert_ne, lookup_insert_eq by done.
    + by rewrite lookup_insert_eq.
    + intros t Ht. rewrite !lookup_insert_ne; [done|set_solver..].
Qed.

Lemma create_srs_worksheets_result_witness :
  let srs := SrsObj 1 1 "Export CSV" "匯出報表" (VStr "Need a report export feature")
               "one-click export" "報表頁" "" "v0.1" "" "2024-01-02 10:00:00" in
  let source := "M-1 | 2024-01-01 | Kickoff" in
  ∃ s',
    create_srs_worksheets srs meeting_1 (World sheets_1 [] [] []) = (Ok tt, World s' [] [] [])
    ∧ s' !! overview_title (o_id srs)
      = Some (Sheet SRS_OVERVIEW_HEADERS (overview_rows srs source))
    ∧ s' !! content_title (o_id srs) = Some (Sheet ["欄位"; "值"] (content_rows srs))
    ∧ s' !! tasks_title (o_id srs) = Some (Sheet TASK_HEADERS [])
    ∧ s' !! pm_tasks_title (o_id srs)
      = Some (default (Sheet [] []) (sheets_1 !! pm_tasks_title (o_id srs)))
    ∧ (∀ t, t ∉ [overview_title (o_id srs); content_title (o_id srs);
                 tasks_title (o_id srs); pm_tasks_title (o_id srs)] →
            s' !! t = sheets_1 !! t).
Proof.
  intros srs source. apply (create_srs_worksheets_result srs meeting_1 source sheets_1 [] []).
  - reflexivity.
  - intros t Ht. repeat (apply elem_of_cons in Ht as [->|Ht]; [vm_compute; reflexivity|]).
    by apply elem_of_nil in Ht.
Defined.

(** X11. A spec whose number reads as a rate limit.  The title of a missing
    worksheet is the text of [WorksheetNotFound], and [with_retry] looks
    for "429" in that text.  So when the allocated id makes the Overview
    title contain "429" (id 429, 1429, 4290, ...), creating the spec with
    every request served writes the index row, then spends the five
    retries on the lookup and raises the generic failure: the spec is in
    the index, none of its four worksheets exists, and no success message
    is shown. *)
Theorem create_srs_unprovisioned (sel_meeting : record) (f : srs_form)
    (s : gmap string sheet) (body : list row) (nid mid : Z) (problem : value)
    (sl : list Z) (sc : list (ui_kind * string)) :
  blank (srs_title f) = false →
  s !! "srs_index" = Some (Sheet SRS_INDEX_HEADERS body) →
  Forall (λ r, length r = 13%nat) body →
  new_id (all_records (Sheet SRS_INDEX_HEADERS body)) = Ok nid →
  sel_meeting !! "raw_requirement" = Some problem →
  record_id sel_meeting = Ok mid →
  s !! overview_title nid = None →
  rate_limited (Raise WorksheetNotFound (overview_title nid)) = true →
  page_pm_create_srs "srs_index" sel_meeting f (World s [] sl sc)
  = (Err retries_exhausted,
     World (<["srs_index" := Sheet SRS_INDEX_HEADERS
                               (body ++ [new_srs_row nid mid problem f])]> s)
       [] (sl ++ [1200; 2200; 3200; 4200; 5200]%Z) sc).
Proof.
  intros Hblank Hs Hb Hid Hprob Hmid Hover Hrl.
  destruct (srs_rows_roundtrip body Hb) as [Hrec Hrows].
  unfold page_pm_create_srs. rewrite Hblank. unfold bind at 1.
  rewrite read_all_run. unfold sheet_of. rewrite Hs. simpl.
  unfold bind at 1, lift at 1. rewrite Hid.
  unfold bind at 1, lift at 1, getitem. rewrite Hprob.
  unfold bind at 1, lift at 1. rewrite Hmid.
  unfold bind at 1, lift at 1. rewrite Hrec, Hrows.
  unfold bind at 1. rewrite rewrite_sheet_run.
  unfold bind at 1. unfold create_srs_worksheets. unfold bind at 1.
  unfold ensure_worksheet, try_except at 1. unfold bind at 1. unfold with_retry at 1.
  cbn [o_id].
  rewrite (retry_loop_all_throttled _ (Raise WorksheetNotFound (overview_title nid)));
    [done| |done].
  intros sl'. unfold sh_worksheet. rewrite request_run. cbv beta.
  by rewrite lookup_insert_ne, Hover by done.
Qed.

Lemma create_srs_unprovisioned_witness :
  page_pm_create_srs "srs_index" meeting_1 srs_form_1 (World sheets_6 [] [] [])
  = (Err retries_exhausted,
     World (<["srs_index" := Sheet SRS_INDEX_HEADERS
                ([srs_428] ++ [new_srs_row 429 1 (VStr "Need a report export feature")
                                 srs_form_1])]> sheets_6)
       [] ([] ++ [1200; 2200; 3200; 4200; 5200]%Z) []).
Proof.
  apply create_srs_unprovisioned.
  - reflexivity.
  - reflexivity.
  - repeat constructor.
  - reflexivity.
  - reflexivity.
  - reflexivity.
  - reflexivity.
  - vm_compute. reflexivity.
Defined.

(** ** Saving the task review *)








(** A review state written by hand is not kept: a save that touches
    nothing turns it into "已通過" (approved). *)
Example task_review_approves_unknown_state :
  review_row (λ _, None)
    [VInt 7; VStr "串接 API"; VStr ""; VStr "Engineer"; VInt 2; VStr "2024-01-01";
     VStr "2024-01-05"; VStr "已理解"; VStr "進行中"; VStr "退回"; VStr ""]
  = [VInt 7; VStr "串接 API"; VStr ""; VStr "Engineer"; VInt 2; VStr "2024-01-01";
     VStr "2024-01-05"; VStr "已理解"; VStr "進行中"; VStr "已通過"; VStr ""].
Proof. reflexivity. Qed.

(** ** Invariants of the task tables *)

(** Any property [R] of task rows that the new row of a report has and the
    task review carries from the row read to the row written holds in
    every task table after any page action, once it holds before. *)
Section task_rows_invariant.
Variable R : row → Prop.
Hypothesis R_length : ∀ r, R r → length r = 11%nat.
Hypothesis R_new : ∀ nid name f url, R (new_task_row nid name f url).
Hypothesis R_review : ∀ choice r r',
  R r → reviewed_task_row choice (dict_zip TASK_HEADERS r) = Ok r' → R r'.

Lemma tasks_inv_insert (s : gmap string sheet) (t : string) (sh : sheet) :
  tasks_inv R s → (is_task_title t = true → task_sheet_inv R sh) →
  tasks_inv R (<[t := sh]> s).
Proof.
  intros Hs Hsh t' sh' Hl Ht'.
  destruct (decide (t = t')) as [->|Hne].
  - rewrite lookup_insert_eq in Hl. injection Hl as <-. auto.
  - rewrite lookup_insert_ne in Hl by done. eauto.
Qed.

Lemma tasks_inv_insensitive (t : string) :
  is_task_title t = false → insensitive (tasks_inv R) t.
Proof. intros Ht s sh Hs. apply tasks_inv_insert; [done|]. congruence. Qed.

Lemma tasks_inv_sheet_of (s : gmap string sheet) (t : string) :
  tasks_inv R s → is_task_title t = true → task_sheet_inv R (sheet_of s t).
Proof.
  intros Hs Ht. unfold sheet_of. destruct (s !! t) as [sh|] eqn:Hl; simpl.
  - eauto.
  - by left.
Qed.

Lemma task_sheet_inv_records (sh : sheet) :
  task_sheet_inv R sh →
  ∃ rows, all_records sh = dict_zip TASK_HEADERS <$> rows ∧ Forall R rows.
Proof.
  intros [->|[Hh Hb]].
  - by exists [].
  - destruct sh as [h b]. simpl in *. subst h. exists b. split; [|done].
    apply all_records_uniform. eapply Forall_impl; [exact Hb|]. apply R_length.
Qed.

Lemma ensure_tasks_inv (srs_id : Z) :
  triple (tasks_inv R) (ensure_worksheet (tasks_title srs_id) TASK_HEADERS)
    (λ ws s, ws = tasks_title srs_id ∧ tasks_inv R s) (tasks_inv R).
Proof.
  apply triple_exact. intros s0 Hs0.
  assert (Hens : ∀ s, ensured (tasks_title srs_id) TASK_HEADERS s0 s → tasks_inv R s).
  { intros s [->|[[Hempty ->]|[_ ->]]]; [done| |].
    - apply tasks_inv_insert; [done|]. intros _.
      destruct (tasks_inv_sheet_of s0 (tasks_title srs_id) Hs0 (is_task_title_tasks _))
        as [->|[Hh _]].
      + by right.
      + rewrite Hh in Hempty. discriminate.
    - apply tasks_inv_insert; [done|]. intros _. by left. }
  eapply triple_conseq; [apply ensure_worksheet_triple|done| |done].
  intros ws s [-> H]. auto.
Qed.

Lemma rewrite_tasks_inv (ws : string) (rows : list row) :
  Forall R rows →
  triple (tasks_inv R) (rewrite_sheet ws TASK_HEADERS rows) (λ _, tasks_inv R) (tasks_inv R).
Proof.
  intros Hrows. apply triple_exact. intros s0 Hs0.
  eapply triple_conseq; [apply rewrite_sheet_triple|done| | ].
  - intros _ s ->. apply tasks_inv_insert; [done|]. intros _. by right.
  - intros s [->|[->| ->]]; [done| |].
    + apply tasks_inv_insert; [done|]. intros _. by left.
    + apply tasks_inv_insert; [done|]. intros _. by right.
Qed.

Lemma create_srs_worksheets_tasks_inv (srs : srs_obj) (meeting : record) :
  triple (tasks_inv R) (create_srs_worksheets srs meeting) (λ _, tasks_inv R) (tasks_inv R).
Proof.
  apply create_srs_worksheets_preserves.
  - apply tasks_inv_insensitive, not_task_title_overview.
  - apply tasks_inv_insensitive, not_task_title_content.
  - apply tasks_inv_insensitive, not_task_title_pm.
  - apply ensure_tasks_inv.
  - apply rewrite_tasks_inv. constructor.
Qed.

Lemma page_pm_create_srs_tasks_inv (sel_meeting : record) (f : srs_form) :
  triple (tasks_inv R) (page_pm_create_srs "srs_index" sel_meeting f)
    (λ _, tasks_inv R) (tasks_inv R).
Proof.
  unfold page_pm_create_srs.
  destruct (blank (srs_title f)); [by apply triple_show|].
  eapply triple_bind; [apply read_all_keep|]. intros exist. simpl.
  eapply triple_bind; [apply triple_lift_keep|]. intros nid. simpl.
  eapply triple_bind; [apply triple_lift_keep|]. intros problem. simpl.
  eapply triple_bind; [apply triple_lift_keep|]. intros mid. simpl.
  eapply triple_bind; [apply triple_lift_keep|]. intros rows. simpl.
  eapply triple_bind; [by apply rewrite_sheet_insensitive, tasks_inv_insensitive|].
  intros ?.
  eapply triple_bind; [apply create_srs_worksheets_tasks_inv|]. intros ?.
  by apply triple_show.
Qed.

Lemma page_client_srs_review_save_tasks_inv (srs_id : Z) (new_status : review_status)
    (new_comment : string) :
  triple (tasks_inv R)
    (page_client_srs_review_save "srs_index" srs_id new_status new_comment)
    (λ _, tasks_inv R) (tasks_inv R).
Proof.
  unfold page_client_srs_review_save, update_srs_index, update_overview.
  eapply triple_bind with (R := λ _, tasks_inv R).
  { eapply triple_bind; [apply read_all_keep|]. intros xs. simpl.
    eapply triple_bind; [apply triple_lift_keep|]. intros rows. simpl.
    by apply rewrite_sheet_insensitive, tasks_inv_insensitive. }
  intros ?.
  eapply triple_bind with (R := λ _, tasks_inv R).
  { eapply triple_try_except with (E' := tasks_inv R); [| |done].
    - eapply triple_bind; [apply sh_worksheet_triple|]. intros ws. simpl.
      eapply triple_bind with (R := λ _ s, ws = overview_title srs_id ∧ tasks_inv R s).
      { eapply triple_conseq;
          [apply (read_all_triple (λ s, ws = overview_title srs_id ∧ tasks_inv R s))
          |done| |].
        - by intros recs s [? _].
        - by intros s [_ ?]. }
      intros ov. intros w [-> Hw].
      apply (rewrite_sheet_insensitive (tasks_inv R)); [|done].
      apply tasks_inv_insensitive, not_task_title_overview.
    - intros e _. by apply triple_ret. }
  intros ?. by apply triple_show.
Qed.

Lemma task_rows_inv (sh : sheet) (rows : list row) :
  task_sheet_inv R sh →
  result_map task_row (all_records sh) = Ok rows →
  Forall R rows.
Proof.
  intros [->|[Hh Hb]] Hr.
  - simpl in Hr. injection Hr as <-. constructor.
  - destruct sh as [h b]. simpl in *. subst h.
    assert (Hlen : Forall (λ r, length r = 11%nat) b).
    { eapply Forall_impl; [exact Hb|]. apply R_length. }
    destruct (task_rows_roundtrip b Hlen) as [Hrec Hrows].
    rewrite Hrec, Hrows in Hr. by injection Hr as <-.
Qed.

Lemma page_engineer_report_tasks_inv (srs_id : Z) (pm_subtasks : list value)
    (f : report_form) (submitted : bool) :
  triple (tasks_inv R) (page_engineer_report srs_id pm_subtasks f submitted)
    (λ _, tasks_inv R) (tasks_inv R).
Proof.
  unfold page_engineer_report.
  eapply triple_bind; [apply ensure_tasks_inv|]. intros ws. simpl.
  set (I := λ (existing : list record) (s : gmap string sheet),
              ws = tasks_title srs_id ∧ tasks_inv R s
              ∧ ∀ rows, result_map task_row existing = Ok rows → Forall R rows).
  eapply triple_bind with (R := I).
  { eapply triple_conseq;
      [apply (read_all_triple (λ s, ws = tasks_title srs_id ∧ tasks_inv R s))|done| |].
    - intros recs s [[-> Hs] ->]. split; [done|]. split; [done|].
      intros rows. apply task_rows_inv.
      apply tasks_inv_sheet_of; [done|apply is_task_title_tasks].
    - by intros s [_ ?]. }
  intros existing.
  destruct submitted; [|apply triple_ret; by intros s (_ & ? & _)].
  eapply triple_bind with (R := λ _, I existing).
  { apply triple_lift. intros s Hs. destruct (new_id existing); [exact Hs|].
    exact (proj1 (proj2 Hs)). }
  intros nid.
  eapply triple_bind with (R := λ _, I existing).
  { eapply triple_conseq; [apply (upload_all_triple (I existing))|done|done|].
    by intros s (_ & ? & _). }
  intros urls. simpl.
  eapply triple_bind
    with (R := λ rows s, ws = tasks_title srs_id ∧ tasks_inv R s ∧ Forall R rows).
  { apply triple_lift. intros s (-> & Hs & Hrows).
    destruct (result_map task_row existing) as [rows|e]; [|done]. auto. }
  intros rows.
  eapply triple_bind with (R := λ _, tasks_inv R).
  { intros w (-> & Hw & Hrows). apply (rewrite_tasks_inv _ _); [|done].
    apply Forall_app. split; [done|]. constructor; [apply R_new|constructor]. }
  intros ?. by apply triple_show.
Qed.

Lemma page_engineer_tasks_inv (srs_id : Z) (f : report_form) (submitted : bool) :
  triple (tasks_inv R) (page_engineer srs_id f submitted) (λ _, tasks_inv R) (tasks_inv R).
Proof.
  unfold page_engineer.
  eapply triple_bind; [apply page_engineer_pm_subtasks_keep|].
  intros pm. apply page_engineer_report_tasks_inv.
Qed.

Lemma page_client_task_review_tasks_inv (srs_id : Z) (choice : Z → option review_status)
    (save : bool) :
  triple (tasks_inv R) (page_client_task_review srs_id choice save)
    (λ _, tasks_inv R) (tasks_inv R).
Proof.
  unfold page_client_task_review.
  eapply triple_bind
    with (R := λ found s, tasks_inv R s
               ∧ ∀ ws tasks, found = Some (ws, tasks) →
                   ∃ rows, tasks = dict_zip TASK_HEADERS <$> rows ∧ Forall R rows).
  { eapply triple_try_except with (E' := tasks_inv R); [| |done].
    - eapply triple_bind; [apply sh_worksheet_triple|]. intros ws_tasks.
      eapply triple_bind
        with (R := λ tasks s, tasks_inv R s
                   ∧ ∃ rows, tasks = dict_zip TASK_HEADERS <$> rows ∧ Forall R rows).
      { eapply triple_conseq;
          [apply (read_all_triple (λ s, ws_tasks = tasks_title srs_id ∧ tasks_inv R s))
          |done| |].
        - intros recs s [[-> Hs] ->]. split; [done|].
          apply task_sheet_inv_records, tasks_inv_sheet_of; [done|].
          apply is_task_title_tasks.
        - by intros s [_ ?]. }
      intros tasks. apply triple_ret. intros s [Hs Hrows]. split; [done|].
      by intros ws tasks' [= _ <-].
    - intros e _. eapply triple_bind with (R := λ _, tasks_inv R); [by apply triple_show|].
      intros ?. apply triple_ret. intros s Hs. split; [done|]. done. }
  intros [[ws_tasks tasks]|]; [|apply triple_ret; by intros s [? _]].
  eapply triple_bind with (R := λ rows s, tasks_inv R s ∧ Forall R rows).
  { apply triple_lift. intros s [Hs Hfound].
    destruct (Hfound _ _ eq_refl) as (rows0 & -> & Hrows0).
    destruct (result_map _ _) as [rows|e] eqn:Hr; [|done].
    split; [done|]. apply result_map_Ok in Hr.
    apply Forall2_fmap_l in Hr.
    clear Hfound. induction Hr as [|r0 r rows0' rows' Hr0 _ IH]; [constructor|].
    apply Forall_cons in Hrows0 as [HR0 Hrows0].
    constructor; [by eapply R_review|by apply IH]. }
  intros rows. destruct save; [|apply triple_ret; by intros s [? _]].
  eapply triple_bind with (R := λ _, tasks_inv R).
  { intros w [Hw Hrows]. by apply (rewrite_tasks_inv _ _). }
  intros ?. by apply triple_show.
Qed.

Lemma step_tasks_inv (w w' : world) :
  step w w' → tasks_inv R (sheets w) → tasks_inv R (sheets w').
Proof.
  intros Hstep Hw. destruct Hstep.
  - pose proof (page_pm_create_meeting_preserves (tasks_inv R) "meetings" d title raw_req
                  (tasks_inv_insensitive "meetings" eq_refl) w Hw) as H.
    by destruct (page_pm_create_meeting _ _ _ _ w) as [[?|?] ?].
  - pose proof (page_pm_create_srs_tasks_inv sel_meeting f w Hw) as H.
    by destruct (page_pm_create_srs _ _ _ w) as [[?|?] ?].
  - pose proof (page_engineer_tasks_inv srs_id f submitted w Hw) as H.
    by destruct (page_engineer _ _ _ w) as [[?|?] ?].
  - pose proof (page_client_srs_review_save_tasks_inv srs_id new_status new_comment w Hw) as H.
    by destruct (page_client_srs_review_save _ _ _ _ w) as [[?|?] ?].
  - pose proof (page_client_task_review_tasks_inv srs_id choice save w Hw) as H.
    by destruct (page_client_task_review _ _ _ w) as [[?|?] ?].
  - done.
Qed.

Lemma rtc_step_tasks_inv (w w' : world) :
  rtc step w w' → tasks_inv R (sheets w) → tasks_inv R (sheets w').
Proof.
  induction 1 as [|w1 w2 w3 Hs _ IH]; [done|]. intros H. eapply IH, step_tasks_inv; eauto.
Qed.
End task_rows_invariant.

(** ** The completion mark *)

Lemma not_done_new (nid : Z) (name : value) (f : report_form) (url : string) :
  not_done (new_task_row nid name f url).
Proof. split; [reflexivity|]. simpl. by destruct (understand_status f). Qed.

Lemma not_done_review (choice : Z → option review_status) (r r' : row) :
  not_done r → reviewed_task_row choice (dict_zip TASK_HEADERS r) = Ok r' → not_done r'.
Proof.
  intros [Hlen H8]. do 11 (destruct r as [|? r]; [discriminate|]).
  destruct r; [|discriminate]. clear Hlen.
  unfold reviewed_task_row.
  destruct (record_id _) as [tid|e]; simpl; [|done].
  destruct (check_urls _); simpl; [|done].
  intros [= <-]. split; [reflexivity|]. exact H8.
Qed.

Lemma triple_try_except_all {A} (P : gmap string sheet → Prop) (m : M A)
    (h : exn → M A) Q (E' E : gmap string sheet → Prop) :
  triple P m Q E' → (∀ e, triple E' (h e) Q E) → triple P (try_except m any_exn h) Q E.
Proof.
  intros Hm Hh w Hw. unfold try_except. specialize (Hm w Hw).
  destruct (m w) as [[a|e] w1]; [done|]. by apply Hh.
Qed.

Lemma done_count_not_done (rows : list row) :
  Forall not_done rows → done_count (dict_zip TASK_HEADERS <$> rows) = 0%nat.
Proof.
  unfold done_count. induction 1 as [|r rows [Hlen H8] _ IH]; [done|].
  rewrite fmap_cons. simpl.
  do 11 (destruct r as [|? r]; [discriminate|]). destruct r; [|discriminate].
  assert (eq_str (dict_get (dict_zip TASK_HEADERS [v; v0; v1; v2; v3; v4; v5; v6; v7; v8; v9])
                    "done_status" VNone) DONE_MARK = false) as ->; [|exact IH].
  change (dict_get _ "done_status" VNone) with v7.
  unfold eq_str. apply bool_decide_eq_false_2. intros ->. by apply H8.
Qed.

Lemma progress_rate_none_done (tasks : list record) :
  done_count tasks = 0%nat → progress_rate tasks = "0/" +:+ pretty (length tasks).
Proof.
  intros H. unfold progress_rate. rewrite H.
  destruct (length tasks) as [|n] eqn:Hn; reflexivity.
Qed.

(** ** The count of PM sub-tasks *)

Lemma all_values_length (sh : sheet) :
  nonempty (header sh) = true → length (all_values sh) = S (length (body sh)).
Proof.
  unfold all_values. destruct (header sh) as [|h hs]; [done|]. intros _.
  simpl. by rewrite length_fmap.
Qed.

(** X15. The dashboard and the engineer page agree on the PM sub-tasks of
    a spec.  With no request refused and a sub-task sheet that is missing
    or has a first row, the number the dashboard shows is the number of
    names the engineer page offers, which is the number of rows below the
    first. *)
Theorem pm_task_count_agrees (srs_id : Z) (s : gmap string sheet) (sl : list Z)
    (sc : list (ui_kind * string)) :
  (∀ sh, s !! pm_tasks_title srs_id = Some sh → nonempty (header sh) = true) →
  ∃ subs sc1,
    page_engineer_pm_subtasks srs_id (World s [] sl sc) = (Ok subs, World s [] sl sc1)
    ∧ dashboard_pm_task_count srs_id (World s [] sl sc) = (Ok (length subs), World s [] sl sc)
    ∧ length subs = length (body (sheet_of s (pm_tasks_title srs_id))).
Proof.
  intros Hh. unfold page_engineer_pm_subtasks, dashboard_pm_task_count, try_except, bind,
    sh_worksheet, ws_get_all_values.
  rewrite !request_run. cbv beta.
  destruct (s !! pm_tasks_title srs_id) as [sh|] eqn:Hs; cbn [fst snd].
  - rewrite !request_run. cbn [fst snd].
    rewrite (lookup_sheet_of _ _ _ Hs).
    specialize (Hh sh eq_refl). pose proof (all_values_length sh Hh) as Hlen.
    unfold pm_subtasks_of, pm_task_count_of. rewrite Hlen.
    unfold all_values. destruct (header sh) as [|h hs] eqn:Hhd; [done|].
    destruct (body sh) as [|r rows] eqn:Hb.
    + eexists _, _. simpl. done.
    + eexists _, _. split_and!; [reflexivity| |].
      * simpl. unfold ret. repeat f_equal.
        unfold first_column. rewrite !length_fmap. simpl. lia.
      * simpl. unfold first_column. by rewrite !length_fmap.
  - eexists _, _. split_and!; [reflexivity| |].
    + done.
    + unfold sheet_of. by rewrite Hs.
Qed.

Lemma pm_task_count_agrees_witness :
  ∃ subs sc1,
    page_engineer_pm_subtasks 1 (World sheets_3 [] [] []) = (Ok subs, World sheets_3 [] [] sc1)
    ∧ dashboard_pm_task_count 1 (World sheets_3 [] [] []) = (Ok (length subs), World sheets_3 [] [] [])
    ∧ length subs = length (body (sheet_of sheets_3 (pm_tasks_title 1))).
Proof.
  apply pm_task_count_agrees. intros sh Hsh.
  assert (sh = Sheet ["子任務"; "說明"]
                 [[VStr "設計登入頁"; VStr "含錯誤提示"]; [VStr "串接 API"]]) as ->.
  { vm_compute in Hsh. by injection Hsh as <-. }
  reflexivity.
Defined.

(** ** Dates written and read back *)

Lemma pretty_N_go_digit (x : N) (s : string) :
  (0 < x < 10)%N → pretty_N_go x s = String (pretty_N_char x) s.
Proof.
  intros H. rewrite pretty_N_go_step by lia.
  rewrite N.div_small, N.mod_small by lia. by rewrite pretty_N_go_0.
Qed.

Lemma digit_of_pretty_N_char (d : N) :
  (d < 10)%N → digit_of (pretty_N_char d) = Some (Z.of_N d).
Proof.
  intros H.
  assert (d = 0 ∨ d = 1 ∨ d = 2 ∨ d = 3 ∨ d = 4 ∨ d = 5 ∨ d = 6 ∨ d = 7 ∨ d = 8 ∨ d = 9)%N
    as Hd by lia.
  repeat destruct Hd as [->|Hd]; try subst d; reflexivity.
Qed.

(** The decimal text of a number below 10000: at most four digits that
    read back as the number. *)
Ltac hide_div10 x q r :=
  pose proof (N.div_mod x 10 ltac:(done));
  pose proof (N.mod_lt x 10 ltac:(done));
  set (q := (x `div` 10)%N) in *; set (r := (x `mod` 10)%N) in *;
  clearbody q r.

(** The decimal text of a positive number below 10000 has at most four
    characters (two below 100), all digits, and reads back as the number. *)
Lemma pretty_reads_back (x : N) :
  (0 < x < 10000)%N →
  let l := String.list_ascii_of_string (pretty_N_go x "") in
  (length l ≤ 4)%nat ∧ ((x < 100)%N → (length l ≤ 2)%nat)
  ∧ digits_value l 0 = Some (Z.of_N x).
Proof.
  intros Hx.
  destruct (decide (x < 10)%N) as [Hlt1|Hge1].
  { rewrite pretty_N_go_digit by lia. cbn. rewrite digit_of_pretty_N_char by lia.
    split_and!; [lia|lia|f_equal; lia]. }
  rewrite pretty_N_go_step by lia. hide_div10 x q1 r1.
  destruct (decide (q1 < 10)%N) as [Hlt2|Hge2].
  { rewrite pretty_N_go_digit by lia. cbn.
    rewrite !digit_of_pretty_N_char by lia.
    split_and!; [lia|lia|f_equal; lia]. }
  rewrite pretty_N_go_step by lia. hide_div10 q1 q2 r2.
  destruct (decide (q2 < 10)%N) as [Hlt3|Hge3].
  { rewrite pretty_N_go_digit by lia. cbn.
    rewrite !digit_of_pretty_N_char by lia.
    split_and!; [lia|lia|f_equal; lia]. }
  rewrite pretty_N_go_step by lia. hide_div10 q2 q3 r3.
  rewrite pretty_N_go_digit by lia. cbn.
  rewrite !digit_of_pretty_N_char by lia.
  split_and!; [lia|lia|f_equal; lia].
Qed.

Lemma list_ascii_of_zeros (k : nat) (s : string) :
  String.list_ascii_of_string (zeros k +:+ s)
  = replicate k (Ascii.ascii_of_nat 48) ++ String.list_ascii_of_string s.
Proof.
  induction k as [|k IH]; [done|].
  change (zeros (S k) +:+ s) with (String (Ascii.ascii_of_nat 48) (zeros k +:+ s)).
  cbn [String.list_ascii_of_string replicate app]. by rewrite IH.
Qed.

Lemma digits_value_zeros (k : nat) (l : list Ascii.ascii) :
  digits_value (replicate k (Ascii.ascii_of_nat 48) ++ l) 0 = digits_value l 0.
Proof. induction k as [|k IH]; [done|]. exact IH. Qed.

Lemma length_list_ascii_of_string (s : string) :
  length (String.list_ascii_of_string s) = String.length s.
Proof. induction s as [|c s IH]; [done|]. simpl. by rewrite IH. Qed.

(** [pad0 w z] has exactly [w] characters, all digits, and reads back as
    [z]; here for the widths 4 and 2 of [isoformat]. *)
Lemma pad0_reads_back (w : nat) (z : Z) :
  (1 ≤ z < 10000)%Z →
  (w = 4%nat ∨ w = 2%nat ∧ (z < 100)%Z) →
  let l := String.list_ascii_of_string (pad0 w z) in
  length l = w ∧ digits_value l 0 = Some z.
Proof.
  intros Hz Hw. destruct z as [|p|p]; [lia| |lia].
  unfold pad0. change (pretty (Z.pos p)) with (pretty_N_go (N.pos p) "").
  destruct (pretty_reads_back (N.pos p)) as (H4 & H2 & Hd); [lia|].
  cbv zeta. rewrite list_ascii_of_zeros, digits_value_zeros, length_app, length_replicate.
  rewrite <- length_list_ascii_of_string. split; [|exact Hd].
  destruct Hw as [->|[-> Hlt]]; [lia|].
  assert (N.pos p < 100)%N as Hlt' by lia. specialize (H2 Hlt'). lia.
Qed.

Lemma pad0_reads_back_4 (z : Z) :
  (1 ≤ z ≤ 9999)%Z →
  ∃ a b c d, pad0 4 z = String a (String b (String c (String d EmptyString)))
             ∧ digits_value [a; b; c; d] 0 = Some z.
Proof.
  intros Hz. destruct (pad0_reads_back 4 z) as [Hl Hd]; [lia|by left|].
  destruct (pad0 4 z) as [|a [|b [|c [|d [|? ?]]]]]; try discriminate.
  by exists a, b, c, d.
Qed.

Lemma pad0_reads_back_2 (z : Z) :
  (1 ≤ z ≤ 31)%Z →
  ∃ a b, pad0 2 z = String a (String b EmptyString) ∧ digits_value [a; b] 0 = Some z.
Proof.
  intros Hz. destruct (pad0_reads_back 2 z) as [Hl Hd]; [lia|right; lia|].
  destruct (pad0 2 z) as [|a [|b [|? ?]]]; try discriminate.
  by exists a, b.
Qed.

(** X16. A date of the calendar written with [isoformat] is read back by
    [date.fromisoformat] as the same date. *)
Theorem isoformat_roundtrip (d : date) :
  valid_date d = true → fromisoformat_str (isoformat d) = Ok d.
Proof.
  intros Hv. pose proof Hv as Hv'. unfold valid_date in Hv'.
  pose proof (days_in_month_le (year d) (month d)) as Hdim.
  rewrite !andb_true_iff, !Z.leb_le in Hv'.
  destruct (pad0_reads_back_4 (year d)) as (a & b & c & e & Hy & Hyv).
  { lia. }
  destruct (pad0_reads_back_2 (month d)) as (m1 & m2 & Hm & Hmv).
  { lia. }
  destruct (pad0_reads_back_2 (day d)) as (d1 & d2 & Hd & Hdv).
  { lia. }
  unfold isoformat. rewrite Hy, Hm, Hd.
  unfold fromisoformat_str.
  change (String.list_ascii_of_string _)
    with [a; b; c; e; Ascii.ascii_of_nat 45; m1; m2; Ascii.ascii_of_nat 45; d1; d2].
  cbv beta iota. rewrite Hyv, Hmv, Hdv.
  change ((code (Ascii.ascii_of_nat 45) =? 45)%Z && (code (Ascii.ascii_of_nat 45) =? 45)%Z)
    with true. cbv iota.
  destruct d as [y m dd]. simpl in *. by rewrite Hv.
Qed.

Lemma isoformat_roundtrip_witness :
  fromisoformat_str (isoformat (Date 2024 2 29)) = Ok (Date 2024 2 29).
Proof. apply isoformat_roundtrip. reflexivity. Defined.

(** X17. A task reported through the engineer form is flagged overdue on
    the dashboard exactly when the end date picked in the form is before
    today; the row as submitted is never exempt, because its progress
    state is not the completion mark. *)
Theorem reported_task_overdue (nid : Z) (name : value) (f : report_form) (url : string)
    (today : date) :
  valid_date (end_date f) = true →
  overdue today (dict_zip TASK_HEADERS (new_task_row nid name f url)) = OVERDUE
  ↔ date_ltb (end_date f) today = true.
Proof.
  intros Hv. unfold overdue.
  destruct (overdue_with_iff fromisoformat today
              (dict_zip TASK_HEADERS (new_task_row nid name f url)) fromisoformat_truthy)
    as (Hiff & _ & _).
  rewrite Hiff. clear Hiff.
  change (dict_get _ "end_date" VNone) with (VStr (isoformat (end_date f))).
  change (dict_get _ "done_status" (VStr ""))
    with (VStr (done_status_of (understand_status f))).
  simpl. rewrite (isoformat_roundtrip _ Hv). split.
  - by intros (d & [= <-] & _ & Hlt).
  - intros Hlt. exists (end_date f). split; [done|]. split; [|done].
    by destruct (understand_status f).
Qed.

Lemma reported_task_overdue_witness :
  overdue (Date 2024 3 1) (dict_zip TASK_HEADERS (new_task_row 2 (VStr "串接 API") form_1 ""))
  = OVERDUE
  ↔ date_ltb (end_date form_1) (Date 2024 3 1) = true.
Proof. apply reported_task_overdue. reflexivity. Defined.

(** ** The raw link of an uploaded file *)

Lemma contains_app_r (needle a b : string) :
  contains needle b = true → contains needle (a +:+ b) = true.
Proof.
  intros H. induction a as [|c a IH]; [done|].
  change (String c a +:+ b) with (String c (a +:+ b)).
  cbn [contains]. rewrite IH. apply orb_true_r.
Qed.

Lemma replace_go_absent (old new s : string) :
  contains old s = false → replace_go old new 0 s = s.
Proof.
  induction s as [|c s IH]; [done|].
  cbn [contains replace_go]. intros [Hp Hc]%orb_false_iff.
  rewrite Hp. by rewrite IH.
Qed.

Lemma raw_url_contains (url : string) : contains "raw=1" (raw_url url) = true.
Proof.
  unfold raw_url.
  destruct (contains "raw=1" (replace "?dl=1" "?raw=1" (replace "?dl=0" "?raw=1" url)))
    eqn:Hc; [done|].
  by apply contains_app_r.
Qed.

(** X18. The link returned for an upload always contains "raw=1"; a link
    without "?dl=0" and "?dl=1" is returned as it is when it already
    contains "raw=1", and with "?raw=1" appended otherwise, also when
    the link already has a query string. *)
Theorem raw_url_spec (url : string) :
  contains "raw=1" (raw_url url) = true
  ∧ (contains "?dl=0" url = false → contains "?dl=1" url = false →
     raw_url url = if contains "raw=1" url then url else url +:+ "?raw=1").
Proof.
  split; [apply raw_url_contains|].
  - intros H0 H1. unfold raw_url, replace.
    by rewrite (replace_go_absent "?dl=0" _ _ H0), (replace_go_absent "?dl=1" _ _ H1).
Qed.

(** A link that already has a query string gets a second "?". *)
Example raw_url_with_query :
  raw_url "https://www.dropbox.com/scl/fi/abc/a.png?rlkey=k&dl=0"
  = "https://www.dropbox.com/scl/fi/abc/a.png?rlkey=k&dl=0?raw=1".
Proof. reflexivity. Qed.

Example raw_url_dl0 :
  raw_url "https://www.dropbox.com/s/abc/a.png?dl=0"
  = "https://www.dropbox.com/s/abc/a.png?raw=1".
Proof. reflexivity. Qed.

Lemma replace_go_no_mark (old new base rest : string) (c0 : Ascii.ascii) (old' : string) :
  old = String c0 old' →
  (∀ c, c ∈ String.list_ascii_of_string base → c ≠ c0) →
  replace_go old new 0 (base +:+ rest) = base +:+ replace_go old new 0 rest.
Proof.
  intros -> Hb. induction base as [|c base IH]; [done|].
  change (String c base +:+ rest) with (String c (base +:+ rest)).
  cbn [replace_go String.prefix].
  destruct (Ascii.ascii_dec c0 c) as [->|Hne].
  - exfalso. apply (Hb c); [|done]. simpl. apply list_elem_of_here.
  - rewrite IH; [done|]. intros c' Hc'. apply Hb. simpl. by apply list_elem_of_further.
Qed.

(** X19. The usual shared link, [<base>?dl=0] or [<base>?dl=1] with no
    other question mark, becomes [<base>?raw=1]. *)
Theorem raw_url_dl (base : string) (n : string) :
  (∀ c, c ∈ String.list_ascii_of_string base → c ≠ Ascii.ascii_of_nat 63) →
  n = "0" ∨ n = "1" →
  raw_url (base +:+ "?dl=" +:+ n) = base +:+ "?raw=1".
Proof.
  intros Hb Hn. unfold raw_url, replace.
  assert (Hrepl : replace_go "?dl=1" "?raw=1" 0
                    (replace_go "?dl=0" "?raw=1" 0 (base +:+ "?dl=" +:+ n))
                  = base +:+ "?raw=1").
  { rewrite (replace_go_no_mark "?dl=0" _ base _ (Ascii.ascii_of_nat 63) "dl=0") by done.
    destruct Hn as [-> | ->].
    - change (replace_go "?dl=0" "?raw=1" 0 ("?dl=" +:+ "0")) with "?raw=1".
      by rewrite (replace_go_no_mark "?dl=1" _ base _ (Ascii.ascii_of_nat 63) "dl=1").
    - change (replace_go "?dl=0" "?raw=1" 0 ("?dl=" +:+ "1")) with "?dl=1".
      by rewrite (replace_go_no_mark "?dl=1" _ base _ (Ascii.ascii_of_nat 63) "dl=1"). }
  rewrite Hrepl. by rewrite (contains_app_r "raw=1" base "?raw=1").
Qed.

Lemma raw_url_dl_witness :
  raw_url ("https://www.dropbox.com/s/abc/a.png" +:+ "?dl=" +:+ "0")
  = "https://www.dropbox.com/s/abc/a.png" +:+ "?raw=1".
Proof.
  apply raw_url_dl.
  - intros c Hc Heq. subst c. revert Hc. apply (bool_decide_unpack (_ ∉ _)).
    vm_compute. exact I.
  - by left.
Defined.

(** X20. What [upload_to_dropbox] returns and raises.  A URL is returned
    only when the upload succeeded; it contains "raw=1" and is the raw
    form of the new shared link or, when the link could not be created,
    of the first existing one; nothing is shown.  A failed upload shows one
    error message and raises the same exception again; without a link
    (none listed, or an empty URL) the generic failure is raised. *)
Theorem upload_to_dropbox_outcome (a : Dropbox.answers) (w : world) :
  match Dropbox.upload_to_dropbox a w with
  | (Ok u, w') =>
      w' = w ∧ Dropbox.files_upload a = Ok tt ∧ contains "raw=1" u = true
      ∧ ∃ url, url ≠ "" ∧ u = raw_url url
          ∧ (Dropbox.sharing_create_shared_link_with_settings a = Ok url
             ∨ ∃ e urls, Dropbox.sharing_create_shared_link_with_settings a = Err e
                 ∧ Dropbox.sharing_list_shared_links a = Ok (url :: urls))
  | (Err e, w') =>
      sheets w' = sheets w ∧ faults w' = faults w ∧ slept w' = slept w
      ∧ (Dropbox.files_upload a = Err e
         ∧ screen w' = screen w ++ [(UiError, "Dropbox 上傳錯誤: " +:+ exn_str e)]
         ∨ Dropbox.files_upload a = Ok tt ∧ screen w' = screen w
           ∧ (e = Dropbox.NO_LINK
              ∨ ∃ e0, Dropbox.sharing_create_shared_link_with_settings a = Err e0
                      ∧ Dropbox.sharing_list_shared_links a = Err e))
  end.
Proof.
  destruct a as [up create links], w as [s fs sl sc].
  unfold Dropbox.upload_to_dropbox, try_except, bind, lift, show, raise, ret. simpl.
  destruct up as [[]|e]; simpl.
  - destruct create as [u|e0]; simpl.
    + case_bool_decide as Hu; simpl.
      * split_and!; try done. right. split_and!; try done. by left.
      * split_and!; try done; [apply raw_url_contains|]. exists u. split_and!; try done. by left.
    + destruct links as [urls|e1]; simpl.
      * destruct urls as [|u urls]; simpl.
        -- split_and!; try done. right. split_and!; try done. by left.
        -- case_bool_decide as Hu; simpl.
           ++ split_and!; try done. right. split_and!; try done. by left.
           ++ split_and!; try done; [apply raw_url_contains|]. exists u. split_and!; try done.
              right. by exists e0, urls.
      * split_and!; try done. right. split_and!; try done. right. by exists e0.
  - split_and!; try done. by left.
Qed.

(** ** Choosing a spec *)

Lemma dict_set_keys {V} (k : string) (v : V) (d : list (string * V)) (k' : string) :
  k' ∈ (dict_set k v d).*1 ↔ k' = k ∨ k' ∈ d.*1.
Proof.
  induction d as [|[k0 v0] d IH]; simpl.
  - rewrite list_elem_of_singleton, elem_of_nil. tauto.
  - case_bool_decide as Hk; simpl.
    + subst k0. rewrite !elem_of_cons. tauto.
    + rewrite !elem_of_cons, IH. tauto.
Qed.

Lemma dict_set_elem {V} (k : string) (v : V) (d : list (string * V)) (k' : string) (v' : V) :
  (k', v') ∈ dict_set k v d → (k', v') = (k, v) ∨ (k', v') ∈ d.
Proof.
  induction d as [|[k0 v0] d IH]; simpl.
  - rewrite list_elem_of_singleton. tauto.
  - case_bool_decide as Hk; simpl.
    + rewrite !elem_of_cons. tauto.
    + rewrite !elem_of_cons. intros [?|?]; [tauto|]. destruct IH; tauto.
Qed.

Lemma dict_item_elem {V} (d : list (string * V)) (k : string) (v : V) :
  dict_item d k = Ok v → (k, v) ∈ d.
Proof.
  induction d as [|[k0 v0] d IH]; simpl; [done|].
  case_bool_decide as Hk.
  - intros [= ->]. subst. apply list_elem_of_here.
  - intros H. apply list_elem_of_further. auto.
Qed.

Lemma dict_item_key {V} (d : list (string * V)) (k : string) :
  k ∈ d.*1 → ∃ v, dict_item d k = Ok v.
Proof.
  induction d as [|[k0 v0] d IH]; simpl.
  - by intros ?%elem_of_nil.
  - case_bool_decide as Hk; [by eexists|].
    intros [?|?]%elem_of_cons; [congruence|auto].
Qed.

Lemma selectbox_elem {A} (dflt : A) (options : list A) (choice : nat) :
  options ≠ [] → selectbox dflt options choice ∈ options.
Proof.
  intros Hne. unfold selectbox. destruct (options !! choice) as [x|] eqn:Hc.
  - by eapply list_elem_of_lookup_2.
  - destruct options; [done|]. apply list_elem_of_here.
Qed.

(** What the comprehension has built after the records [srs_list]. *)
Lemma srs_options_spec (label : record → result string) (srs_list : list record)
    (d0 d : list (string * Z)) :
  foldl (λ acc s,
           result_bind acc (λ d,
           result_bind (label s) (λ k,
           result_bind (record_id s) (λ v, Ok (dict_set k v d)))))
        (Ok d0) srs_list = Ok d →
  (∀ k v, (k, v) ∈ d →
     (k, v) ∈ d0 ∨ ∃ s, s ∈ srs_list ∧ label s = Ok k ∧ record_id s = Ok v)
  ∧ (∀ k, k ∈ d0.*1 → k ∈ d.*1)
  ∧ (∀ s, s ∈ srs_list → ∃ k, label s = Ok k ∧ k ∈ d.*1).
Proof.
  revert d0. induction srs_list as [|s srs_list IH]; intros d0; simpl.
  - intros [= ->]. split_and!; [auto|auto|]. by intros s ?%elem_of_nil.
  - destruct (label s) as [k|e] eqn:Hl; simpl.
    2:{ intros H. exfalso. clear -H. induction srs_list; simpl in H; [done|auto]. }
    destruct (record_id s) as [v|e] eqn:Hv; simpl.
    2:{ intros H. exfalso. clear -H. induction srs_list; simpl in H; [done|auto]. }
    intros H. destruct (IH _ H) as (H1 & H2 & H3). split_and!.
    + intros k' v' Hin. destruct (H1 k' v' Hin) as [Hd|(s' & Hs' & ?)].
      * apply dict_set_elem in Hd as [[= -> ->]|Hd]; [|by left].
        right. exists s. split; [apply list_elem_of_here|done].
      * right. exists s'. split; [by apply list_elem_of_further|done].
    + intros k' Hk'. apply H2, dict_set_keys. by right.
    + intros s' [->|Hs']%elem_of_cons.
      * exists k. split; [done|]. apply H2, dict_set_keys. by left.
      * destruct (H3 s' Hs') as (k' & ? & ?). by exists k'.
Qed.

Lemma srs_options_total (label : record → result string) (srs_list : list record)
    (d0 : list (string * Z)) :
  (∀ s, s ∈ srs_list → (∃ k, label s = Ok k) ∧ ∃ v, record_id s = Ok v) →
  ∃ d, foldl (λ acc s,
           result_bind acc (λ d,
           result_bind (label s) (λ k,
           result_bind (record_id s) (λ v, Ok (dict_set k v d)))))
        (Ok d0) srs_list = Ok d.
Proof.
  revert d0. induction srs_list as [|s srs_list IH]; intros d0 Hall; simpl; [by eexists|].
  destruct (Hall s) as [[k ->] [v ->]]; [apply list_elem_of_here|]. simpl.
  apply IH. intros s' Hs'. apply Hall. by apply list_elem_of_further.
Qed.

(** X21. Choosing a spec on the engineer page and on the two review pages.
    Whatever the labels and wherever the user clicks, the id the page goes
    on with is [int(s["id"])] of a record [s] of the index whose label is
    the one chosen, also when two records share a label; and when the
    index is not empty and every record has a label and an id that
    converts, an id is chosen (the look-up of the chosen label never
    fails). *)
Theorem select_srs_listed (label : record → result string) (srs_list : list record)
    (choice : nat) :
  (∀ srs_id, select_srs label srs_list choice = Ok srs_id →
     ∃ s options, s ∈ srs_list ∧ record_id s = Ok srs_id
       ∧ srs_options label srs_list = Ok options
       ∧ label s = Ok (selectbox "" (options.*1) choice))
  ∧ (srs_list ≠ [] →
     (∀ s, s ∈ srs_list → (∃ k, label s = Ok k) ∧ ∃ v, record_id s = Ok v) →
     ∃ srs_id, select_srs label srs_list choice = Ok srs_id).
Proof.
  unfold select_srs, srs_options. split.
  - intros srs_id. 
    destruct (foldl _ (Ok []) srs_list) as [d|e] eqn:Hd; simpl; [|done].
    intros Hsel. apply dict_item_elem in Hsel.
    destruct (srs_options_spec _ _ _ _ Hd) as (H1 & _ & _).
    destruct (H1 _ _ Hsel) as [Hnil|(s & Hs & Hl & Hv)]; [by apply elem_of_nil in Hnil|].
    by exists s, d.
  - intros Hne Hall.
    destruct (srs_options_total label srs_list [] Hall) as [d Hd]. rewrite Hd. simpl.
    destruct (srs_options_spec _ _ _ _ Hd) as (_ & _ & H3).
    apply dict_item_key, selectbox_elem.
    destruct srs_list as [|s ?]; [done|].
    destruct (H3 s) as (k & _ & Hk); [apply list_elem_of_here|].
    intros Hd0. rewrite Hd0 in Hk. by apply elem_of_nil in Hk.
Qed.

(** Two specs of the index, the second one picked. *)
Example select_srs_second :
  select_srs srs_label (all_records (Sheet SRS_INDEX_HEADERS [srs_1; srs_2])) 1 = Ok 2%Z.
Proof. reflexivity. Qed.

(** ** Routing *)

(** X22. [main] always runs a page.  Without a role it is the login page.
    With one of the three roles the login page sets, the page run is the
    dashboard or a page that asks for exactly that role, so the role
    warning at the top of a page is never reached through [main]; and
    every page of a role can be reached by some choice. *)
Theorem main_routes_by_role (role : option string) (logout : bool) (choice : nat) :
  ∃ p, main role logout choice = Some p
    ∧ ((role = None ∨ role = Some "") → p = LoginPage)
    ∧ (∀ r, role = Some r → r ∈ login_roles →
         (∀ r', required_role p = Some r' → r' = r)
         ∧ ∀ q, required_role q = Some r → ∃ c, main role false c = Some q).
Proof.
  destruct role as [r|]; simpl.
  2:{ exists LoginPage. split_and!; [done|done|]. by intros r [=]. }
  case_bool_decide as Hr.
  { subst r. exists LoginPage. split_and!; [done|done|].
    intros r [= <-] Hin. exfalso. revert Hin. unfold login_roles.
    rewrite !elem_of_cons, elem_of_nil. intros [?|[?|[?|[]]]]; discriminate. }
  assert (Hcases : r ∈ login_roles ∨ r ∉ login_roles) by (destruct (decide (r ∈ login_roles)); auto).
  destruct Hcases as [Hin|Hnot].
  - unfold login_roles in Hin. rewrite !elem_of_cons, elem_of_nil in Hin.
    destruct Hin as [->|[->|[->|[]]]].
    + destruct logout.
      * exists LoginPage. split_and!; [done|by intros [|[=]]|].
        intros r [= <-] _. split; [by intros r' [=]|].
        intros q Hq. destruct q; try discriminate. by exists 1%nat.
      * destruct choice as [|[|choice]]; eexists; (split; [reflexivity|]);
          (split; [by intros [|[=]]|]); intros r [= <-] _;
          (split; [by intros r' [= <-]|]);
          intros q Hq; destruct q; try discriminate; by exists 1%nat.
    + destruct logout.
      * exists LoginPage. split_and!; [done|by intros [|[=]]|].
        intros r [= <-] _. split; [by intros r' [=]|].
        intros q Hq. destruct q; try discriminate. by exists 1%nat.
      * destruct choice as [|[|choice]]; eexists; (split; [reflexivity|]);
          (split; [by intros [|[=]]|]); intros r [= <-] _;
          (split; [by intros r' [= <-]|]);
          intros q Hq; destruct q; try discriminate; by exists 1%nat.
    + destruct logout.
      * exists LoginPage. split_and!; [done|by intros [|[=]]|].
        intros r [= <-] _. split; [by intros r' [=]|].
        intros q Hq. destruct q; try discriminate; first [by exists 1%nat|by exists 2%nat].
      * destruct choice as [|[|[|choice]]]; eexists; (split; [reflexivity|]);
          (split; [by intros [|[=]]|]); intros r [= <-] _;
          (split; [by intros r' [= <-]|]);
          intros q Hq; destruct q; try discriminate;
          first [by exists 1%nat|by exists 2%nat].
  - assert (∃ p, (if logout then Some LoginPage
                  else route (selectbox "" (page_names r) choice)) = Some p) as [p Hp].
    { destruct logout; [by eexists|]. unfold page_names.
      repeat case_bool_decide; destruct choice as [|[|[|choice]]]; by eexists. }
    exists p. split; [done|]. split; [by intros [|[=]]|].
    by intros r' [= <-] ?.
Qed.

(** ** The dashboard writes no row *)

Lemma triple_for_each {A B} (P : gmap string sheet → Prop) (f : A → M B) (l : list A) :
  (∀ x, triple P (f x) (λ _, P) P) → triple P (for_each f l) (λ _, P) P.
Proof.
  intros Hf. induction l as [|x l IH]; simpl.
  - by apply triple_ret.
  - eapply triple_bind; [apply Hf|]. intros y.
    eapply triple_bind; [apply IH|]. intros ys. by apply triple_ret.
Qed.

Lemma dashboard_pm_task_count_keep (P : gmap string sheet → Prop) (srs_id : Z) :
  triple P (dashboard_pm_task_count srs_id) (λ _, P) P.
Proof.
  unfold dashboard_pm_task_count.
  apply triple_try_except_all with (E' := P).
  - eapply triple_bind with (R := λ _, P).
    { eapply triple_conseq; [apply sh_worksheet_triple|done| |done]. by intros ? ? [_ ?]. }
    intros ws_pm.
    eapply triple_bind; [apply ws_get_all_values_triple|]. intros pm_values.
    by apply triple_ret.
  - intros e. by apply triple_ret.
Qed.

Lemma dashboard_eng_tasks_keep (P : gmap string sheet → Prop) (srs_id : Z) :
  triple P (dashboard_eng_tasks srs_id) (λ _, P) P.
Proof.
  unfold dashboard_eng_tasks.
  apply triple_try_except_all with (E' := P).
  - eapply triple_bind with (R := λ _, P).
    { eapply triple_conseq; [apply sh_worksheet_triple|done| |done]. by intros ? ? [_ ?]. }
    intros ws. apply read_all_keep.
  - intros e. by apply triple_ret.
Qed.

Lemma dashboard_overview_row_keep (P : gmap string sheet → Prop) (mm : gmap Z record)
    (s : record) :
  triple P (dashboard_overview_row mm s) (λ _, P) P.
Proof.
  unfold dashboard_overview_row.
  eapply triple_bind; [apply triple_lift_keep|]. intros srs_id. simpl.
  eapply triple_bind; [apply dashboard_pm_task_count_keep|]. intros n. simpl.
  eapply triple_bind; [apply dashboard_eng_tasks_keep|]. intros tasks. simpl.
  eapply triple_bind; [apply triple_lift_keep|]. intros mid. simpl.
  eapply triple_bind; [apply triple_lift_keep|]. intros mstr. simpl.
  eapply triple_bind; [apply triple_lift_keep|]. intros title. simpl.
  eapply triple_bind; [apply triple_lift_keep|]. intros version. simpl.
  by apply triple_ret.
Qed.

Lemma dashboard_pm_section_keep (P : gmap string sheet → Prop) (s : record) :
  triple P (dashboard_pm_section s) (λ _, P) P.
Proof.
  unfold dashboard_pm_section.
  eapply triple_bind; [apply triple_lift_keep|]. intros srs_id. simpl.
  eapply triple_bind; [apply triple_lift_keep|]. intros title. simpl.
  apply triple_try_except_all with (E' := P).
  - eapply triple_bind with (R := λ _, P).
    { eapply triple_conseq; [apply sh_worksheet_triple|done| |done]. by intros ? ? [_ ?]. }
    intros ws_pm.
    eapply triple_bind; [apply ws_get_all_values_triple|]. intros values. simpl.
    destruct (length values <=? 1)%nat; [by apply triple_show|by apply triple_ret].
  - intros e. by apply triple_show.
Qed.

Lemma dashboard_eng_rows_keep (P : gmap string sheet → Prop) (today : date) (s : record) :
  triple P (dashboard_eng_rows today s) (λ _, P) P.
Proof.
  unfold dashboard_eng_rows.
  eapply triple_bind; [apply triple_lift_keep|]. intros srs_id. simpl.
  eapply triple_bind with (R := λ _, P).
  { apply triple_try_except_all with (E' := P).
    - eapply triple_bind with (R := λ _, P).
      { eapply triple_conseq; [apply sh_worksheet_triple|done| |done]. by intros ? ? [_ ?]. }
      intros ws.
      eapply triple_bind; [apply read_all_keep|]. intros tasks. by apply triple_ret.
    - intros e. by apply triple_ret. }
  intros [tasks|]; by apply triple_ret.
Qed.

(** Whatever the two calls of [ensure_worksheet] keep, the page keeps. *)
Lemma page_dashboard_keep (P : gmap string sheet → Prop) (today : date) :
  triple P (ensure_worksheet "srs_index" SRS_INDEX_HEADERS) (λ _, P) P →
  triple P (ensure_worksheet "meetings" MEETINGS_HEADERS) (λ _, P) P →
  triple P (page_dashboard today) (λ _, P) P.
Proof.
  intros H1 H2. unfold page_dashboard.
  eapply triple_bind; [exact H1|]. intros ws_srs. simpl.
  eapply triple_bind; [exact H2|]. intros ws_meetings. simpl.
  eapply triple_bind; [apply read_all_keep|]. intros srs_list. simpl.
  eapply triple_bind; [apply read_all_keep|]. intros meetings. simpl.
  eapply triple_bind; [apply triple_lift_keep|]. intros mm. simpl.
  eapply triple_bind; [apply triple_for_each, dashboard_overview_row_keep|].
  intros overall. simpl.
  eapply triple_bind; [apply triple_for_each, dashboard_pm_section_keep|]. intros ?.
  eapply triple_bind; [apply triple_for_each, dashboard_eng_rows_keep|]. intros eng. simpl.
  eapply triple_bind with (R := λ _, P).
  { destruct (nonempty (concat eng)); [by apply triple_ret|by apply triple_show]. }
  intros ?. by apply triple_ret.
Qed.

Lemma same_rows_refl (titles : list string) (s : gmap string sheet) : same_rows titles s s.
Proof. by split. Qed.

Lemma ensure_worksheet_same_rows (titles : list string) (s0 : gmap string sheet)
    (title : string) (headers : list string) :
  title ∈ titles →
  triple (same_rows titles s0) (ensure_worksheet title headers)
    (λ _, same_rows titles s0) (same_rows titles s0).
Proof.
  intros Hin. apply triple_exact. intros s1 [Hs1 Hb1].
  assert (Hens : ∀ s, ensured title headers s1 s → same_rows titles s0 s).
  { intros s (Hother & Hbody & _)%ensured_keeps. split.
    - intros t Ht. rewrite Hother; [by apply Hs1|]. intros ->. by apply Ht.
    - intros t. destruct (decide (t = title)) as [->|Hne].
      + by rewrite Hbody.
      + unfold sheet_of. rewrite (Hother t Hne). apply Hb1. }
  eapply triple_conseq; [apply ensure_worksheet_triple|done| |done].
  intros ws s [_ H]. auto.
Qed.

(** X23. The dashboard writes no row.  Whatever the backend refuses and
    whether the page completes or raises, after [page_dashboard] every
    worksheet other than [srs_index] and [meetings] is as it was, and these
    two (which the page may create and give their header) have the rows
    they had. *)
Theorem page_dashboard_writes_no_row (today : date) (w : world) :
  same_rows ["srs_index"; "meetings"] (sheets w) (sheets (page_dashboard today w).2).
Proof.
  assert (H : triple (same_rows ["srs_index"; "meetings"] (sheets w)) (page_dashboard today)
                (λ _, same_rows ["srs_index"; "meetings"] (sheets w))
                (same_rows ["srs_index"; "meetings"] (sheets w))).
  { apply page_dashboard_keep; apply ensure_worksheet_same_rows; set_solver. }
  specialize (H w (same_rows_refl _ _)).
  by destruct (page_dashboard today w) as [[?|?] ?].
Qed.

(** ** When the dashboard completes *)

Lemma dashboard_pm_task_count_run (srs_id : Z) (s : gmap string sheet) (sl : list Z)
    (sc : list (ui_kind * string)) :
  dashboard_pm_task_count srs_id (World s [] sl sc)
  = (Ok (from_option (λ sh, pm_task_count_of (all_values sh)) 0%nat
           (s !! pm_tasks_title srs_id)),
     World s [] sl sc).
Proof.
  unfold dashboard_pm_task_count, try_except, bind, sh_worksheet, ws_get_all_values.
  rewrite request_run. cbv beta.
  destruct (s !! pm_tasks_title srs_id) as [sh|] eqn:Hs; cbn [fst snd].
  - rewrite request_run. cbn [fst snd]. by rewrite (lookup_sheet_of _ _ _ Hs).
  - done.
Qed.

Lemma dashboard_eng_tasks_run (srs_id : Z) (s : gmap string sheet) (sl : list Z)
    (sc : list (ui_kind * string)) :
  dashboard_eng_tasks srs_id (World s [] sl sc)
  = (Ok (from_option all_records [] (s !! tasks_title srs_id)), World s [] sl sc).
Proof.
  unfold dashboard_eng_tasks, try_except, bind, sh_worksheet.
  rewrite request_run. cbv beta.
  destruct (s !! tasks_title srs_id) as [sh|] eqn:Hs; cbn [fst snd].
  - by rewrite read_all_run, (lookup_sheet_of _ _ _ Hs).
  - done.
Qed.

Lemma dashboard_overview_row_run (mm : gmap Z record) (t : record)
    (s : gmap string sheet) (sl : list Z) (sc : list (ui_kind * string)) :
  dashboard_overview_row mm t (World s [] sl sc)
  = (result_bind (record_id t) (λ srs_id,
     result_bind (py_int (dict_get t "meeting_id" VNone)) (λ mid,
     result_bind (meeting_str_of mm mid) (λ meeting_str,
     result_bind (getitem t "title") (λ title,
     result_bind (getitem t "version") (λ version,
     Ok [VInt srs_id; title; version; VStr meeting_str;
         VInt (Z.of_nat (from_option (λ sh, pm_task_count_of (all_values sh)) 0%nat
                           (s !! pm_tasks_title srs_id)));
         VStr (progress_rate (from_option all_records [] (s !! tasks_title srs_id)));
         dict_get t "status" (VStr "待確認");
         dict_get t "review_comment" (VStr "")]))))),
     World s [] sl sc).
Proof.
  unfold dashboard_overview_row. unfold bind at 1, lift at 1.
  destruct (record_id t) as [srs_id|e]; simpl; [|done].
  unfold bind at 1. rewrite dashboard_pm_task_count_run.
  unfold bind at 1. rewrite dashboard_eng_tasks_run.
  unfold bind, lift, ret.
  destruct (py_int _) as [mid|e]; simpl; [|done].
  destruct (meeting_str_of mm mid) as [mstr|e]; simpl; [|done].
  destruct (getitem t "title") as [title|e]; simpl; [|done].
  by destruct (getitem t "version") as [version|e].
Qed.

Lemma dashboard_pm_section_run (t : record) (s : gmap string sheet) (sl : list Z)
    (sc : list (ui_kind * string)) :
  ∃ sc', dashboard_pm_section t (World s [] sl sc)
         = (result_bind (record_id t) (λ _,
            result_bind (getitem t "title") (λ _, Ok tt)),
            World s [] sl sc').
Proof.
  unfold dashboard_pm_section. unfold bind at 1, lift at 1.
  destruct (record_id t) as [srs_id|e]; simpl; [|by eexists].
  unfold bind at 1, lift at 1.
  destruct (getitem t "title") as [title|e]; simpl; [|by eexists].
  unfold try_except, bind, sh_worksheet, ws_get_all_values.
  rewrite request_run. cbv beta.
  destruct (s !! pm_tasks_title srs_id) as [sh|] eqn:Hs; cbn [fst snd].
  - rewrite request_run. cbn [fst snd].
    destruct (length _ <=? 1)%nat; by eexists.
  - by eexists.
Qed.

Lemma dashboard_eng_rows_run (today : date) (t : record) (s : gmap string sheet)
    (sl : list Z) (sc : list (ui_kind * string)) :
  dashboard_eng_rows today t (World s [] sl sc)
  = (result_bind (record_id t) (λ srs_id,
       Ok (dashboard_eng_row today srs_id
             <$> from_option all_records [] (s !! tasks_title srs_id))),
     World s [] sl sc).
Proof.
  unfold dashboard_eng_rows. unfold bind at 1, lift at 1.
  destruct (record_id t) as [srs_id|e]; simpl; [|done].
  unfold try_except, bind, sh_worksheet.
  rewrite request_run. cbv beta.
  destruct (s !! tasks_title srs_id) as [sh|] eqn:Hs; cbn [fst snd].
  - by rewrite read_all_run, (lookup_sheet_of _ _ _ Hs).
  - done.
Qed.

(** A loop whose turns neither write nor are refused. *)
Lemma for_each_run {A B} (f : A → M B) (g : A → result B) (l : list A)
    (s : gmap string sheet) (sl : list Z) :
  (∀ x sc, ∃ sc', f x (World s [] sl sc) = (g x, World s [] sl sc')) →
  ∀ sc, ∃ sc', for_each f l (World s [] sl sc) = (result_map g l, World s [] sl sc').
Proof.
  intros Hf. induction l as [|x l IH]; intros sc; [by eexists|]. simpl.
  destruct (Hf x sc) as [sc1 H1]. unfold bind at 1. rewrite H1.
  destruct (g x) as [y|e]; simpl; [|by eexists].
  destruct (IH sc1) as [sc2 H2]. unfold bind at 1. rewrite H2.
  destruct (result_map g l); by eexists.
Qed.

Lemma result_map_total {A B} (g : A → result B) (Q : A → B → Prop) (l : list A) :
  (∀ x, x ∈ l → ∃ y, g x = Ok y ∧ Q x y) →
  ∃ ys, result_map g l = Ok ys ∧ Forall2 Q l ys.
Proof.
  induction l as [|x l IH]; intros H; [by exists []|].
  destruct (H x) as (y & Hy & HQ); [apply list_elem_of_here|].
  destruct IH as (ys & Hys & HQs); [intros x' Hx'; by apply H, list_elem_of_further|].
  exists (y :: ys). simpl. rewrite Hy, Hys. split; [done|]. by constructor.
Qed.

Lemma meeting_map_values (meetings : list record) (d0 d : gmap Z record) :
  foldl (λ acc m, result_bind acc (λ d, result_bind (record_id m) (λ i, Ok (<[i := m]> d))))
    (Ok d0) meetings = Ok d →
  ∀ i m, d !! i = Some m → d0 !! i = Some m ∨ m ∈ meetings.
Proof.
  revert d0. induction meetings as [|m0 meetings IH]; intros d0; simpl.
  - intros [= ->]. auto.
  - destruct (record_id m0) as [i0|e]; simpl.
    2:{ intros H. exfalso. clear -H. induction meetings; simpl in H; [done|auto]. }
    intros H i m Him. destruct (IH _ H i m Him) as [Hd|Hin].
    + destruct (decide (i0 = i)) as [->|Hne].
      * rewrite lookup_insert_eq in Hd. injection Hd as <-. right. apply list_elem_of_here.
      * rewrite lookup_insert_ne in Hd by done. by left.
    + right. by apply list_elem_of_further.
Qed.

Lemma meeting_map_total (meetings : list record) (d0 : gmap Z record) :
  Forall (λ m, ∃ z, record_id m = Ok z) meetings →
  ∃ d, foldl (λ acc m, result_bind acc (λ d, result_bind (record_id m) (λ i, Ok (<[i := m]> d))))
         (Ok d0) meetings = Ok d.
Proof.
  intros H. revert d0. induction H as [|m meetings [z Hz] _ IH]; intros d0; simpl.
  - by eexists.
  - rewrite Hz. simpl. apply IH.
Qed.

Lemma meeting_map_fails (meetings : list record) (acc : result (gmap Z record)) :
  Exists (λ m, ∃ e, record_id m = Err e) meetings →
  ∃ e, foldl (λ acc m, result_bind acc (λ d, result_bind (record_id m) (λ i, Ok (<[i := m]> d))))
         acc meetings = Err e.
Proof.
  assert (Herr : ∀ l e,
    foldl (λ acc m, result_bind acc (λ d, result_bind (record_id m) (λ i, Ok (<[i := m]> d))))
      (Err e : result (gmap Z record)) l = Err e).
  { induction l as [|? l IHl]; intros e; simpl; [done|auto]. }
  intros H. revert acc. induction H as [m meetings [e He]|m meetings _ IH]; intros acc; simpl.
  - destruct acc as [d|e']; simpl.
    + rewrite He. simpl. eexists. apply Herr.
    + eexists. apply Herr.
  - apply IH.
Qed.

Lemma index_record_fields (r : row) :
  length r = 13%nat →
  let t := dict_zip SRS_INDEX_HEADERS r in
  record_id t = row_id r
  ∧ py_int (dict_get t "meeting_id" VNone) = py_int (default (VStr "") (r !! 1%nat))
  ∧ (∃ title version, getitem t "title" = Ok title ∧ getitem t "version" = Ok version
       ∧ r !! 2%nat = Some title ∧ r !! 8%nat = Some version)
  ∧ Some (dict_get t "status" (VStr "待確認")) = r !! 11%nat
  ∧ Some (dict_get t "review_comment" (VStr "")) = r !! 12%nat.
Proof.
  intros Hlen. do 13 (destruct r as [|? r]; [discriminate|]).
  destruct r; [|discriminate]. cbv zeta. split_and!; try reflexivity.
  by eexists _, _.
Qed.

Lemma meeting_record_line (r : row) :
  length r = 4%nat → ∃ line, meeting_line (dict_zip MEETINGS_HEADERS r) = Ok line.
Proof.
  intros Hlen. do 4 (destruct r as [|? r]; [discriminate|]).
  destruct r; [|discriminate]. by eexists.
Qed.

Lemma meeting_record_id (r : row) :
  length r = 4%nat → record_id (dict_zip MEETINGS_HEADERS r) = row_id r.
Proof.
  intros Hlen. do 4 (destruct r as [|? r]; [discriminate|]).
  destruct r; [|discriminate]. reflexivity.
Qed.

Lemma result_map_compose {A B C} (g : B → result C) (f : A → B) (l : list A) :
  result_map g (f <$> l) = result_map (λ x, g (f x)) l.
Proof.
  induction l as [|x l IH]; [done|]. rewrite fmap_cons. cbn [result_map]. by rewrite IH.
Qed.

(** The count of the dashboard is the number of rows below the first. *)
Lemma pm_task_count_rows (s : gmap string sheet) (title : string) :
  from_option (λ sh, pm_task_count_of (all_values sh)) 0%nat (s !! title)
  = length (body (sheet_of s title)).
Proof.
  unfold sheet_of. destruct (s !! title) as [[h b]|]; simpl; [|done].
  unfold pm_task_count_of, all_values. simpl.
  destruct h as [|h0 h], b as [|r b]; simpl; try done.
  - rewrite length_fmap. lia.
  - rewrite length_fmap. lia.
Qed.

(** X24. When the dashboard completes.  On an index and a meetings table
    with their headers and full rows, and with no request refused: if
    every meeting id, spec id and [meeting_id] converts with [int()], the
    page completes, changes no worksheet, and its overview table has one
    row per spec, in order, with the spec's id, title, version, status and
    review comment, the number of rows of its PM sub-task sheet and the
    progress of its task table; if one of them does not convert (a blank
    cell, for one), the whole page raises. *)
Theorem page_dashboard_completes (today : date) (s : gmap string sheet) (sl : list Z)
    (sc : list (ui_kind * string)) (ibody mbody : list row) :
  s !! "srs_index" = Some (Sheet SRS_INDEX_HEADERS ibody) →
  Forall (λ r, length r = 13%nat) ibody →
  s !! "meetings" = Some (Sheet MEETINGS_HEADERS mbody) →
  Forall (λ r, length r = 4%nat) mbody →
  (Forall (λ r, ∃ z, row_id r = Ok z) mbody →
   Forall (λ r, (∃ z, row_id r = Ok z)
                ∧ ∃ z, py_int (default (VStr "") (r !! 1%nat)) = Ok z) ibody →
   ∃ rows eng sc',
     page_dashboard today (World s [] sl sc) = (Ok (rows, eng), World s [] sl sc')
     ∧ Forall2 (λ r row,
          ∃ srs_id, row_id r = Ok srs_id
            ∧ row !! 0%nat = Some (VInt srs_id)
            ∧ row !! 1%nat = r !! 2%nat
            ∧ row !! 2%nat = r !! 8%nat
            ∧ row !! 4%nat
              = Some (VInt (Z.of_nat (length (body (sheet_of s (pm_tasks_title srs_id))))))
            ∧ row !! 5%nat
              = Some (VStr (progress_rate (all_records (sheet_of s (tasks_title srs_id)))))
            ∧ row !! 6%nat = r !! 11%nat
            ∧ row !! 7%nat = r !! 12%nat) ibody rows)
  ∧ (Exists (λ r, ∃ e, row_id r = Err e) mbody
     ∨ Exists (λ r, (∃ e, row_id r = Err e)
                    ∨ ∃ e, py_int (default (VStr "") (r !! 1%nat)) = Err e) ibody →
     ∃ e sc', page_dashboard today (World s [] sl sc) = (Err e, World s [] sl sc')).
Proof.
  intros Hi Hib Hm Hmb.
  assert (Hrun : page_dashboard today (World s [] sl sc)
    = (do mm <- lift (meeting_map (dict_zip MEETINGS_HEADERS <$> mbody));
       do srs_overall_rows <- for_each (dashboard_overview_row mm)
                                (dict_zip SRS_INDEX_HEADERS <$> ibody);
       for_each dashboard_pm_section (dict_zip SRS_INDEX_HEADERS <$> ibody) ;;
       do eng <- for_each (dashboard_eng_rows today) (dict_zip SRS_INDEX_HEADERS <$> ibody);
       (if nonempty (concat eng) then ret tt
        else show UiInfo "目前尚無工程師回報任務。") ;;
       ret (srs_overall_rows, concat eng)) (World s [] sl sc)).
  { unfold page_dashboard. unfold bind at 1.
    rewrite (ensure_worksheet_run _ _ _ _ _ _ Hi eq_refl).
    unfold bind at 1. rewrite (ensure_worksheet_run _ _ _ _ _ _ Hm eq_refl).
    unfold bind at 1. rewrite read_all_run, (lookup_sheet_of _ _ _ Hi).
    unfold bind at 1. rewrite read_all_run, (lookup_sheet_of _ _ _ Hm).
    by rewrite !all_records_uniform by done. }
  rewrite Hrun. clear Hrun.
  split.
  - (* every id converts *)
    intros Hmg Hig.
    destruct (meeting_map_total (dict_zip MEETINGS_HEADERS <$> mbody) ∅) as [mm Hmm].
    { apply Forall_fmap. rewrite Forall_forall in Hmg, Hmb. apply Forall_forall.
      intros r Hr. simpl. rewrite (meeting_record_id r (Hmb r Hr)). by apply Hmg. }
    assert (Hline : ∀ mid, ∃ line, meeting_str_of mm mid = Ok line).
    { intros mid. unfold meeting_str_of. destruct (mm !! mid) as [m|] eqn:Hmid; [|by eexists].
      case_bool_decide; [by eexists|].
      destruct (meeting_map_values _ _ _ Hmm mid m Hmid) as [Hempty|Hin].
      - by rewrite lookup_empty in Hempty.
      - apply list_elem_of_fmap in Hin as (r & -> & Hr).
        rewrite Forall_forall in Hmb. by apply meeting_record_line, Hmb. }
    unfold bind at 1, lift at 1. unfold meeting_map. rewrite Hmm.
    destruct (for_each_run (dashboard_overview_row mm) _
                (dict_zip SRS_INDEX_HEADERS <$> ibody) s sl
                (λ x sc0, ex_intro _ sc0 (dashboard_overview_row_run mm x s sl sc0)) sc)
      as [sc1 H1].
    unfold bind at 1. rewrite H1. clear H1. rewrite result_map_compose.
    match goal with |- context [result_map ?g ibody] =>
      destruct (result_map_total g
        (λ r row,
           ∃ srs_id, row_id r = Ok srs_id
             ∧ row !! 0%nat = Some (VInt srs_id)
             ∧ row !! 1%nat = r !! 2%nat
             ∧ row !! 2%nat = r !! 8%nat
             ∧ row !! 4%nat
               = Some (VInt (Z.of_nat (length (body (sheet_of s (pm_tasks_title srs_id))))))
             ∧ row !! 5%nat
               = Some (VStr (progress_rate (all_records (sheet_of s (tasks_title srs_id)))))
             ∧ row !! 6%nat = r !! 11%nat
             ∧ row !! 7%nat = r !! 12%nat) ibody) as (rows & Hrows & HQ)
    end.
    { intros r Hr. rewrite Forall_forall in Hib, Hig.
      destruct (Hig r Hr) as [[srs_id Hid] [mid Hmid]].
      destruct (index_record_fields r (Hib r Hr))
        as (E1 & E2 & (title & version & E3 & E4 & E5 & E6) & E7 & E8).
      cbv zeta in *. rewrite E1, Hid, E2, Hmid. simpl.
      destruct (Hline mid) as [line ->]. simpl. rewrite E3, E4. simpl.
      eexists. split; [reflexivity|]. exists srs_id. split_and!; try done.
      - simpl. do 3 f_equal. apply pm_task_count_rows.
      - simpl. do 3 f_equal. unfold sheet_of. by destruct (s !! tasks_title srs_id). }
    rewrite Hrows. cbv beta iota.
    destruct (for_each_run dashboard_pm_section _
                (dict_zip SRS_INDEX_HEADERS <$> ibody) s sl
                (λ x sc0, dashboard_pm_section_run x s sl sc0) sc1)
      as [sc2 H2].
    unfold bind at 1. rewrite H2. clear H2. rewrite result_map_compose.
    match goal with |- context [result_map ?g ibody] =>
      destruct (result_map_total g (λ _ _, True) ibody) as (us & Hus & _)
    end.
    { intros r Hr. rewrite Forall_forall in Hib, Hig.
      destruct (Hig r Hr) as [[srs_id Hid] _].
      destruct (index_record_fields r (Hib r Hr))
        as (E1 & _ & (title & version & E3 & _) & _).
      cbv zeta in *. rewrite E1, Hid, E3. simpl. by eexists. }
    rewrite Hus. cbv beta iota.
    destruct (for_each_run (dashboard_eng_rows today) _
                (dict_zip SRS_INDEX_HEADERS <$> ibody) s sl
                (λ x sc0, ex_intro _ sc0 (dashboard_eng_rows_run today x s sl sc0)) sc2)
      as [sc3 H3].
    unfold bind at 1. rewrite H3. clear H3. rewrite result_map_compose.
    match goal with |- context [result_map ?g ibody] =>
      destruct (result_map_total g (λ _ _, True) ibody) as (eng & Heng & _)
    end.
    { intros r Hr. rewrite Forall_forall in Hib, Hig.
      destruct (Hig r Hr) as [[srs_id Hid] _].
      destruct (index_record_fields r (Hib r Hr)) as (E1 & _).
      cbv zeta in *. rewrite E1, Hid. simpl. by eexists. }
    rewrite Heng. cbv beta iota.
    exists rows, (concat eng). unfold bind, ret, show.
    destruct (nonempty (concat eng)); eexists; (split; [reflexivity|exact HQ]).
  - (* some id does not convert *)
    intros Hbad. unfold bind at 1, lift at 1. unfold meeting_map.
    destruct (foldl _ (Ok ∅) (dict_zip MEETINGS_HEADERS <$> mbody)) as [mm|e] eqn:Hmm;
      [|by eexists _, _].
    destruct Hbad as [Hbad|Hbad].
    { exfalso.
      destruct (meeting_map_fails (dict_zip MEETINGS_HEADERS <$> mbody) (Ok ∅)) as [e He].
      - apply Exists_fmap. rewrite Exists_exists in Hbad. apply Exists_exists.
        destruct Hbad as (r & Hr & e & He). exists r. split; [done|]. exists e.
        simpl. rewrite Forall_forall in Hmb. by rewrite (meeting_record_id r (Hmb r Hr)).
      - congruence. }
    destruct (for_each_run (dashboard_overview_row mm) _
                (dict_zip SRS_INDEX_HEADERS <$> ibody) s sl
                (λ x sc0, ex_intro _ sc0 (dashboard_overview_row_run mm x s sl sc0)) sc)
      as [sc1 H1].
    unfold bind at 1. rewrite H1. clear H1. rewrite result_map_compose.
    apply Exists_exists in Hbad as (r & Hr & Hbad).
    match goal with |- context [result_map ?g ibody] =>
      destruct (result_map_Err_intro g ibody r) with (e :=
        match row_id r with
        | Err e => e
        | Ok _ => match py_int (default (VStr "") (r !! 1%nat)) with
                  | Err e => e
                  | Ok _ => retries_exhausted
                  end
        end) as [e He]
    end.
    + done.
    + rewrite Forall_forall in Hib.
      destruct (index_record_fields r (Hib r Hr)) as (E1 & E2 & _).
      cbv zeta in *. rewrite E1, E2.
      destruct Hbad as [[e He]|[e He]].
      * by rewrite He.
      * rewrite He. by destruct (row_id r).
    + rewrite He. by eexists _, _.
Qed.

Lemma page_dashboard_completes_witness :
  ∃ rows eng sc',
    page_dashboard (Date 2024 3 1) (World sheets_7 [] [] [])
    = (Ok (rows, eng), World sheets_7 [] [] sc')
    ∧ Forall2 (λ r row,
         ∃ srs_id, row_id r = Ok srs_id
           ∧ row !! 0%nat = Some (VInt srs_id)
           ∧ row !! 1%nat = r !! 2%nat
           ∧ row !! 2%nat = r !! 8%nat
           ∧ row !! 4%nat
             = Some (VInt (Z.of_nat (length (body (sheet_of sheets_7
                                                     (pm_tasks_title srs_id))))))
           ∧ row !! 5%nat
             = Some (VStr (progress_rate (all_records (sheet_of sheets_7
                                                         (tasks_title srs_id)))))
           ∧ row !! 6%nat = r !! 11%nat
           ∧ row !! 7%nat = r !! 12%nat) [srs_1; srs_2] rows.
Proof.
  destruct (page_dashboard_completes (Date 2024 3 1) sheets_7 [] [] [srs_1; srs_2]
              [[VInt 1; VStr "2024-01-01"; VStr "Kickoff";
                VStr "Need a report export feature"]]) as [HA _].
  - reflexivity.
  - repeat constructor.
  - reflexivity.
  - repeat constructor.
  - apply HA.
    + repeat constructor. by exists 1%Z.
    + repeat constructor; by eexists.
Defined.

(** The rows the dashboard shows for [sheets_7] on 2024-03-01: the first
    spec has two PM sub-tasks and one task, none done, and that task is
    overdue. *)
Example page_dashboard_scenario :
  (page_dashboard (Date 2024 3 1) (World sheets_7 [] [] [])).1
  = Ok ([[VInt 1; VStr "Export CSV"; VStr "v0.1"; VStr "M-1 | 2024-01-01 | Kickoff";
          VInt 2; VStr "0/1"; VStr "待確認"; VStr ""];
         [VInt 2; VStr "Import CSV"; VStr "v0.2"; VStr "M-1 | 2024-01-01 | Kickoff";
          VInt 0; VStr "0/0"; VStr "已通過"; VStr "沒問題"]],
        [[VInt 1; VStr "設計登入頁"; VStr "Engineer"; VStr "已理解"; VFloat 3 2 "1.5";
          VStr "2024-01-01"; VStr "2024-01-05"; VStr "進行中"; VStr "已通過";
          VStr "⚠ 逾期"]]).
Proof. reflexivity. Qed.

(** ** Saving the spec review without touching the form *)





(** ** The completion mark is never written *)

Lemma action_tasks_inv (R : row → Prop) (w w' : world) :
  (∀ r, R r → length r = 11%nat) →
  (∀ nid name f url, R (new_task_row nid name f url)) →
  (∀ choice r r', R r → reviewed_task_row choice (dict_zip TASK_HEADERS r) = Ok r' → R r') →
  action w w' → tasks_inv R (sheets w) → tasks_inv R (sheets w').
Proof.
  intros Hlen Hnew Hrev Hact Hw. destruct Hact as [w w' Hstep|title headers w Hin|today w|w w' Heq].
  - by eapply (step_tasks_inv R).
  - assert (Ht : is_task_title title = false).
    { apply elem_of_cons in Hin as [->|Hin]; [done|].
      apply elem_of_cons in Hin as [->|Hin]; [done|]. by apply elem_of_nil in Hin. }
    pose proof (ensure_worksheet_insensitive (tasks_inv R) title headers
                  (tasks_inv_insensitive R title Ht) w Hw) as H.
    destruct (ensure_worksheet title headers w) as [[?|?] ?]; [by destruct H|done].
  - pose proof (page_dashboard_keep (tasks_inv R) today) as H.
    assert (He : ∀ title headers, is_task_title title = false →
              triple (tasks_inv R) (ensure_worksheet title headers)
                (λ _, tasks_inv R) (tasks_inv R)).
    { intros title headers Ht.
      eapply triple_conseq;
        [apply (ensure_worksheet_insensitive (tasks_inv R) title headers);
         by apply tasks_inv_insensitive
        |done| |done].
      by intros ? ? [_ ?]. }
    specialize (H (He "srs_index" SRS_INDEX_HEADERS eq_refl)
                  (He "meetings" MEETINGS_HEADERS eq_refl) w Hw).
    by destruct (page_dashboard today w) as [[?|?] ?].
  - by rewrite Heq.
Qed.

Lemma rtc_action_tasks_inv (R : row → Prop) (w w' : world) :
  (∀ r, R r → length r = 11%nat) →
  (∀ nid name f url, R (new_task_row nid name f url)) →
  (∀ choice r r', R r → reviewed_task_row choice (dict_zip TASK_HEADERS r) = Ok r' → R r') →
  rtc action w w' → tasks_inv R (sheets w) → tasks_inv R (sheets w').
Proof.
  intros Hlen Hnew Hrev. induction 1 as [|w1 w2 w3 Ha _ IH]; [done|].
  intros H. eapply IH, action_tasks_inv; eauto.
Qed.

(** X14. The completion mark "已完成" is never written.  From worksheets
    whose task tables hold no row marked "已完成" (an empty spreadsheet, for
    one), after any sequence of page actions, dashboard views, reads and
    refused requests, with any inputs, no task table holds such a row; so
    the dashboard's task list of any spec, whatever the backend refuses,
    counts no task as done and its progress reads "0/<total>". *)
Theorem done_mark_never_written (w w' : world) :
  tasks_inv not_done (sheets w) →
  rtc action w w' →
  tasks_inv not_done (sheets w')
  ∧ ∀ srs_id, ∃ tasks w'',
      dashboard_eng_tasks srs_id w' = (Ok tasks, w'')
      ∧ done_count tasks = 0%nat
      ∧ progress_rate tasks = "0/" +:+ pretty (length tasks).
Proof.
  intros Hw Hsteps.
  assert (Hlen : ∀ r, not_done r → length r = 11%nat) by (by intros r [? _]).
  assert (Hw' : tasks_inv not_done (sheets w')).
  { eapply (rtc_action_tasks_inv not_done); [exact Hlen| | |exact Hsteps|exact Hw].
    - apply not_done_new.
    - apply not_done_review. }
  split; [done|]. intros srs_id.
  assert (Ht : triple (tasks_inv not_done) (dashboard_eng_tasks srs_id)
                 (λ tasks _, done_count tasks = 0%nat) (λ _, False)).
  { unfold dashboard_eng_tasks.
    apply triple_try_except_all with (E' := λ _, True).
    - eapply triple_bind.
      { eapply triple_conseq; [apply sh_worksheet_triple|done|done|done]. }
      intros ws.
      eapply triple_conseq;
        [apply (read_all_triple (λ s, ws = tasks_title srs_id ∧ tasks_inv not_done s))
        |done| |done].
      intros recs s [[-> Hs] ->].
      destruct (task_sheet_inv_records not_done Hlen (sheet_of s (tasks_title srs_id)))
        as (rows & -> & Hrows).
      + apply (tasks_inv_sheet_of not_done); [done|apply is_task_title_tasks].
      + by apply done_count_not_done.
    - intros e. by apply triple_ret. }
  specialize (Ht w' Hw').
  destruct (dashboard_eng_tasks srs_id w') as [[tasks|e] w'']; [|done].
  exists tasks, w''. split; [done|]. split; [done|]. by apply progress_rate_none_done.
Qed.

Lemma done_mark_never_written_witness :
  let w := World ∅ [] [] [] in
  let w' := (page_dashboard (Date 2024 3 1) (page_engineer 1 form_1 true w).2).2 in
  tasks_inv not_done (sheets w')
  ∧ ∀ srs_id, ∃ tasks w'',
      dashboard_eng_tasks srs_id w' = (Ok tasks, w'')
      ∧ done_count tasks = 0%nat
      ∧ progress_rate tasks = "0/" +:+ pretty (length tasks).
Proof.
  intros w w'. apply (done_mark_never_written w w').
  - intros t sh Hl. simpl in Hl. by rewrite lookup_empty in Hl.
  - eapply rtc_l; [apply action_step, step_engineer|].
    apply rtc_once, action_dashboard.
Defined.
